(** * The Xdas tutorial repository: notebooks and README as verified data

    The repository holds no Python module of its own: its content is the
    Jupyter notebook [02_link_multi_acquisitions.ipynb] (two revisions) and
    the [README.md] (three revisions).  This development embeds

    - the text of the README revisions and the cells of the notebook
      (source lines and recorded outputs), verbatim;
    - the lexical structure of the code cells (a tokenizer for the Python
      lines, the IPython shell escape, the calls a cell makes);
    - the recorded outputs, parsed back into collection shapes;
    - the code cells 1 to 11 and 13 as programs over a store of Xdas objects, in a
      state-and-error monad, checked against the recorded outputs. *)

From Stdlib Require Import Strings.String Strings.Ascii.
From Stdlib Require Import Numbers.DecimalString Numbers.DecimalN Numbers.DecimalNat.
From Stdlib Require Import List Bool Arith ZArith NArith Lia.
Import ListNotations.

Local Open Scope string_scope.
Local Open Scope list_scope.

(** ** Text utilities *)

Module Text.

(** The double-quote character, and a Python string literal [q "abc"]. *)
Definition dquote : ascii := ascii_of_nat 34.

Definition q (s : string) : string :=
  String dquote (s ++ String dquote EmptyString).

(** A source line assembled from its pieces. *)
Definition py (pieces : list string) : string := String.concat "" pieces.

Definition code_of (c : ascii) : N := N_of_ascii c.

Definition is_digit (c : ascii) : bool :=
  ((48 <=? code_of c) && (code_of c <=? 57))%N.

Definition is_alpha (c : ascii) : bool :=
  (((65 <=? code_of c) && (code_of c <=? 90))
   || ((97 <=? code_of c) && (code_of c <=? 122))
   || (code_of c =? 95))%N.

Definition is_space (c : ascii) : bool :=
  ((code_of c =? 32) || (code_of c =? 9))%N.

(** Number of leading blanks of a line, and the line without them. *)
Fixpoint indent_of (s : string) : nat :=
  match s with
  | String c s' => if is_space c then S (indent_of s') else 0
  | EmptyString => 0
  end.

Fixpoint lstrip (s : string) : string :=
  match s with
  | String c s' => if is_space c then lstrip s' else s
  | EmptyString => EmptyString
  end.

Definition starts_with (p s : string) : bool := String.prefix p s.

Fixpoint drop (n : nat) (s : string) : string :=
  match n, s with
  | S n', String _ s' => drop n' s'
  | _, _ => s
  end.

Definition ends_with (p s : string) : bool :=
  let n := String.length s - String.length p in
  (String.length p <=? String.length s)%nat && String.eqb (drop n s) p.

Definition drop_end (n : nat) (s : string) : string :=
  String.substring 0 (String.length s - n) s.

(** [contains sub s]: [sub] occurs in [s]. *)
Fixpoint contains (sub s : string) : bool :=
  String.prefix sub s
  || match s with
     | String _ s' => contains sub s'
     | EmptyString => false
     end.

(** The string whose characters are given last one first. *)
Definition string_of_rev (r : list ascii) : string :=
  fold_left (fun acc c => String c acc) r EmptyString.

(** Split [s] at every occurrence of the separator [sep] (non empty).
    [skip] counts the characters of a separator still to be dropped and
    [cur] holds the current field, reversed. *)
Fixpoint split_go (sep : string) (skip : nat) (cur : list ascii) (s : string)
  : list string :=
  match s with
  | EmptyString => [string_of_rev cur]
  | String c s' =>
      match skip with
      | S k => split_go sep k cur s'
      | O =>
          if String.prefix sep s
          then string_of_rev cur :: split_go sep (String.length sep - 1) [] s'
          else split_go sep 0 (c :: cur) s'
      end
  end.

Definition split_on (sep s : string) : list string := split_go sep 0 [] s.

(** Decimal numerals. *)
Definition parse_N (s : string) : option N :=
  match s with
  | EmptyString => None
  | _ => option_map N.of_uint (NilEmpty.uint_of_string s)
  end.

Definition show_N (n : N) : string := NilEmpty.string_of_uint (N.to_uint n).

Definition show_nat (n : nat) : string := NilEmpty.string_of_uint (Nat.to_uint n).

(** First word of a line (up to the first blank). *)
Definition first_word (s : string) : string :=
  match split_on " " (lstrip s) with
  | w :: _ => w
  | [] => ""
  end.

Definition str_in (s : string) (l : list string) : bool :=
  existsb (String.eqb s) l.

End Text.

Import Text.

(** ** The notebook format (nbformat 4)

    A notebook is a list of cells.  A code cell carries its execution count,
    its source lines and the outputs recorded when it was run; the four
    output kinds are those of nbformat 4.  Lines are stored without their
    end-of-line character. *)

Module Nbformat.

Inductive output : Type :=
| execute_result (execution_count : Z) (text_plain : list string)
| stream (name : string) (text : list string)
| display_data (text_plain : list string)
| error (ename evalue : string) (traceback : list string).

Inductive cell : Type :=
| markdown (source : list string)
| code (execution_count : option Z) (source : list string)
       (outputs : list output).

Definition is_code (c : cell) : bool :=
  match c with code _ _ _ => true | markdown _ => false end.

Definition source (c : cell) : list string :=
  match c with code _ s _ => s | markdown s => s end.

Definition outputs (c : cell) : list output :=
  match c with code _ _ o => o | markdown _ => [] end.

Definition execution_count (c : cell) : option Z :=
  match c with code n _ _ => n | markdown _ => None end.

Definition code_cells (nb : list cell) : list cell := filter is_code nb.



(** The value a cell displays: the text of its [execute_result]. *)
Definition displayed (c : cell) : option (list string) :=
  match outputs c with
  | [execute_result _ t] => Some t
  | _ => None
  end.

(** What a cell printed on a stream. *)
Definition printed (c : cell) : list string :=
  flat_map (fun o => match o with stream _ t => t | _ => [] end) (outputs c).

(** The code cell with a given execution count. *)
Definition cell_numbered (nb : list cell) (n : Z) : option cell :=
  find (fun c => match execution_count c with
                 | Some k => Z.eqb k n
                 | None => false
                 end) nb.

End Nbformat.

Import Nbformat.

(** ** Lexical structure of a code cell *)

Module Lexer.

Inductive token : Type :=
| NAME (s : string)
| NUMBER (s : string)
| STRING (prefix body : string)
| OP (c : ascii).

Inductive mode : Type :=
| Default
| InName (r : list ascii)
| InNumber (r : list ascii)
| InString (delim : ascii) (prefix : string) (r : list ascii)
| InEscape (delim : ascii) (prefix : string) (r : list ascii)
| InComment.

Definition is_quote (c : ascii) : bool :=
  ((code_of c =? 34) || (code_of c =? 39))%N.
Definition is_hash (c : ascii) : bool := (code_of c =? 35)%N.
Definition is_backslash (c : ascii) : bool := (code_of c =? 92)%N.
Definition is_dot (c : ascii) : bool := (code_of c =? 46)%N.

(** A character met outside any token. *)
Definition start (c : ascii) (acc : list token) : mode * list token :=
  if is_alpha c then (InName [c], acc)
  else if is_digit c then (InNumber [c], acc)
  else if is_quote c then (InString c "" [], acc)
  else if is_hash c then (InComment, acc)
  else if is_space c then (Default, acc)
  else (Default, OP c :: acc).

Definition step (m : mode) (c : ascii) (acc : list token) : mode * list token :=
  match m with
  | Default => start c acc
  | InName r =>
      if is_alpha c || is_digit c then (InName (c :: r), acc)
      else if is_quote c then (InString c (string_of_rev r) [], acc)
      else start c (NAME (string_of_rev r) :: acc)
  | InNumber r =>
      if is_digit c || is_alpha c || is_dot c then (InNumber (c :: r), acc)
      else start c (NUMBER (string_of_rev r) :: acc)
  | InString d p r =>
      if Ascii.eqb c d then (Default, STRING p (string_of_rev r) :: acc)
      else if is_backslash c then (InEscape d p (c :: r), acc)
      else (InString d p (c :: r), acc)
  | InEscape d p r => (InString d p (c :: r), acc)
  | InComment => (InComment, acc)
  end.

Definition flush (m : mode) (acc : list token) : list token :=
  match m with
  | InName r => NAME (string_of_rev r) :: acc
  | InNumber r => NUMBER (string_of_rev r) :: acc
  | InString _ p r | InEscape _ p r => STRING p (string_of_rev r) :: acc
  | Default | InComment => acc
  end.

Fixpoint run (m : mode) (s : string) (acc : list token) : list token :=
  match s with
  | EmptyString => rev (flush m acc)
  | String c s' => let '(m', acc') := step m c acc in run m' s' acc'
  end.

(** Tokens of one physical line; comments and blanks are dropped. *)
Definition tokenize (line : string) : list token := run Default line [].

(** IPython sends a line that starts with [!] to the system shell and a
    line that starts with [%] to a magic command. *)
Definition is_shell_escape (line : string) : bool := starts_with "!" (lstrip line).
Definition is_magic (line : string) : bool := starts_with "%" (lstrip line).

Definition python_lines (src : list string) : list string :=
  filter (fun l => negb (is_shell_escape l || is_magic l)) src.

Definition shell_lines (src : list string) : list string :=
  filter is_shell_escape src.

Definition tokens (src : list string) : list token :=
  flat_map tokenize (python_lines src).

(** The keywords of Python 3.12, and its soft keywords. *)
Definition keywords : list string :=
  ["False"; "None"; "True"; "and"; "as"; "assert"; "async"; "await";
   "break"; "class"; "continue"; "def"; "del"; "elif"; "else"; "except";
   "finally"; "for"; "from"; "global"; "if"; "import"; "in"; "is";
   "lambda"; "nonlocal"; "not"; "or"; "pass"; "raise"; "return"; "try";
   "while"; "with"; "yield"; "match"; "case"; "type"].

Definition is_keyword (s : string) : bool := str_in s keywords.

(** Keywords occurring in a cell, in order of appearance. *)
Definition keywords_of (src : list string) : list string :=
  flat_map (fun t => match t with
                     | NAME s => if is_keyword s then [s] else []
                     | _ => []
                     end) (tokens src).

(** *** Calls

    A call is a name followed by an opening parenthesis.  The tokens
    before the name tell what is called: a plain name [f(...)], an
    attribute of a plain name [base.attr(...)], or an attribute of a
    larger expression [<expr>.attr(...)]. *)

Inductive callee : Type :=
| Global (f : string)
| Qualified (base attr : string)
| Method (attr : string).


Definition is_lparen (c : ascii) : bool := (code_of c =? 40)%N.

Definition callee_before (before : list token) : list callee :=
  match before with
  | NAME f :: OP d :: NAME b :: OP d' :: _ =>
      if is_dot d then (if is_dot d' then [Method f] else [Qualified b f])
      else if is_keyword f then [] else [Global f]
  | NAME f :: OP d :: NAME b :: _ =>
      if is_dot d then [Qualified b f]
      else if is_keyword f then [] else [Global f]
  | NAME f :: OP d :: _ =>
      if is_dot d then [Method f]
      else if is_keyword f then [] else [Global f]
  | NAME f :: _ => if is_keyword f then [] else [Global f]
  | _ => []
  end.

(** [before] is the list of the tokens already read, last one first. *)
Fixpoint calls_go (before : list token) (ts : list token) : list callee :=
  match ts with
  | [] => []
  | t :: ts' =>
      (match t with
       | OP c => if is_lparen c then callee_before before else []
       | _ => []
       end) ++ calls_go (t :: before) ts'
  end.

Definition calls (src : list string) : list callee := calls_go [] (tokens src).

(** *** Imports: [import a.b.c as x] binds [x] to the module [a.b.c]. *)

Fixpoint dotted (ts : list token) : option (list string * list token) :=
  match ts with
  | NAME a :: OP d :: ts' =>
      if is_dot d
      then match dotted ts' with
           | Some (path, rest) => Some (a :: path, rest)
           | None => None
           end
      else Some ([a], OP d :: ts')
  | NAME a :: ts' => Some ([a], ts')
  | _ => None
  end.

Definition import_of (line : string) : option (string * list string) :=
  match tokenize line with
  | NAME "import" :: ts =>
      match dotted ts with
      | Some (path, [NAME "as"; NAME alias]) => Some (alias, path)
      | Some (path, []) => Some (hd "" path, path)
      | _ => None
      end
  | _ => None
  end.

Fixpoint imports (src : list string) : list (string * list string) :=
  match src with
  | [] => []
  | l :: src' =>
      match import_of l with
      | Some i => i :: imports src'
      | None => imports src'
      end
  end.

End Lexer.

Import Lexer.

(** ** Recorded outputs: the text form of arrays and collections

    Xdas displays a [DataArray] by a header
    [<xdas.DataArray (time: 37500, distance: 9998)>] and a collection by an
    indented outline: a line [Name:] followed, two columns deeper, by one
    line per entry, [key: <header>] for an array and [key: ] followed by the
    outline of a nested collection.  [shape] is what such a text shows. *)

Module Repr.

Set Warnings "-register-all".

Inductive shape : Type :=
| Array (dims : list (string * N))
| Collection (name : string) (entries : list (string * shape)).

(** *** Printing *)

Fixpoint spaces (n : nat) : string :=
  match n with
  | O => ""
  | S n' => String " " (spaces n')
  end.

Definition show_dim (d : string * N) : string :=
  (fst d ++ ": " ++ show_N (snd d))%string.

Definition show_array (dims : list (string * N)) : string :=
  ("<xdas.DataArray (" ++ String.concat ", " (map show_dim dims) ++ ")>")%string.

Fixpoint show_at (ind : nat) (s : shape) : list string :=
  match s with
  | Array dims => [(spaces ind ++ show_array dims)%string]
  | Collection name entries =>
      (spaces ind ++ name ++ ":")%string
      :: (fix show_entries (es : list (string * shape)) : list string :=
            match es with
            | [] => []
            | (k, Array dims) :: es' =>
                (spaces (ind + 2) ++ k ++ ": " ++ show_array dims)%string
                :: show_entries es'
            | (k, sub) :: es' =>
                (spaces (ind + 2) ++ k ++ ": ")%string
                :: show_at (ind + 4) sub ++ show_entries es'
            end) entries
  end.

Definition show (s : shape) : list string := show_at 0 s.

(** *** Parsing *)

(** The outline of a text by indentation: the children of a line are the
    following lines that are indented deeper, up to the next line that is
    not. *)
Inductive rose : Type :=
| Node (indent : nat) (text : string) (kids : list rose).

Definition indent (r : rose) : nat := match r with Node d _ _ => d end.

Fixpoint take_deeper (d : nat) (rs : list rose) : list rose :=
  match rs with
  | r :: rs' => if (d <? indent r)%nat then r :: take_deeper d rs' else []
  | [] => []
  end.

Fixpoint drop_deeper (d : nat) (rs : list rose) : list rose :=
  match rs with
  | r :: rs' => if (d <? indent r)%nat then drop_deeper d rs' else rs
  | [] => []
  end.

Definition add_line (line : string) (below : list rose) : list rose :=
  let d := indent_of line in
  Node d (lstrip line) (take_deeper d below) :: drop_deeper d below.

Definition outline (lines : list string) : list rose :=
  fold_right add_line [] lines.

Fixpoint split_first_go (sep : string) (cur : list ascii) (s : string)
  : option (string * string) :=
  match s with
  | EmptyString => None
  | String c s' =>
      if String.prefix sep s
      then Some (string_of_rev cur, drop (String.length sep) s)
      else split_first_go sep (c :: cur) s'
  end.

Definition split_first (sep s : string) : option (string * string) :=
  split_first_go sep [] s.

Fixpoint all_some {A} (l : list (option A)) : option (list A) :=
  match l with
  | [] => Some []
  | Some x :: l' => option_map (cons x) (all_some l')
  | None :: _ => None
  end.

Definition parse_dim (s : string) : option (string * N) :=
  match split_on ": " s with
  | [name; size] => option_map (pair name) (parse_N size)
  | _ => None
  end.

Definition array_open : string := "<xdas.DataArray (".
Definition array_close : string := ")>".

Definition parse_array (s : string) : option (list (string * N)) :=
  if starts_with array_open s && ends_with array_close s
  then all_some (map parse_dim
                   (split_on ", " (drop_end 2 (drop (String.length array_open) s))))
  else None.

Fixpoint parse_collection (r : rose) : option shape :=
  match r with
  | Node _ text kids =>
      if ends_with ":" text
      then
        option_map (Collection (drop_end 1 text))
          ((fix parse_entries (ks : list rose) : option (list (string * shape)) :=
              match ks with
              | [] => Some []
              | Node _ t sub :: ks' =>
                  match split_first ": " t with
                  | None => None
                  | Some (key, rest) =>
                      let value :=
                        match sub with
                        | [] => option_map Array (parse_array rest)
                        | [h] => if String.eqb rest "" then parse_collection h else None
                        | _ => None
                        end in
                      match value, parse_entries ks' with
                      | Some v, Some es => Some ((key, v) :: es)
                      | _, _ => None
                      end
                  end
              end) kids)
      else None
  end.

(** The shape displayed by a recorded output: a collection outline, or
    the header line of an array (the lines that follow the header give the
    storage and the coordinate ranges). *)
Definition parse (lines : list string) : option shape :=
  match lines with
  | [] => None
  | first :: _ =>
      if starts_with array_open first
      then option_map Array (parse_array first)
      else match outline lines with
           | [r] => parse_collection r
           | _ => None
           end
  end.

(** *** Observations on shapes *)

(** All arrays of a shape, each with the path of keys that leads to it. *)
Fixpoint arrays_at (path : list string) (s : shape)
  : list (list string * list (string * N)) :=
  match s with
  | Array dims => [(path, dims)]
  | Collection _ entries =>
      flat_map (fun e => arrays_at (path ++ [fst e]) (snd e)) entries
  end.

Definition arrays (s : shape) : list (list string * list (string * N)) :=
  arrays_at [] s.

(** The tree of names and keys, sizes forgotten. *)
Fixpoint skeleton (s : shape) : shape :=
  match s with
  | Array dims => Array []
  | Collection name entries =>
      Collection name (map (fun e => (fst e, skeleton (snd e))) entries)
  end.

Definition keys (s : shape) : list string :=
  match s with
  | Array _ => []
  | Collection _ entries => map fst entries
  end.

Definition child (s : shape) (k : string) : option shape :=
  match s with
  | Array _ => None
  | Collection _ entries =>
      option_map snd (find (fun e => String.eqb (fst e) k) entries)
  end.

Definition dim_names (dims : list (string * N)) : list string := map fst dims.


(** Keys [0, 1, ..., n-1], the way a list-like collection is displayed. *)
Definition index_keys (n : nat) : list string := map show_nat (seq 0 n).


End Repr.

Import Repr.

(** ** Structure of a Markdown text: headings and fenced blocks *)

Module Markdown.

Fixpoint hashes (s : string) : nat :=
  match s with
  | String c s' => if (code_of c =? 35)%N then S (hashes s') else 0
  | EmptyString => 0
  end.

(** [heading line = Some (level, title)] for a line [### title]. *)
Definition heading (line : string) : option (nat * string) :=
  let n := hashes line in
  if ((0 <? n) && starts_with " " (drop n line))%nat
  then Some (n, lstrip (drop n line))
  else None.

Definition is_fence (line : string) : bool := starts_with "```" line.

(** A line of a fenced block, with the headings it stands under. *)
Record command : Type := {
  section : string;       (* the enclosing level-2 heading *)
  subsection : string;    (* the enclosing level-3 heading *)
  line : string
}.

Fixpoint commands_go (h2 h3 : string) (fenced : bool) (ls : list string)
  : list command :=
  match ls with
  | [] => []
  | l :: ls' =>
      if is_fence l then commands_go h2 h3 (negb fenced) ls'
      else if fenced
           then {| section := h2; subsection := h3; line := l |}
                :: commands_go h2 h3 true ls'
           else match heading l with
                | Some (2, t) => commands_go t "" false ls'
                | Some (3, t) => commands_go h2 t false ls'
                | Some (1, _) => commands_go "" "" false ls'
                | _ => commands_go h2 h3 false ls'
                end
  end.

Definition commands (text : list string) : list command :=
  commands_go "" "" false text.

(** Level-3 headings below a given level-2 heading, in order. *)
Fixpoint subsections_go (want : string) (inside : bool) (fenced : bool)
         (ls : list string) : list string :=
  match ls with
  | [] => []
  | l :: ls' =>
      if is_fence l then subsections_go want inside (negb fenced) ls'
      else if fenced then subsections_go want inside true ls'
           else match heading l with
                | Some (3, t) =>
                    if inside then t :: subsections_go want inside false ls'
                    else subsections_go want inside false ls'
                | Some (2, t) => subsections_go want (String.eqb t want) false ls'
                | Some (1, _) => subsections_go want false false ls'
                | _ => subsections_go want inside false ls'
                end
  end.

Definition subsections (want : string) (text : list string) : list string :=
  subsections_go want false false text.

Definition commands_under (sec sub : string) (text : list string) : list string :=
  map line (filter (fun c => String.eqb (section c) sec
                             && String.eqb (subsection c) sub)
                   (commands text)).

End Markdown.

(** ** The sources

    [README], [README_rev1] and [README_rev0] are the three revisions of the
    README held by the repository, oldest last.  [notebook] is
    [02_link_multi_acquisitions.ipynb]; [notebook_prev] is its earlier
    revision, which has another introduction and stops after the eleventh
    code cell. *)

Module Sources.

Local Open Scope Z_scope.

Definition README : list string :=
  [
    "# Welcome to the Xdas tutorial series!";
    "";
    "[![DOI](https://zenodo.org/badge/802170309.svg)](https://zenodo.org/badge/latestdoi/802170309)";
    "";
    "This repository contains a series of tutorials to learn and play with the [Xdas](https://github.com/xdas-dev/xdas) python library. Xdas is a Python library designed to facilitate the processing and analysis of DAS data.";
    "";
    "## Overview";
    "";
    "This tutorial series aims to provide a comprehensive guide to using the Xdas library, from basic data manipulation to advanced analysis techniques.";
    "";
    "You first need to setup an working environment. Then the tutorials are organized in a progressive manner, with each tutorial building on concepts introduced in the previous ones. It's recommended to go through them in order.";
    "";
    "## Setup the tutorial environment";
    "";
    "### Get the source code";
    "";
    "Clone it from this repository:";
    "";
    "```";
    "git clone https://github.com/xdas-dev/tutorials.git";
    "cd tutorials";
    "```";
    "";
    "To reset the folder to initial state you can do:";
    "";
    "```";
    "git reset --hard HEAD";
    "```";
    "";
    "You can also fetch latest updates by:";
    "";
    "```";
    "git pull";
    "```";
    "";
    "### Creating a dedicated environment";
    "";
    "We  recommend to use conda to create an isolated environment:";
    "";
    "```";
    "conda config --add channels conda-forge";
    "conda create -n xdas-tutorials";
    "conda activate xdas-tutorials";
    "conda install pip --yes";
    "```";
    "";
    "### Installing Xdas";
    "";
    "Xdas is a pure python package. It can easily be installed with pip from PyPI:";
    "";
    "```";
    "pip install xdas";
    "```";
    "";
    "### Additional dependencies";
    "";
    "This series of tutorials also require additional libraries";
    "";
    "```";
    "pip install notebook seisbench";
    "```";
    "";
    "### Download Data samples";
    "";
    "Some samples are gracefully provided by the ABYSS project. You can download them from zenodo:";
    "";
    "```";
    "wget https://zenodo.org/records/11212055/files/data.zip";
    "unzip data.zip";
    "rm -rf outputs";
    "mkdir -p outputs";
    "```";
    "";
    "You are ready to go!"
  ].

Definition README_rev1 : list string :=
  [
    "# Welcome to the Xdas tutorial series!";
    "";
    "This repository contains a series of tutorials to learn and play with the [Xdas](https://github.com/xdas-dev/xdas) python library. Xdas is a Python library designed to facilitate the processing and analysis of DAS data.";
    "";
    "";
    "## Overview";
    "";
    "This tutorial series aims to provide a comprehensive guide to using the Xdas library, from basic data manipulation to advanced analysis techniques.";
    "";
    "You first need to setup an working environment. Then the tutorials are organized in a progressive manner, with each tutorial building on concepts introduced in the previous ones. It's recommended to go through them in order.";
    "";
    "## Setup the tutorial environment";
    "";
    "### Get the source code";
    "";
    "Clone it from this repository:";
    "";
    "```";
    "git clone git@github.com:xdas-dev/tutorials.git";
    "```";
    "";
    "### Creating a dedicated environment";
    "";
    "We  recommend to use conda to create an isolated environment:";
    "";
    "```";
    "conda config --add channels conda-forge";
    "conda create -n xdas-tutorials";
    "conda activate xdas-tutorials";
    "conda install pip --yes";
    "```";
    "";
    "### Installing Xdas";
    "";
    "Xdas is a pure python package. It can easily be installed with pip from PyPI:";
    "";
    "```";
    "pip install xdas==0.1rc1";
    "```";
    "";
    "### Additional dependencies";
    "";
    "This series of tutorials also require additional libraries";
    "";
    "```";
    "pip install seisbench";
    "```";
    "";
    "### Download Data samples";
    "";
    "Some samples are gracefully provided by the ABYSS project. You can download them from zenodo:";
    "";
    "```";
    "wget <url>";
    "unzip <path>";
    "rm <zip>";
    "rm -rf outputs";
    "mkdir -p outputs";
    "```";
    "";
    "You are ready to go!"
  ].

Definition README_rev0 : list string :=
  [
    "# Xdas Python Tutorial Series";
    "";
    "This repository contains a tutorial series for Xdas, a Python library for working with DAS (Distributed Acoustic Sensing) data.";
    "";
    "## Introduction";
    "";
    "Distributed Acoustic Sensing (DAS) is a technology that allows for the measurement of acoustic interactions along the length of a fiber optic cable. Xdas is a Python library designed to facilitate the processing and analysis of DAS data.";
    "";
    "This tutorial series aims to provide a comprehensive guide to using the Xdas library, from basic data manipulation to advanced analysis techniques.";
    "";
    "## Getting Started";
    "";
    "To get started with this tutorial series, you'll need to have Python installed on your machine. You can then install the Xdas library using pip:";
    "";
    "```";
    "pip install xdas";
    "```";
    "";
    "## Tutorials";
    "The tutorials are organized in a progressive manner, with each tutorial building on concepts introduced in the previous ones. It's recommended to go through them in order.";
    "";
    "## Contributing";
    "Contributions to this tutorial series are welcome. If you have a suggestion or find an issue, please open an issue on this repository.";
    "";
    "## License";
    "This project is licensed under the GNU GPL v3 License. See the LICENSE.md file for details."
  ].

(** The cells are named after their position ([md_NN]) or, for code
    cells, after their execution count ([In_N]). *)

Definition md_00 : cell :=
  markdown [
    "# Prepare your data: Multiple acquisitions";
    "";
    "Sometimes you might need to work with different DataArray at the same time. Xdas introduce the `DataCollection` object which is a nesting of DataArray objects. In the context of DAS it is typically used to combine multiple acquisition with potentially different sampling configurations together or to facilitate operations across different instruments.";
    "";
    "It is imported to know that data collections come in two flavours:";
    "- `DataMapping` that behaves as `dict`";
    "- `DataSequence` that behaves as `list`";
    "";
    "Here we introduce three scenarios:";
    "1. Multi-instruments acquisition.";
    "2. Extraction of a catalog of events. ";
    "3. Working with changes of acquision parametrization."
  ].

Definition In_1 : cell :=
  code (Some 1)
    [
      "import numpy as np";
      "import xdas as xd"
    ]
    [].

Definition md_02 : cell :=
  markdown [
    "## 1. Multi-instrument acquisitions";
    "";
    "If you had the opportunity to use several instrument to interrogate several cables at the same time you might end up with several acquisitions. In this example, we investigate 10 min of data recorded simultaneously by three cables.";
    "";
    "### Preparing the data";
    "";
    "Let's have a look at the `data/gps_multicable` folder. The hdf5 files are stored in a folder architecture organized by:";
    "- node: the landing point of the fiber, where the instrument is located";
    "- fiber orientation: N for a fiber going to the north and S to the south";
    "- acquisition: all the hdf5 files of the folder";
    "";
    "Xdas implements the `open_datatree` function to deal with such file hierarchy.";
    "";
    "The folder architecture is described by passing a string with {} for folders levels and the files with []."
  ].

Definition In_2 : cell :=
  code (Some 2)
    [
      "dc = xd.open_mfdatatree(";
      py ["    "; q "data/gps_multicable/{node}/{cable}/[acquisition].hdf5"; ", engine="; q "asn"];
      ")";
      "dc"
    ]
    [
      execute_result 2 [
        "Node:";
        "  CCN: ";
        "    Cable:";
        "      N: ";
        "        Acquisition:";
        "          0: <xdas.DataArray (time: 37500, distance: 9998)>";
        "  SER: ";
        "    Cable:";
        "      N: ";
        "        Acquisition:";
        "          0: <xdas.DataArray (time: 37500, distance: 10000)>";
        "      S: ";
        "        Acquisition:";
        "          0: <xdas.DataArray (time: 37500, distance: 10000)>"
      ]
    ].

Definition md_04 : cell :=
  markdown [
    "The CCN node has 1 fiber going to the north and SER node has 2 fibers going to north and south.";
    "";
    "In this example, we have one acquisition per fiber because no change in acquisition parameter was done over that time period. Otherwise several data arrays will be present in the acquisition list.";
    "";
    "## Working with DataCollection objects";
    "";
    "Collection produced with the `open_datatree` function are a nesting of DataMapping objects (behaves as a dict) down to the last leave that is a DataSequence objects (behaves as list)";
    "";
    "Everything you can do with dict and list can be done with data mappings sequences.";
    "";
    "### Getting and element"
  ].

Definition In_3 : cell :=
  code (Some 3)
    [
      py ["dc["; q "CCN"; "]["; q "N"; "][0]"]
    ]
    [
      execute_result 3 [
        "<xdas.DataArray (time: 37500, distance: 9998)>";
        "VirtualStack: 715.1MB (int16)";
        "Coordinates:";
        "  * time (time): 2023-11-03T12:20:06.000 to 2023-11-03T12:30:05.984";
        "  * distance (distance): 0.000 to 153149.070"
      ]
    ].

Definition md_06 : cell :=
  markdown [
    "### Setting new elements"
  ].

Definition In_4 : cell :=
  code (Some 4)
    [
      "# Here we set copy of existing data for simplicity";
      "dc_set = dc.copy(deep=True)";
      py ["dc_set["; q "CCN"; "]["; q "S"; "] = dc["; q "CCN"; "]["; q "N"; "].copy()  # add same data to another fiber for example"];
      py ["dc_set["; q "CCN"; "]["; q "S"; "].append(dc["; q "CCN"; "]["; q "N"; "][0].copy())  # behaves like a list"];
      py ["dc_set.update({"; q "CAL"; ": dc["; q "CCN"; "].copy()})  # behaves like a dict"];
      "dc_set"
    ]
    [
      execute_result 4 [
        "Node:";
        "  CCN: ";
        "    Cable:";
        "      N: ";
        "        Acquisition:";
        "          0: <xdas.DataArray (time: 37500, distance: 9998)>";
        "      S: ";
        "        Acquisition:";
        "          0: <xdas.DataArray (time: 37500, distance: 9998)>";
        "          1: <xdas.DataArray (time: 37500, distance: 9998)>";
        "  SER: ";
        "    Cable:";
        "      N: ";
        "        Acquisition:";
        "          0: <xdas.DataArray (time: 37500, distance: 10000)>";
        "      S: ";
        "        Acquisition:";
        "          0: <xdas.DataArray (time: 37500, distance: 10000)>";
        "  CAL: ";
        "    Cable:";
        "      N: ";
        "        Acquisition:";
        "          0: <xdas.DataArray (time: 37500, distance: 9998)>"
      ]
    ].

Definition md_08 : cell :=
  markdown [
    "### Iterating"
  ].

Definition In_5 : cell :=
  code (Some 5)
    [
      "for node in dc:";
      "    for cable in dc[node]:";
      "        for da in dc[node][cable]:";
      "            ...";
      "            # do something with da"
    ]
    [].

Definition md_10 : cell :=
  markdown [
    "Some methods of the `DataArray` class has been ported to the `DataCollection` class. In that case the operation is applied to each element of the collection :";
    "";
    "### Label-based indexing"
  ].

Definition In_6 : cell :=
  code (Some 6)
    [
      py ["dc_sel = dc.sel(time=slice("; q "2023-11-03T12:26:40"; ", "; q "2023-11-03T12:27:50"; "))"];
      "dc_sel"
    ]
    [
      execute_result 6 [
        "Node:";
        "  CCN: ";
        "    Cable:";
        "      N: ";
        "        Acquisition:";
        "          0: <xdas.DataArray (time: 4376, distance: 9998)>";
        "  SER: ";
        "    Cable:";
        "      N: ";
        "        Acquisition:";
        "          0: <xdas.DataArray (time: 4375, distance: 10000)>";
        "      S: ";
        "        Acquisition:";
        "          0: <xdas.DataArray (time: 4376, distance: 10000)>"
      ]
    ].

Definition md_12 : cell :=
  markdown [
    "### Saved linked collection to disk";
    "";
    "Once you are happy with you collection you can also write it down virtually for later work."
  ].

Definition In_7 : cell :=
  code (Some 7)
    [
      py ["dc.to_netcdf("; q "outputs/multicable.nc"; ")  # virtual=True by default"]
    ]
    [].

Definition md_14 : cell :=
  markdown [
    "## 2. Collection of events"
  ].

Definition md_15 : cell :=
  markdown [
    "In this example start from a single acquisition. We then construct a list or a dict of earthquakes with or without IDs."
  ].

Definition In_8 : cell :=
  code (Some 8)
    [
      "# back to one acquisition";
      py ["da = dc["; q "SER"; "]["; q "N"; "][0]"];
      py ["da.to_netcdf("; q "outputs/singlecable.nc"; ")  # save for later use"]
    ]
    [].

Definition md_17 : cell :=
  markdown [
    "### As a DataSequence object"
  ].

Definition In_9 : cell :=
  code (Some 9)
    [
      "# Passing a list gives a DataSequence";
      "xd.DataCollection(";
      "    [";
      py ["        da.sel(time=slice("; q "2023-11-03T12:23:35"; ", "; q "2023-11-03T12:24:00"; ")),"];
      py ["        da.sel(time=slice("; q "2023-11-03T12:26:40"; ", "; q "2023-11-03T12:27:50"; ")),"];
      "    ],";
      py ["    name="; q "event"; ",  # optional name"];
      ")"
    ]
    [
      execute_result 9 [
        "Event:";
        "  0: <xdas.DataArray (time: 1563, distance: 10000)>";
        "  1: <xdas.DataArray (time: 4375, distance: 10000)>"
      ]
    ].

Definition md_19 : cell :=
  markdown [
    "### As a DataMapping object"
  ].

Definition In_10 : cell :=
  code (Some 10)
    [
      "# Passing a dict gives a DataMapping";
      "xd.DataCollection(";
      "    {";
      py ["        "; q "id_000000"; ": da.sel(time=slice("; q "2023-11-03T12:23:35"; ", "; q "2023-11-03T12:24:00"; ")),"];
      py ["        "; q "id_000001"; ": da.sel(time=slice("; q "2023-11-03T12:26:40"; ", "; q "2023-11-03T12:27:50"; ")),"];
      "    },";
      py ["    name="; q "event"; ",  # optional name"];
      ")"
    ]
    [
      execute_result 10 [
        "Event:";
        "  id_000000: <xdas.DataArray (time: 1563, distance: 10000)>";
        "  id_000001: <xdas.DataArray (time: 4375, distance: 10000)>"
      ]
    ].

Definition md_21 : cell :=
  markdown [
    "### Combining everything";
    "";
    "For fun we can also combine both scenarios in a single DataCollection:"
  ].

Definition In_11 : cell :=
  code (Some 11)
    [
      "# Here each event is a DataCollection";
      "xd.DataCollection(";
      "    {";
      py ["        "; q "id_000000"; ": dc.sel(time=slice("; q "2023-11-03T12:23:35"; ", "; q "2023-11-03T12:24:00"; ")),"];
      py ["        "; q "id_000001"; ": dc.sel(time=slice("; q "2023-11-03T12:26:40"; ", "; q "2023-11-03T12:27:50"; ")),"];
      "    },";
      py ["    name="; q "event"; ",  # optional name"];
      ")"
    ]
    [
      execute_result 11 [
        "Event:";
        "  id_000000: ";
        "    Node:";
        "      CCN: ";
        "        Cable:";
        "          N: ";
        "            Acquisition:";
        "              0: <xdas.DataArray (time: 1563, distance: 9998)>";
        "      SER: ";
        "        Cable:";
        "          N: ";
        "            Acquisition:";
        "              0: <xdas.DataArray (time: 1563, distance: 10000)>";
        "          S: ";
        "            Acquisition:";
        "              0: <xdas.DataArray (time: 1563, distance: 10000)>";
        "  id_000001: ";
        "    Node:";
        "      CCN: ";
        "        Cable:";
        "          N: ";
        "            Acquisition:";
        "              0: <xdas.DataArray (time: 4376, distance: 9998)>";
        "      SER: ";
        "        Cable:";
        "          N: ";
        "            Acquisition:";
        "              0: <xdas.DataArray (time: 4375, distance: 10000)>";
        "          S: ";
        "            Acquisition:";
        "              0: <xdas.DataArray (time: 4376, distance: 10000)>"
      ]
    ].

Definition md_23 : cell :=
  markdown [
    "## 3. Changes in acquisition parameters";
    "";
    "Another use case of collection is to automatically group files with different acquisition parameters. Indeed files containing 2D chunks of different shape cannot be merged in a unique DataArray object. To that end DataSequence objects are automatically returned whenever files with different coordinates information are tried to be openned together. ";
    "";
    "Let's explore the `gps_multiacq` dataset: "
  ].

Definition In_12 : cell :=
  code (Some 12)
    [
      "!ls data/gps_multiacq"
    ]
    [
      stream "stdout" [
        "145505.hdf5  145615.hdf5  150041.hdf5  150151.hdf5  150301.hdf5  150440.hdf5";
        "145515.hdf5  145625.hdf5  150051.hdf5  150201.hdf5  150311.hdf5  150450.hdf5";
        "145525.hdf5  145635.hdf5  150101.hdf5  150211.hdf5  150321.hdf5";
        "145535.hdf5  150001.hdf5  150111.hdf5  150221.hdf5  150400.hdf5";
        "145545.hdf5  150011.hdf5  150121.hdf5  150231.hdf5  150410.hdf5";
        "145555.hdf5  150021.hdf5  150131.hdf5  150241.hdf5  150420.hdf5";
        "145605.hdf5  150031.hdf5  150141.hdf5  150251.hdf5  150430.hdf5"
      ]
    ].

Definition md_25 : cell :=
  markdown [
    "It looks like a regular acquisition with some gaps. Yet the metadata in each files differs. When attempting to open this multi-file dataset we indeed get a Sequence of DataArray that indeed have different shape for each acquisition."
  ].

Definition In_13 : cell :=
  code (Some 13)
    [
      py ["dc = xd.open_mfdataarray("; q "data/gps_multiacq/*.hdf5"; ", engine="; q "asn"; ")"];
      "dc"
    ]
    [
      execute_result 13 [
        "Collection:";
        "  0: <xdas.DataArray (time: 6250, distance: 9998)>";
        "  1: <xdas.DataArray (time: 21000, distance: 6666)>";
        "  2: <xdas.DataArray (time: 6000, distance: 24994)>"
      ]
    ].

Definition md_27 : cell :=
  markdown [
    "We can look at the temporal and spatial sampling interval to check that indeed the parametrization changed."
  ].

Definition In_14 : cell :=
  code (Some 14)
    [
      "import xdas.signal as xs";
      "";
      py ["print("; q "#  dt     dx"; ")"];
      py ["print("; q "------------"; ")"];
      "for acq, da in enumerate(dc):";
      py ["    dt = xs.get_sampling_interval(da, "; q "time"; ")"];
      py ["    dx = xs.get_sampling_interval(da, "; q "distance"; ")"];
      py ["    print(f"; q "{acq}  {dt * 1000:>2.0f}ms  {dx:>2.0f}m "; ")"]
    ]
    [
      stream "stdout" [
        "#  dt     dx";
        "------------";
        "0  16ms  15m ";
        "1  10ms  15m ";
        "2  10ms   4m "
      ]
    ].

Definition cells : list cell :=
  [md_00; In_1; md_02; In_2; md_04; In_3; md_06; In_4; md_08; In_5; md_10; In_6; md_12; In_7; md_14; md_15; In_8; md_17; In_9; md_19; In_10; md_21; In_11; md_23; In_12; md_25; In_13; md_27; In_14].

Definition md_00_prev : cell :=
  markdown [
    "# Prepare your data: Multiple acquisitions";
    "";
    "Sometimes you might need to work with different DataArray at the same time. Xdas introduce the `DataCollection` object which is a nesting of DataArray objects. In the context of DAS it is typically used to combine multiple acquisition with potentially different sampling configurations together or to facilitate operations across different instruments.";
    "";
    "It is imported to know that data collections come in two flavours:";
    "- `DataMapping` that behaves as `dict`";
    "- `DataSequence` that behaves as `list`";
    "";
    "Here we introduce two scenarios:";
    "- Multi-instruments acquisition.";
    "- Extraction of a catalog of events. "
  ].

Definition notebook : list cell := cells.

Definition notebook_prev : list cell := md_00_prev :: firstn 22%nat (tl cells).

(** The files of the repository that hold code cells or command blocks. *)
Definition notebooks : list (list cell) := [notebook; notebook_prev].
Definition readmes : list (list string) := [README; README_rev1; README_rev0].

End Sources.

Import Sources.

(** ** A model of the Xdas objects the notebook works with

    The library itself is not part of the repository: the notebook only
    calls it.  What follows models the part of it the notebook exercises,
    from what the specification and the notebook say and from what the
    notebook shows: an array has named dimensions, each with a coordinate
    given by its two end labels ([Out[3]]); a collection is a
    [DataMapping] that behaves as a [dict] or a [DataSequence] that behaves
    as a [list], and holds arrays or further collections; a method of
    [DataArray] ported to collections is applied to each element.  Objects
    live in a store and are handled through references, as Python objects
    are.  The model is checked against every output the notebook
    recorded ([session_reproduces_recorded_displays]). *)

Module Xdas.

Set Warnings "-register-all".

(** *** Labels

    Times are counted in milliseconds since 1970-01-01T00:00:00,
    distances in millimetres. *)

Definition days_from_civil (y m d : Z) : Z :=
  let y' := if (m <=? 2)%Z then (y - 1)%Z else y in
  let era := (y' / 400)%Z in
  let yoe := (y' - era * 400)%Z in
  let mp := if (2 <? m)%Z then (m - 3)%Z else (m + 9)%Z in
  let doy := ((153 * mp + 2) / 5 + d - 1)%Z in
  let doe := (yoe * 365 + yoe / 4 - yoe / 100 + doy)%Z in
  (era * 146097 + doe - 719468)%Z.

Definition parse_Z (s : string) : option Z := option_map Z.of_N (parse_N s).

(** [123.450] read as 123450 thousandths. *)
Definition parse_milli (s : string) : option Z :=
  match split_on "." s with
  | [whole] => option_map (fun w => (w * 1000)%Z) (parse_Z whole)
  | [whole; frac] =>
      match parse_Z whole, parse_Z frac, String.length frac with
      | Some w, Some f, 1%nat => Some (w * 1000 + f * 100)%Z
      | Some w, Some f, 2%nat => Some (w * 1000 + f * 10)%Z
      | Some w, Some f, 3%nat => Some (w * 1000 + f)%Z
      | _, _, _ => None
      end
  | _ => None
  end.

(** A field of exactly [width] decimal digits. *)
Definition parse_field (width : nat) (s : string) : option Z :=
  if (String.length s =? width)%nat then parse_Z s else None.

Definition leap_year (y : Z) : bool :=
  ((y mod 4 =? 0) && (negb (y mod 100 =? 0) || (y mod 400 =? 0)))%Z.

Definition days_in_month (y m : Z) : Z :=
  if (m =? 2)%Z then (if leap_year y then 29 else 28)%Z
  else if ((m =? 4) || (m =? 6) || (m =? 9) || (m =? 11))%Z then 30%Z
  else 31%Z.

(** [2023-11-03], [2023-11] or [2023], a day of the calendar counted from
    1970-01-01; a month or a year stands for its first day. *)
Definition parse_date (s : string) : option Z :=
  let day_of y m d :=
    match parse_field 4 y, parse_field 2 m, parse_field 2 d with
    | Some y, Some m, Some d =>
        if ((1 <=? m) && (m <=? 12) && (1 <=? d) && (d <=? days_in_month y m))%Z
        then Some (days_from_civil y m d)
        else None
    | _, _, _ => None
    end in
  match split_on "-" s with
  | [y] => day_of y "01" "01"
  | [y; m] => day_of y m "01"
  | [y; m; d] => day_of y m d
  | _ => None
  end.

(** [40] or [40.123], seconds as milliseconds; digits after the third
    must be zeros, a finer fraction having no place in the model. *)
Definition parse_seconds (s : string) : option Z :=
  match split_on "." s with
  | [whole] =>
      match parse_field 2 whole with
      | Some w => if (w <? 60)%Z then Some (w * 1000)%Z else None
      | None => None
      end
  | [whole; frac] =>
      match parse_field 2 whole, parse_Z frac,
            parse_Z (String.substring 0 3 (frac ++ "00")),
            parse_Z ("0" ++ drop 3 frac) with
      | Some w, Some _, Some f, Some 0%Z =>
          if (w <? 60)%Z then Some (w * 1000 + f)%Z else None
      | _, _, _, _ => None
      end
  | _ => None
  end.

(** [12], [12:26], [12:26:40] or [12:26:40.123], the time of the day in
    milliseconds. *)
Definition parse_clock (s : string) : option Z :=
  let time_of hh mm ms :=
    match parse_field 2 hh, parse_field 2 mm, ms with
    | Some h, Some mi, Some ms =>
        if ((h <? 24) && (mi <? 60))%Z
        then Some ((h * 60 + mi) * 60000 + ms)%Z
        else None
    | _, _, _ => None
    end in
  match split_on ":" s with
  | [hh] => time_of hh "00" (Some 0%Z)
  | [hh; mm] => time_of hh mm (Some 0%Z)
  | [hh; mm; ss] => time_of hh mm (parse_seconds ss)
  | _ => None
  end.

(** Modelled from the spec: how the library reads a time label given as
    text, which is not among the sources.  The notebook writes
    [2023-11-03T12:26:40]; read here are the ISO 8601 forms without a time
    zone: a date, or a full date, [T] and a time, with fields of fixed
    width that name a day of the calendar and a time of the day.  Any
    other text is not a label. *)
Definition parse_datetime (s : string) : option Z :=
  match split_on "T" s with
  | [date] => option_map (fun d => (d * 24 * 60 * 60000)%Z) (parse_date date)
  | [date; time] =>
      match split_on "-" date, parse_date date, parse_clock time with
      | [_; _; _], Some d, Some ms => Some (d * 24 * 60 * 60000 + ms)%Z
      | _, _, _ => None
      end
  | _ => None
  end.

(** *** Coordinates and arrays

    A coordinate is a window on an evenly sampled axis: the axis has
    [tie_count] samples whose labels run linearly from [tie_first] to
    [tie_last], and the window exposes [size] of them from [offset] on.
    Sample [j] of the axis carries the label
    [tie_first + j * (tie_last - tie_first) / (tie_count - 1)]. *)
Record Coordinate : Type := {
  tie_first : Z;
  tie_last : Z;
  tie_count : N;
  offset : N;
  size : N
}.

Definition whole_axis (first last : Z) (count : N) : Coordinate :=
  {| tie_first := first; tie_last := last; tie_count := count;
     offset := 0; size := count |}.

Definition span (c : Coordinate) : Z := (tie_last c - tie_first c)%Z.
Definition steps (c : Coordinate) : Z := (Z.of_N (tie_count c) - 1)%Z.

(** Modelled from the spec: the library's selection of a subset "by
    coordinate labels" is not among the sources.  A label-based slice,
    both bounds included: the samples whose label lies in [[lo, hi]].  With increasing labels, sample [j] is at or after
    [lo] when [j * span >= (lo - tie_first) * steps] and at or before [hi]
    when [j * span <= (hi - tie_first) * steps]. *)
Definition slice (c : Coordinate) (lo hi : Z) : Coordinate :=
  if ((0 <? span c) && (0 <? steps c))%Z
  then
    let first_in := (- ((- ((lo - tie_first c) * steps c)) / span c))%Z in
    let last_in := (((hi - tie_first c) * steps c) / span c)%Z in
    let a := Z.max (Z.of_N (offset c)) first_in in
    let b := Z.min (Z.of_N (offset c) + Z.of_N (size c) - 1) last_in in
    {| tie_first := tie_first c; tie_last := tie_last c;
       tie_count := tie_count c;
       offset := Z.to_N a; size := Z.to_N (b - a + 1) |}
  else if ((lo <=? tie_first c) && (tie_first c <=? hi))%Z then c
  else {| tie_first := tie_first c; tie_last := tie_last c;
          tie_count := tie_count c; offset := offset c; size := 0 |}.

Record DataArray : Type := {
  coords : list (string * Coordinate);    (* one per dimension, in order *)
  dtype : string
}.

Definition dims (da : DataArray) : list (string * N) :=
  map (fun d => (fst d, size (snd d))) (coords da).

Definition has_dim (name : string) (da : DataArray) : bool :=
  existsb (fun d => String.eqb (fst d) name) (coords da).

Fixpoint slice_dim (name : string) (lo hi : Z) (cs : list (string * Coordinate))
  : list (string * Coordinate) :=
  match cs with
  | [] => []
  | (n, c) :: cs' =>
      if String.eqb n name then (n, slice c lo hi) :: cs'
      else (n, c) :: slice_dim name lo hi cs'
  end.

(** *** Exceptions *)
Inductive exn : Type :=
| KeyError (key : string)
| IndexError
| TypeError
| ValueError
| NameError (name : string)
| AttributeError (name : string)
| FileNotFoundError (path : string)
| RecursionError.

Inductive result (A : Type) : Type :=
| Ok (a : A)
| Raise (e : exn).
Arguments Ok {A} a.
Arguments Raise {A} e.

(** Modelled from the spec: [da.sel(name=slice(lo, hi))] of the
    library's "labeled N-dimensional array": the coordinate of the
    dimension [name] is sliced, the other dimensions are kept. *)
Definition sel_array (name : string) (lo hi : Z) (da : DataArray)
  : result DataArray :=
  if has_dim name da
  then Ok {| coords := slice_dim name lo hi (coords da); dtype := dtype da |}
  else Raise (KeyError name).

(** *** Collections as values *)

(** Modelled from the spec: the library's "nested container abstraction
    (dictionary-like or list-like) for grouping multiple DataArray
    instances", which is not among the sources. *)
Inductive tree : Type :=
| TArray (da : DataArray)
| TSequence (name : option string) (items : list tree)
| TMapping (name : option string) (items : list (string * tree)).

(** Apply a function that may raise to each element, in order; the
    first exception ends the traversal. *)
Fixpoint traverse {A B} (f : A -> result B) (l : list A) : result (list B) :=
  match l with
  | [] => Ok []
  | x :: l' =>
      match f x with
      | Ok y =>
          match traverse f l' with
          | Ok ys => Ok (y :: ys)
          | Raise e => Raise e
          end
      | Raise e => Raise e
      end
  end.

(** An array without samples: one of its dimensions has the size 0. *)
Definition empty (da : DataArray) : bool :=
  existsb (fun d => N.eqb (size (snd d)) 0) (coords da).

(** The elements a selection keeps in a collection: the collections, and
    the arrays that have samples. *)
Definition kept (t : tree) : bool :=
  match t with
  | TArray da => negb (empty da)
  | _ => true
  end.

(** Modelled from the spec: [sel] on a collection, which the library
    implements and the notebook describes: "the operation is applied to
    each element of the collection".  The selections of the notebook
    leave samples in every array.  An array that a selection leaves
    without samples is not kept: the library leaves it out of the
    collection that held it. *)
Fixpoint sel_tree (name : string) (lo hi : Z) (t : tree) : result tree :=
  match t with
  | TArray da =>
      match sel_array name lo hi da with
      | Ok da' => Ok (TArray da')
      | Raise e => Raise e
      end
  | TSequence n items =>
      match traverse (sel_tree name lo hi) items with
      | Ok items' => Ok (TSequence n (filter kept items'))
      | Raise e => Raise e
      end
  | TMapping n items =>
      match traverse (fun kv => match sel_tree name lo hi (snd kv) with
                                | Ok t' => Ok (fst kv, t')
                                | Raise e => Raise e
                                end) items with
      | Ok items' => Ok (TMapping n (filter (fun kv => kept (snd kv)) items'))
      | Raise e => Raise e
      end
  end.

(** *** How a value is displayed *)

Definition upper (c : ascii) : ascii :=
  if ((97 <=? code_of c) && (code_of c <=? 122))%N
  then ascii_of_N (code_of c - 32) else c.

Definition lower (c : ascii) : ascii :=
  if ((65 <=? code_of c) && (code_of c <=? 90))%N
  then ascii_of_N (code_of c + 32) else c.

Fixpoint lowercase (s : string) : string :=
  match s with
  | String c s' => String (lower c) (lowercase s')
  | EmptyString => EmptyString
  end.

(** Python's [str.capitalize]. *)
Definition capitalize (s : string) : string :=
  match s with
  | String c s' => String (upper c) (lowercase s')
  | EmptyString => EmptyString
  end.

(** A collection without a name is shown as [Collection]. *)
Definition display_name (name : option string) : string :=
  match name with
  | Some n => capitalize n
  | None => "Collection"
  end.

Fixpoint shape_of (t : tree) : shape :=
  match t with
  | TArray da => Array (dims da)
  | TSequence n items =>
      Collection (display_name n)
        (combine (index_keys (length items)) (map shape_of items))
  | TMapping n items =>
      Collection (display_name n)
        (map (fun kv => (fst kv, shape_of (snd kv))) items)
  end.

(** *** Python dictionaries: insertion-ordered, one entry per key *)
Section Dict.
Context {V : Type}.

Fixpoint dict_get (d : list (string * V)) (k : string) : option V :=
  match d with
  | [] => None
  | (k', v) :: d' => if String.eqb k' k then Some v else dict_get d' k
  end.

Fixpoint dict_set (d : list (string * V)) (k : string) (v : V)
  : list (string * V) :=
  match d with
  | [] => [(k, v)]
  | (k', v') :: d' =>
      if String.eqb k' k then (k, v) :: d' else (k', v') :: dict_set d' k v
  end.

(** The dictionary a literal [{k1: v1, k2: v2, ...}] denotes, and
    [d.update(other)]. *)
Definition dict_update (d other : list (string * V)) : list (string * V) :=
  fold_left (fun acc kv => dict_set acc (fst kv) (snd kv)) other d.

Definition dict_of (literal : list (string * V)) : list (string * V) :=
  dict_update [] literal.
End Dict.

(** *** The store *)

Definition loc : Type := nat.

Inductive object : Type :=
| ODataArray (da : DataArray)
| ODataSequence (name : option string) (items : list loc)
| ODataMapping (name : option string) (items : list (string * loc)).

Definition children (o : object) : list loc :=
  match o with
  | ODataArray _ => []
  | ODataSequence _ items => items
  | ODataMapping _ items => map snd items
  end.

Definition store : Type := list object.

(** Replace the object at a location. *)
Fixpoint put (l : loc) (o : object) (h : store) : store :=
  match h, l with
  | [], _ => []
  | _ :: h', O => o :: h'
  | x :: h', S l' => x :: put l' o h'
  end.

(** [extends h0 h]: the store [h] still starts with the objects of [h0]. *)
Definition extends (h0 h : store) : Prop := exists ext, h = h0 ++ ext.

(** The value a reference stands for.  [fuel] bounds the nesting depth
    that is followed. *)
Fixpoint snapshot (fuel : nat) (h : store) (l : loc) : option tree :=
  match fuel with
  | O => None
  | S fuel' =>
      match nth_error h l with
      | None => None
      | Some (ODataArray da) => Some (TArray da)
      | Some (ODataSequence n items) =>
          option_map (TSequence n) (all_some (map (snapshot fuel' h) items))
      | Some (ODataMapping n items) =>
          option_map (TMapping n)
            (all_some (map (fun kv => option_map (pair (fst kv))
                                        (snapshot fuel' h (snd kv))) items))
      end
  end.

(** Run a store-passing function over a list, left to right. *)
Fixpoint thread {A B} (f : A -> store -> B * store) (l : list A) (h : store)
  : list B * store :=
  match l with
  | [] => ([], h)
  | x :: l' =>
      let '(y, h1) := f x h in
      let '(ys, h2) := thread f l' h1 in
      (y :: ys, h2)
  end.

(** Allocate a value as new objects: the elements first, then the
    container. *)
Fixpoint build (t : tree) (h : store) : loc * store :=
  match t with
  | TArray da => (length h, h ++ [ODataArray da])
  | TSequence n items =>
      let '(ls, h') := thread build items h in
      (length h', h' ++ [ODataSequence n ls])
  | TMapping n items =>
      let '(ls, h') :=
        thread (fun kv h0 => let '(l, h1) := build (snd kv) h0 in
                             ((fst kv, l), h1)) items h in
      (length h', h' ++ [ODataMapping n ls])
  end.

(** Nesting depth of a value, and what [build t h = (l, h')] achieves:
    the store grows, the new root [l] and everything below it are new,
    and [l] stands for [t]. *)
Fixpoint height (t : tree) : nat :=
  match t with
  | TArray _ => 1
  | TSequence _ items => S (list_max (map height items))
  | TMapping _ items => S (list_max (map (fun kv => height (snd kv)) items))
  end.

Definition built (t : tree) (h : store) (l : loc) (h' : store) : Prop :=
  extends h h'
  /\ (length h <= l < length h')%nat
  /\ (height t <= length h' - length h)%nat
  /\ (forall fuel, (height t <= fuel)%nat -> snapshot fuel h' l = Some t)
  /\ (exists o, nth_error h' l = Some o
                /\ Forall (fun c => (length h <= c < l)%nat) (children o)).

End Xdas.

Import Xdas.

(** ** The Python process behind the notebook

    A state-and-exception monad over the store of objects, the global
    variables of the notebook and the files written so far.  An exception
    aborts the computation: no cell of the notebook catches one. *)

Module Kernel.

Inductive value : Type :=
| Ref (l : loc)
| Str (s : string)
| Int (z : Z)
| NoneValue
| PyModule (name : string).

Record state : Type := {
  heap : store;
  vars : list (string * value);
  files : list (string * tree)
}.

Definition initial : state := {| heap := []; vars := []; files := [] |}.

Definition M (A : Type) : Type := state -> result (A * state).

Definition ret {A} (a : A) : M A := fun s => Ok (a, s).

Definition bind {A B} (m : M A) (f : A -> M B) : M B :=
  fun s => match m s with
           | Ok (a, s') => f a s'
           | Raise e => Raise e
           end.

Definition raise {A} (e : exn) : M A := fun _ => Raise e.

Declare Scope py_scope.
Delimit Scope py_scope with py.
Notation "x <- c1 ;; c2" := (bind c1 (fun x => c2))
  (at level 61, c1 at next level, right associativity) : py_scope.
Notation "c1 ;; c2" := (bind c1 (fun _ => c2))
  (at level 61, right associativity) : py_scope.
Local Open Scope py_scope.

Definition lift {A} (r : result A) : M A :=
  match r with Ok a => ret a | Raise e => raise e end.

Definition get_heap : M store := fun s => Ok (heap s, s).

Definition set_heap (h : store) : M unit :=
  fun s => Ok (tt, {| heap := h; vars := vars s; files := files s |}).

(** *** Variables *)
Definition var (x : string) : M value :=
  fun s => match dict_get (vars s) x with
           | Some v => Ok (v, s)
           | None => Raise (NameError x)
           end.

Definition assign (x : string) (v : value) : M unit :=
  fun s => Ok (tt, {| heap := heap s; vars := dict_set (vars s) x v;
                      files := files s |}).

(** *** Objects *)
Definition alloc (o : object) : M value :=
  fun s => Ok (Ref (length (heap s)),
               {| heap := heap s ++ [o]; vars := vars s; files := files s |}).

Definition deref (v : value) : M (loc * object) :=
  match v with
  | Ref l =>
      h <- get_heap ;;
      match nth_error h l with
      | Some o => ret (l, o)
      | None => raise TypeError
      end
  | _ => raise TypeError
  end.

Definition write (l : loc) (o : object) : M unit :=
  h <- get_heap ;; set_heap (put l o h).

Definition the_ref (v : value) : M loc :=
  match v with Ref l => ret l | _ => raise TypeError end.

Fixpoint the_refs (vs : list value) : M (list loc) :=
  match vs with
  | [] => ret []
  | v :: vs' => l <- the_ref v ;; ls <- the_refs vs' ;; ret (l :: ls)
  end.

Fixpoint the_entries (kvs : list (string * value)) : M (list (string * loc)) :=
  match kvs with
  | [] => ret []
  | (k, v) :: kvs' =>
      l <- the_ref v ;; ls <- the_entries kvs' ;; ret ((k, l) :: ls)
  end.

Definition value_of (v : value) : M tree :=
  l <- the_ref v ;;
  h <- get_heap ;;
  match snapshot (S (length h)) h l with
  | Some t => ret t
  | None => raise RecursionError
  end.

Definition allocate (t : tree) : M value :=
  h <- get_heap ;;
  let '(l, h') := build t h in
  set_heap h' ;; ret (Ref l).

(** A list index the way Python reads it: [-1] is the last element. *)
Definition position (n : nat) (z : Z) : option nat :=
  if ((0 <=? z) && (z <? Z.of_nat n))%Z then Some (Z.to_nat z)
  else if ((- Z.of_nat n <=? z) && (z <? 0))%Z then Some (Z.to_nat (Z.of_nat n + z))
  else None.

Definition show_key (k : value) : string :=
  match k with
  | Str s => s
  | Int z => if (z <? 0)%Z then "-" ++ show_N (Z.to_N (- z)) else show_N (Z.to_N z)
  | Ref _ => "<object>"
  | NoneValue => "None"
  | PyModule name => "<module " ++ name ++ ">"
  end.

(** Modelled from the spec: [obj[key]], the library's "nested collection
    indexing": a [DataMapping] is indexed by its string keys as a [dict]
    is, a [DataSequence] by integers as a [list] is.  The notebook indexes
    collections only; indexing an array is not part of the model, which
    refuses it. *)
Definition getitem (obj key : value) : M value :=
  lo <- deref obj ;;
  match snd lo, key with
  | ODataMapping _ d, Str k =>
      match dict_get d k with
      | Some l => ret (Ref l)
      | None => raise (KeyError k)
      end
  | ODataMapping _ _, _ => raise (KeyError (show_key key))
  | ODataSequence _ items, Int z =>
      match position (length items) z with
      | Some i =>
          match nth_error items i with
          | Some l => ret (Ref l)
          | None => raise IndexError
          end
      | None => raise IndexError
      end
  | _, _ => raise TypeError
  end.

(** [root[k1][k2]...] for a variable [root]. *)
Fixpoint subscripts (obj : value) (keys : list value) : M value :=
  match keys with
  | [] => ret obj
  | k :: keys' => v <- getitem obj k ;; subscripts v keys'
  end.

Definition subscript (root : string) (keys : list value) : M value :=
  v <- var root ;; subscripts v keys.

Fixpoint replace_nth (i : nat) (x : loc) (l : list loc) : list loc :=
  match l, i with
  | [], _ => []
  | _ :: l', O => x :: l'
  | y :: l', S i' => y :: replace_nth i' x l'
  end.

(** Modelled from the spec: [obj[key] = x], in place, as for a [dict]
    or a [list]. *)
Definition setitem (obj key x : value) : M unit :=
  lo <- deref obj ;;
  lx <- the_ref x ;;
  match snd lo, key with
  | ODataMapping n d, Str k => write (fst lo) (ODataMapping n (dict_set d k lx))
  | ODataSequence n items, Int z =>
      match position (length items) z with
      | Some i => write (fst lo) (ODataSequence n (replace_nth i lx items))
      | None => raise IndexError
      end
  | _, _ => raise TypeError
  end.

(** Modelled from the spec: [obj.append(x)] on a [DataSequence], in
    place ("behaves like a list"). *)
Definition append (obj x : value) : M unit :=
  lo <- deref obj ;;
  lx <- the_ref x ;;
  match snd lo with
  | ODataSequence n items => write (fst lo) (ODataSequence n (items ++ [lx]))
  | _ => raise TypeError
  end.

(** Modelled from the spec: [obj.update({k1: x1, ...})] on a
    [DataMapping], in place ("behaves like a dict"). *)
Definition update (obj : value) (other : list (string * value)) : M unit :=
  lo <- deref obj ;;
  es <- the_entries other ;;
  match snd lo with
  | ODataMapping n d => write (fst lo) (ODataMapping n (dict_update d (dict_of es)))
  | _ => raise TypeError
  end.

(** Iterating a mapping yields its keys, a sequence its elements. *)
Definition iterate (obj : value) : M (list value) :=
  lo <- deref obj ;;
  match snd lo with
  | ODataMapping _ d => ret (map (fun kv => Str (fst kv)) d)
  | ODataSequence _ items => ret (map Ref items)
  | ODataArray _ => raise TypeError
  end.

(** [for x in values: body] *)
Fixpoint for_ (x : string) (values : list value) (body : M unit) : M unit :=
  match values with
  | [] => ret tt
  | v :: values' => assign x v ;; body ;; for_ x values' body
  end.

(** *** Attributes

    [alias.f] for a function [f] of the library: the name [alias] is
    looked up and must name the module [xdas], as after [import xdas as
    xd]. *)
Definition xdas_function (alias f : string) : M unit :=
  m <- var alias ;;
  match m with
  | PyModule name =>
      if String.eqb name "xdas" then ret tt else raise (AttributeError f)
  | _ => raise (AttributeError f)
  end.

(** Modelled from the spec: the methods the notebook calls, by the class
    of the library that has them.  The three classes have [copy], [sel]
    and [to_netcdf]; [append] is of [DataSequence], which "behaves as
    list", and [update] of [DataMapping], which "behaves as dict". *)
Definition has_method (o : object) (name : string) : bool :=
  str_in name ["copy"; "sel"; "to_netcdf"]
  || match o with
     | ODataArray _ => false
     | ODataSequence _ _ => String.eqb name "append"
     | ODataMapping _ _ => String.eqb name "update"
     end.

(** [obj.name], looked up before the arguments of the call are
    evaluated. *)
Definition method (obj : value) (name : string) : M unit :=
  match obj with
  | Ref _ =>
      lo <- deref obj ;;
      if has_method (snd lo) name then ret tt else raise (AttributeError name)
  | _ => raise (AttributeError name)
  end.

(** The argument of [xd.DataCollection]: a list or a dict literal. *)
Inductive pydata : Type :=
| PyList (items : list value)
| PyDict (entries : list (string * value)).

(** What the process finds outside: the files the two [open_mf...]
    functions read, and the default of the [deep] argument of [copy],
    which the notebook leaves open. *)
Record world : Type := {
  find_datatree : string -> string -> result tree;
  find_dataarray : string -> string -> result tree;
  copy_deep_default : bool
}.

Section Library.

Variable w : world.

(** Modelled from the spec: [xd.open_mfdatatree(paths, engine=...)],
    the library's "directory-pattern file discovery"; what it finds is
    given by the world. *)
Definition open_mfdatatree (paths engine : string) : M value :=
  t <- lift (find_datatree w paths engine) ;; allocate t.

(** Modelled from the spec: [xd.open_mfdataarray(paths, engine=...)];
    what it finds is given by the world. *)
Definition open_mfdataarray (paths engine : string) : M value :=
  t <- lift (find_dataarray w paths engine) ;; allocate t.

(** Modelled from the spec: [obj.copy(deep=...)] of the library's
    collections and arrays.  A deep copy is a new object for the
    container and for everything below it, a shallow copy a new
    container around the same elements. *)
Definition copy (obj : value) (deep : option bool) : M value :=
  let deep := match deep with Some b => b | None => copy_deep_default w end in
  if deep
  then t <- value_of obj ;; allocate t
  else lo <- deref obj ;; alloc (snd lo).

(** Modelled from the spec: [obj.sel(dim=slice(lo, hi))], the library's
    "time-range selection", with the time labels given as text; the
    result is a new object. *)
Definition sel (obj : value) (dim lo hi : string) : M value :=
  match parse_datetime lo, parse_datetime hi with
  | Some a, Some b =>
      t <- value_of obj ;;
      t' <- lift (sel_tree dim a b t) ;;
      allocate t'
  | _, _ => raise ValueError
  end.

(** Modelled from the spec: [xd.DataCollection(data, name=...)] of the
    library.  In the notebook's words: "Passing a list gives a
    DataSequence", "Passing a dict gives a DataMapping". *)
Definition DataCollection (data : pydata) (name : option string) : M value :=
  match data with
  | PyList items => ls <- the_refs items ;; alloc (ODataSequence name ls)
  | PyDict entries =>
      es <- the_entries entries ;; alloc (ODataMapping name (dict_of es))
  end.

(** Modelled from the spec: [obj.to_netcdf(path)], the library's
    "netCDF export"; the file is recorded with the value written. *)
Definition to_netcdf (obj : value) (path : string) : M unit :=
  t <- value_of obj ;;
  fun s => Ok (tt, {| heap := heap s; vars := vars s;
                      files := dict_set (files s) path t |}).

(** The value of the last expression of a cell, as displayed. *)
Definition display (obj : value) : M (option shape) :=
  t <- value_of obj ;; ret (Some (shape_of t)).

(** *** The code cells, by execution count *)

Definition exec_1 : M (option shape) :=
  (* import numpy as np *)
  assign "np" (PyModule "numpy") ;;
  (* import xdas as xd *)
  assign "xd" (PyModule "xdas") ;;
  ret None.

Definition exec_2 : M (option shape) :=
  (* dc = xd.open_mfdatatree("data/gps_multicable/{node}/{cable}/[acquisition].hdf5", engine="asn") *)
  xdas_function "xd" "open_mfdatatree" ;;
  v <- open_mfdatatree "data/gps_multicable/{node}/{cable}/[acquisition].hdf5" "asn" ;;
  assign "dc" v ;;
  (* dc *)
  v <- var "dc" ;; display v.

Definition exec_3 : M (option shape) :=
  (* dc["CCN"]["N"][0] *)
  v <- subscript "dc" [Str "CCN"; Str "N"; Int 0] ;; display v.

Definition exec_4 : M (option shape) :=
  (* dc_set = dc.copy(deep=True) *)
  v <- var "dc" ;; method v "copy" ;; c <- copy v (Some true) ;;
  assign "dc_set" c ;;
  (* dc_set["CCN"]["S"] = dc["CCN"]["N"].copy() *)
  v <- subscript "dc" [Str "CCN"; Str "N"] ;; method v "copy" ;;
  c <- copy v None ;;
  t <- subscript "dc_set" [Str "CCN"] ;; setitem t (Str "S") c ;;
  (* dc_set["CCN"]["S"].append(dc["CCN"]["N"][0].copy()) *)
  t <- subscript "dc_set" [Str "CCN"; Str "S"] ;; method t "append" ;;
  v <- subscript "dc" [Str "CCN"; Str "N"; Int 0] ;; method v "copy" ;;
  c <- copy v None ;;
  append t c ;;
  (* dc_set.update({"CAL": dc["CCN"].copy()}) *)
  t <- var "dc_set" ;; method t "update" ;;
  v <- subscript "dc" [Str "CCN"] ;; method v "copy" ;; c <- copy v None ;;
  update t [("CAL", c)] ;;
  (* dc_set *)
  v <- var "dc_set" ;; display v.

Definition exec_5 : M (option shape) :=
  (* for node in dc: *)
  v <- var "dc" ;; nodes <- iterate v ;;
  for_ "node" nodes (
    (* for cable in dc[node]: *)
    node <- var "node" ;; v <- subscript "dc" [node] ;; cables <- iterate v ;;
    for_ "cable" cables (
      (* for da in dc[node][cable]: *)
      node <- var "node" ;; cable <- var "cable" ;;
      v <- subscript "dc" [node; cable] ;; das <- iterate v ;;
      for_ "da" das (
        (* ... *)
        ret tt))) ;;
  ret None.

Definition exec_6 : M (option shape) :=
  (* dc_sel = dc.sel(time=slice("2023-11-03T12:26:40", "2023-11-03T12:27:50")) *)
  v <- var "dc" ;; method v "sel" ;;
  r <- sel v "time" "2023-11-03T12:26:40" "2023-11-03T12:27:50" ;;
  assign "dc_sel" r ;;
  (* dc_sel *)
  v <- var "dc_sel" ;; display v.

Definition exec_7 : M (option shape) :=
  (* dc.to_netcdf("outputs/multicable.nc") *)
  v <- var "dc" ;; method v "to_netcdf" ;;
  to_netcdf v "outputs/multicable.nc" ;;
  ret None.

Definition exec_8 : M (option shape) :=
  (* da = dc["SER"]["N"][0] *)
  v <- subscript "dc" [Str "SER"; Str "N"; Int 0] ;; assign "da" v ;;
  (* da.to_netcdf("outputs/singlecable.nc") *)
  v <- var "da" ;; method v "to_netcdf" ;;
  to_netcdf v "outputs/singlecable.nc" ;;
  ret None.

Definition exec_9 : M (option shape) :=
  (* xd.DataCollection([da.sel(...), da.sel(...)], name="event") *)
  xdas_function "xd" "DataCollection" ;;
  v <- var "da" ;; method v "sel" ;;
  a <- sel v "time" "2023-11-03T12:23:35" "2023-11-03T12:24:00" ;;
  v <- var "da" ;; method v "sel" ;;
  b <- sel v "time" "2023-11-03T12:26:40" "2023-11-03T12:27:50" ;;
  c <- DataCollection (PyList [a; b]) (Some "event") ;;
  display c.

Definition exec_10 : M (option shape) :=
  (* xd.DataCollection({"id_000000": da.sel(...), "id_000001": da.sel(...)}, name="event") *)
  xdas_function "xd" "DataCollection" ;;
  v <- var "da" ;; method v "sel" ;;
  a <- sel v "time" "2023-11-03T12:23:35" "2023-11-03T12:24:00" ;;
  v <- var "da" ;; method v "sel" ;;
  b <- sel v "time" "2023-11-03T12:26:40" "2023-11-03T12:27:50" ;;
  c <- DataCollection (PyDict [("id_000000", a); ("id_000001", b)]) (Some "event") ;;
  display c.

Definition exec_11 : M (option shape) :=
  (* xd.DataCollection({"id_000000": dc.sel(...), "id_000001": dc.sel(...)}, name="event") *)
  xdas_function "xd" "DataCollection" ;;
  v <- var "dc" ;; method v "sel" ;;
  a <- sel v "time" "2023-11-03T12:23:35" "2023-11-03T12:24:00" ;;
  v <- var "dc" ;; method v "sel" ;;
  b <- sel v "time" "2023-11-03T12:26:40" "2023-11-03T12:27:50" ;;
  c <- DataCollection (PyDict [("id_000000", a); ("id_000001", b)]) (Some "event") ;;
  display c.

Definition exec_13 : M (option shape) :=
  (* dc = xd.open_mfdataarray("data/gps_multiacq/*.hdf5", engine="asn") *)
  xdas_function "xd" "open_mfdataarray" ;;
  v <- open_mfdataarray "data/gps_multiacq/*.hdf5" "asn" ;; assign "dc" v ;;
  (* dc *)
  v <- var "dc" ;; display v.

(** The cells given a meaning here.  Cell 12 is a shell command and
    cell 14 prints floating-point numbers; neither changes a variable
    that a modelled cell reads. *)
Definition programs : list (Z * M (option shape)) :=
  [(1, exec_1); (2, exec_2); (3, exec_3); (4, exec_4); (5, exec_5); (6, exec_6);
   (7, exec_7); (8, exec_8); (9, exec_9); (10, exec_10); (11, exec_11);
   (13, exec_13)]%Z.

(** Run cells one after the other; collect what each displays. *)
Fixpoint run_cells (ps : list (Z * M (option shape))) (s : state)
  : result (list (Z * option shape) * state) :=
  match ps with
  | [] => Ok ([], s)
  | (n, p) :: ps' =>
      match p s with
      | Raise e => Raise e
      | Ok (d, s') =>
          match run_cells ps' s' with
          | Ok (ds, s'') => Ok ((n, d) :: ds, s'')
          | Raise e => Raise e
          end
      end
  end.

End Library.

End Kernel.

Import Kernel.

(** ** The sample data of the tutorial

    The data files are downloaded, not part of the repository.  The
    collections below are what the two [open_mf...] calls find, as far as the
    notebook shows it: the nesting, names and keys of [Out[2]] and
    [Out[13]], the sizes of every array, and for [CCN/N/0] the coordinate
    ranges of [Out[3]].  The notebook does not display the coordinate
    ranges of the other arrays; those written here are assumptions, the
    time ranges of the [SER] arrays chosen so that the selections of cells
    6 and 9 to 11 have the recorded sizes. *)

Module Tutorial.

Definition time_axis (first last : string) (count : N) : Coordinate :=
  match parse_datetime first, parse_datetime last with
  | Some a, Some b => whole_axis a b count
  | _, _ => whole_axis 0 0 0
  end.

Definition distance_axis (first last : string) (count : N) : Coordinate :=
  match parse_milli first, parse_milli last with
  | Some a, Some b => whole_axis a b count
  | _, _ => whole_axis 0 0 0
  end.

Definition recording (time distance : Coordinate) : tree :=
  TArray {| coords := [("time", time); ("distance", distance)];
            dtype := "int16" |}.

Definition CCN_N_0 : tree :=
  recording
    (time_axis "2023-11-03T12:20:06.000" "2023-11-03T12:30:05.984" 37500)
    (distance_axis "0.000" "153149.070" 9998).

Definition SER_N_0 : tree :=
  recording
    (time_axis "2023-11-03T12:20:06.008" "2023-11-03T12:30:05.992" 37500)
    (distance_axis "0.000" "153179.709" 10000).

Definition SER_S_0 : tree :=
  recording
    (time_axis "2023-11-03T12:20:06.000" "2023-11-03T12:30:05.984" 37500)
    (distance_axis "0.000" "153179.709" 10000).

Definition cable (acquisitions : list tree) : tree :=
  TSequence (Some "acquisition") acquisitions.

Definition gps_multicable : tree :=
  TMapping (Some "node")
    [("CCN", TMapping (Some "cable") [("N", cable [CCN_N_0])]);
     ("SER", TMapping (Some "cable") [("N", cable [SER_N_0]);
                                      ("S", cable [SER_S_0])])].

(** The three acquisitions of [data/gps_multiacq]: the sizes are those
    of [Out[13]]; the file names of [Out[12]] give the hour of each
    ten-second file and [Out[14]] the sampling intervals.  The day and
    the distance ranges are assumptions. *)
Definition gps_multiacq : tree :=
  TSequence None
    [recording
       (time_axis "2023-11-03T14:55:05.000" "2023-11-03T14:56:44.984" 6250)
       (distance_axis "0.000" "153149.070" 9998);
     recording
       (time_axis "2023-11-03T15:00:01.000" "2023-11-03T15:03:30.990" 21000)
       (distance_axis "0.000" "102098.168" 6666);
     recording
       (time_axis "2023-11-03T15:04:00.000" "2023-11-03T15:04:59.990" 6000)
       (distance_axis "0.000" "102098.168" 24994)].

Definition sample_data (deep_by_default : bool) : world :=
  {| find_datatree := fun paths engine =>
       if String.eqb paths "data/gps_multicable/{node}/{cable}/[acquisition].hdf5"
          && String.eqb engine "asn"
       then Ok gps_multicable
       else Raise (FileNotFoundError paths);
     find_dataarray := fun paths engine =>
       if String.eqb paths "data/gps_multiacq/*.hdf5" && String.eqb engine "asn"
       then Ok gps_multiacq
       else Raise (FileNotFoundError paths);
     copy_deep_default := deep_by_default |}.


(** What the modelled cells display when run in order. *)
Definition session (deep_by_default : bool)
  : result (list (Z * option shape) * state) :=
  run_cells (programs (sample_data deep_by_default)) initial.

Definition displays (deep_by_default : bool) : list (Z * option shape) :=
  match session deep_by_default with
  | Ok (ds, _) => ds
  | Raise _ => []
  end.

(** What the notebook recorded for the same cells. *)
Definition recorded_display (n : Z) : option shape :=
  match cell_numbered notebook n with
  | Some c => match displayed c with
              | Some text => Repr.parse text
              | None => None
              end
  | None => None
  end.

Definition recorded : list (Z * option shape) :=
  map (fun p => (fst p, recorded_display (fst p))) (programs (sample_data true)).

End Tutorial.

Import Tutorial.

(** ** What is asked of the sources *)

Module Analysis.

Set Warnings "-register-all".

(** *** Words that define, branch, handle or schedule *)

Definition definition_keywords : list string := ["def"; "class"; "lambda"].

Definition control_keywords : list string :=
  ["if"; "elif"; "else"; "for"; "while"; "try"; "except"; "finally";
   "with"; "match"; "case"; "break"; "continue"; "return"; "yield";
   "raise"; "assert"; "async"; "await"].


Definition concurrency_keywords : list string := ["async"; "await"].

(** The keywords of [ks] a source text uses, in order of appearance. *)
Definition used (ks : list string) (src : list string) : list string :=
  filter (fun k => str_in k ks) (keywords_of src).

Definition defines_nothing (src : list string) : Prop :=
  used definition_keywords src = [].

(** *** Calls *)

(** The modules the notebook imports, by alias. *)
Definition imported (nb : list cell) : list (string * list string) :=
  imports (flat_map source (code_cells nb)).

Definition is_xdas_module (path : list string) : bool :=
  match path with
  | root :: _ => String.eqb root "xdas"
  | [] => false
  end.

(** The functions of the library the notebook names, and the methods of
    [DataArray] and of the two collection classes it calls. *)
Definition xdas_functions : list string :=
  ["open_mfdatatree"; "open_mfdataarray"; "DataCollection";
   "get_sampling_interval"].

Definition xdas_methods : list string :=
  ["copy"; "append"; "update"; "sel"; "to_netcdf"].

(** The built-in functions of Python 3.12. *)
Definition python_builtins : list string :=
  ["abs"; "aiter"; "all"; "anext"; "any"; "ascii"; "bin"; "bool";
   "breakpoint"; "bytearray"; "bytes"; "callable"; "chr"; "classmethod";
   "compile"; "complex"; "delattr"; "dict"; "dir"; "divmod"; "enumerate";
   "eval"; "exec"; "filter"; "float"; "format"; "frozenset"; "getattr";
   "globals"; "hasattr"; "hash"; "help"; "hex"; "id"; "input"; "int";
   "isinstance"; "issubclass"; "iter"; "len"; "list"; "locals"; "map";
   "max"; "memoryview"; "min"; "next"; "object"; "oct"; "open"; "ord";
   "pow"; "print"; "property"; "range"; "repr"; "reversed"; "round";
   "set"; "setattr"; "slice"; "sorted"; "staticmethod"; "str"; "sum";
   "super"; "tuple"; "type"; "vars"; "zip"].

(** What a call reaches: a function of an imported xdas module, a method
    of an array or a collection, a built-in function of Python, or
    anything else. *)
Inductive call_kind : Type :=
| LibraryFunction
| ObjectMethod
| Builtin
| Foreign.

Definition kind_of (imps : list (string * list string)) (c : callee) : call_kind :=
  match c with
  | Qualified base f =>
      match dict_get imps base with
      | Some path =>
          if is_xdas_module path && str_in f xdas_functions
          then LibraryFunction else Foreign
      | None => if str_in f xdas_methods then ObjectMethod else Foreign
      end
  | Method f => if str_in f xdas_methods then ObjectMethod else Foreign
  | Global f => if str_in f python_builtins then Builtin else Foreign
  end.

Definition into_library (imps : list (string * list string)) (c : callee) : Prop :=
  kind_of imps c = LibraryFunction \/ kind_of imps c = ObjectMethod.

(** C1 as the specification words it: every cell only calls into the
    library, defines nothing and runs no shell command. *)
Definition only_library_calls (nb : list cell) : Prop :=
  Forall (fun c =>
            defines_nothing (source c)
            /\ shell_lines (source c) = []
            /\ Forall (into_library (imported nb)) (calls (source c)))
         (code_cells nb).

(** C2 as the specification words it: no cell holds a loop, a branch or
    another control construct. *)
Definition straight_line (nb : list cell) : Prop :=
  Forall (fun c => used control_keywords (source c) = []) (code_cells nb).

(** *** Failures *)




(** The shapes of the arrays a cell displays. *)
Definition displayed_arrays (c : cell) : list (list (string * N)) :=
  match displayed c with
  | Some text =>
      match Repr.parse text with
      | Some s => map snd (arrays s)
      | None => []
      end
  | None => []
  end.



(** *** The setup instructions of the README *)

Definition setup : string := "Setup the tutorial environment".

(** The steps of the setup: each subsection with its commands. *)
Definition setup_steps (text : list string) : list (string * list string) :=
  map (fun sub => (sub, Markdown.commands_under setup sub text))
      (Markdown.subsections setup text).

(** The concern a command line serves, from the program it runs: the
    source code (git, and entering the clone), the environment (conda),
    packages (pip), the sample data (wget, unzip), the outputs folder
    (rm, mkdir). *)
Inductive concern : Type :=
| SourceCode
| EnvironmentCreation
| PackageInstallation
| SampleData
| OutputFolder.

Definition concern_of (command : string) : option concern :=
  let w := first_word command in
  if str_in w ["git"; "cd"] then Some SourceCode
  else if str_in w ["conda"] then Some EnvironmentCreation
  else if str_in w ["pip"] then Some PackageInstallation
  else if str_in w ["wget"; "unzip"] then Some SampleData
  else if str_in w ["rm"; "mkdir"] then Some OutputFolder
  else None.

Definition named_concerns : list concern :=
  [EnvironmentCreation; PackageInstallation; SampleData].

(** C8 as the specification words it: every command of the setup serves
    one of the three concerns named. *)
Definition only_named_concerns (text : list string) : Prop :=
  Forall (fun c => exists k, concern_of (Markdown.line c) = Some k
                             /\ In k named_concerns)
         (filter (fun c => String.eqb (Markdown.section c) setup)
                 (Markdown.commands text)).

(** The addresses a text downloads from. *)
Definition downloads (text : list string) : list string :=
  flat_map (fun c => match split_on " " (Markdown.line c) with
                     | ["wget"; url] => [url]
                     | _ => []
                     end) (Markdown.commands text).

(** *** The storage line of [Out[3]]: [VirtualStack: 715.1MB (int16)] *)

Definition itemsize (dtype : string) : option Z :=
  if String.eqb dtype "int16" then Some 2%Z
  else if String.eqb dtype "int32" then Some 4%Z
  else if String.eqb dtype "float32" then Some 4%Z
  else if String.eqb dtype "float64" then Some 8%Z
  else None.

(** Size in thousandths of a megabyte, and the element type. *)
Definition parse_storage (line : string) : option (Z * string) :=
  match split_first ": " line with
  | Some ("VirtualStack", rest) =>
      match split_on "MB (" rest with
      | [mb; ty] =>
          option_map (fun m => (m, drop_end 1 ty)) (parse_milli mb)
      | _ => None
      end
  | _ => None
  end.

(** The coordinate range of a line [  * time (time): a to b]. *)
Definition parse_range (line : string) : option (string * (string * string)) :=
  match split_first " (" (drop 2 (lstrip line)) with
  | Some (name, rest) =>
      match split_first "): " rest with
      | Some (_, range) =>
          match split_on " to " range with
          | [a; b] => Some (name, (a, b))
          | _ => None
          end
      | None => None
      end
  | None => None
  end.

(** The dictionary keys written in a cell: each string literal followed
    by a colon. *)
Fixpoint literal_keys (ts : list token) : list string :=
  match ts with
  | STRING _ k :: ((OP c :: _) as ts') =>
      if (code_of c =? 58)%N then k :: literal_keys ts' else literal_keys ts'
  | _ :: ts' => literal_keys ts'
  | [] => []
  end.

(** What follows [xd.DataCollection(] in a cell: the bracket that opens
    its first argument. *)
Fixpoint collection_argument (ts : list token) : option ascii :=
  match ts with
  | NAME "DataCollection" :: OP _ :: OP c :: _ => Some c
  | _ :: ts' => collection_argument ts'
  | [] => None
  end.

(** *** Selection: same outline, smaller along one dimension *)

(** Dimension by dimension, [after] has the name and the size of
    [before], except that the dimension [name] may have become smaller. *)
Definition only_shrinks (name : string) (before after : list (string * N))
  : Prop :=
  Forall2 (fun b a =>
             fst a = fst b
             /\ if String.eqb (fst b) name then (snd a <= snd b)%N
                else snd a = snd b)
          before after.

(** Two shapes with the same names, keys and nesting, whose arrays differ
    at most by a smaller dimension [name]. *)
Inductive shrinks (name : string) : shape -> shape -> Prop :=
| shrinks_array : forall before after,
    only_shrinks name before after ->
    shrinks name (Array before) (Array after)
| shrinks_collection : forall title entries entries',
    Forall2 (fun e e' => fst e = fst e' /\ shrinks name (snd e) (snd e'))
            entries entries' ->
    shrinks name (Collection title entries) (Collection title entries').

(** The shape found by following keys from the top. *)
Fixpoint at_path (s : shape) (path : list string) : option shape :=
  match path with
  | [] => Some s
  | k :: path' =>
      match child s k with
      | Some s' => at_path s' path'
      | None => None
      end
  end.

(** Every array of the store has exactly the dimensions [names]. *)
Definition arrays_have_dims (names : list string) (h : store) : Prop :=
  Forall (fun o => match o with
                   | ODataArray da => map fst (coords da) = names
                   | _ => True
                   end) h.


(** The state of the session after the cells numbered up to [n]. *)
Definition state_after (n : Z) (deep_by_default : bool) : state :=
  match run_cells (filter (fun p => (fst p <=? n)%Z)
                          (programs (sample_data deep_by_default)))
                  initial with
  | Ok (_, s) => s
  | Raise _ => initial
  end.

(** *** What the notebook says about the library *)

Definition says (c : cell) (words : string) : bool :=
  existsb (contains words) (source c).

(** *** Sampling intervals: what cell 14 printed *)

(** Quotient to the nearest integer. *)
Definition round_div (a b : Z) : Z := ((2 * a + b) / (2 * b))%Z.

(** The spacing of the labels of a coordinate, to the nearest unit. *)
Definition sampling_interval (c : Coordinate) : Z := round_div (span c) (steps c).

(** Time step in milliseconds and distance step in metres of each array
    of a value. *)
Fixpoint intervals (t : tree) : list (Z * Z) :=
  match t with
  | TArray da =>
      match map snd (coords da) with
      | [time; distance] =>
          [(sampling_interval time, round_div (sampling_interval distance) 1000)]
      | _ => []
      end
  | TSequence _ items => flat_map intervals items
  | TMapping _ items => flat_map (fun kv => intervals (snd kv)) items
  end.

(** A printed line [0  16ms  15m ] read as (16, 15). *)
Definition printed_interval (line : string) : option (Z * Z) :=
  match filter (fun w => negb (String.eqb w "")) (split_on " " line) with
  | [_; dt; dx] =>
      match parse_Z (drop_end 2 dt), parse_Z (drop_end 1 dx) with
      | Some a, Some b => Some (a, b)
      | _, _ => None
      end
  | _ => None
  end.

(** *** What the notebook recorded *)

Definition entry_kinds (s : shape) : list string :=
  match s with
  | Array _ => []
  | Collection _ entries =>
      map (fun e => match snd e with
                    | Array _ => "array"
                    | Collection _ _ => "collection"
                    end) entries
  end.

Definition bracket : ascii := ascii_of_nat 91.
Definition brace : ascii := ascii_of_nat 123.

(** Cells 9 to 11: the argument of [xd.DataCollection] and what is
    displayed for it.  A list gives the keys 0 and 1; a dict gives the
    keys written in the cell; the elements are arrays in cells 9 and 10
    and whole collections in cell 11. *)
Definition recorded_collections : Prop :=
  (collection_argument (tokens (source In_9)) = Some bracket
   /\ exists s, recorded_display 9 = Some s
                /\ Repr.keys s = index_keys 2
                /\ entry_kinds s = ["array"; "array"])
  /\ (collection_argument (tokens (source In_10)) = Some brace
      /\ exists s, recorded_display 10 = Some s
                   /\ Repr.keys s = literal_keys (tokens (source In_10))
                   /\ Repr.keys s = ["id_000000"; "id_000001"]
                   /\ entry_kinds s = ["array"; "array"])
  /\ (collection_argument (tokens (source In_11)) = Some brace
      /\ exists s, recorded_display 11 = Some s
                   /\ Repr.keys s = literal_keys (tokens (source In_11))
                   /\ entry_kinds s = ["collection"; "collection"]).


(** Cells 4, 6 and 11: the copy displayed by cell 4 has the cable [S]
    under [CCN] and the node [CAL]; the collection [dc], used by the later
    cells 6 and 11, has the nodes and cables of cell 2 and neither of
    them. *)
Definition recorded_original_untouched : Prop :=
  exists s2 s4 s6 s11 e0 e1,
    recorded_display 2 = Some s2
    /\ recorded_display 4 = Some s4
    /\ recorded_display 6 = Some s6
    /\ recorded_display 11 = Some s11
    /\ child s11 "id_000000" = Some e0
    /\ child s11 "id_000001" = Some e1
    /\ Repr.keys s4 = ["CCN"; "SER"; "CAL"]
    /\ option_map Repr.keys (at_path s4 ["CCN"]) = Some ["N"; "S"]
    /\ Repr.keys s2 = ["CCN"; "SER"]
    /\ option_map Repr.keys (at_path s2 ["CCN"]) = Some ["N"]
    /\ skeleton s6 = skeleton s2
    /\ skeleton e0 = skeleton s2
    /\ skeleton e1 = skeleton s2
    /\ at_path s6 ["CCN"; "S"] = None
    /\ at_path s6 ["CAL"] = None.

(** The storage line of a displayed array is that of a dense array: the
    size shown, to a tenth of a megabyte, is the number of its elements
    times the size of one. *)
Definition dense_storage (text : list string) : Prop :=
  exists dims line milli dtype bytes,
    Repr.parse text = Some (Array dims)
    /\ nth_error text 1 = Some line
    /\ parse_storage line = Some (milli, dtype)
    /\ itemsize dtype = Some bytes
    /\ ((milli - 50) * 2 ^ 20
        <= 1000 * fold_right Z.mul bytes (map (fun d => Z.of_N (snd d)) dims)
        < (milli + 50) * 2 ^ 20)%Z.

(** A sequence and a mapping that each hold an array and a collection. *)
Definition mixed_nesting : M (option shape) :=
  (a <- allocate CCN_N_0 ;;
   m <- DataCollection (PyDict [("x", a)]) None ;;
   q <- DataCollection (PyList [a; m]) (Some "mixed") ;;
   d <- DataCollection (PyDict [("array", a); ("sequence", q)]) None ;;
   display d)%py.

End Analysis.

Import Analysis.

(** ** Tactics *)

(** Reduce a statement about all elements of a list given by the sources to
    one goal per element. *)
Ltac split_Forall :=
  lazymatch goal with
  | |- Forall _ (_ :: _) => apply Forall_cons; [ cbv beta | split_Forall ]
  | |- Forall _ [] => apply Forall_nil
  end.

Ltac each_element :=
  lazymatch goal with
  | |- Forall _ ?l =>
      let l' := eval vm_compute in l in
      let E := fresh "E" in
      assert (E : l = l') by (vm_compute; reflexivity);
      rewrite E; clear E
  end;
  split_Forall.

Ltac each_code_cell :=
  first
    [ progress change (code_cells notebook)
        with [In_1; In_2; In_3; In_4; In_5; In_6; In_7; In_8; In_9; In_10;
              In_11; In_12; In_13; In_14]
    | progress change (code_cells notebook_prev)
        with [In_1; In_2; In_3; In_4; In_5; In_6; In_7; In_8; In_9; In_10;
              In_11] ];
  split_Forall.


(** ** Collections as values

    The cells handle collections through references into the store.  What
    follows reads the same operations on the values the references stand
    for, so that what a cell computes can be said without the store. *)

Module Values.

Set Warnings "-register-all".

(** Modelled from the spec: [t[key]] read on a value, the reading
    [getitem] gives of it on objects: a mapping is indexed by its string
    keys as a [dict] is, a sequence by integers as a [list] is, counting
    from the end when the integer is negative.  The notebook indexes
    collections only. *)
Definition tree_getitem (t : tree) (key : value) : result tree :=
  match t, key with
  | TMapping _ d, Str k =>
      match dict_get d k with
      | Some t' => Ok t'
      | None => Raise (KeyError k)
      end
  | TMapping _ _, _ => Raise (KeyError (show_key key))
  | TSequence _ items, Int z =>
      match position (length items) z with
      | Some i =>
          match nth_error items i with
          | Some t' => Ok t'
          | None => Raise IndexError
          end
      | None => Raise IndexError
      end
  | _, _ => Raise TypeError
  end.

(** [t[k1][k2]...] *)
Fixpoint tree_subscripts (t : tree) (keys : list value) : result tree :=
  match keys with
  | [] => Ok t
  | k :: keys' =>
      match tree_getitem t k with
      | Ok t' => tree_subscripts t' keys'
      | Raise e => Raise e
      end
  end.

(** The outline of a collection opened from a folder hierarchy
    [{node}/{cable}/[acquisition]], in the notebook's words "a nesting of
    DataMapping objects (behaves as a dict) down to the last leave that is
    a DataSequence objects (behaves as list)": nodes, each a mapping of
    cables, each a sequence. *)
Definition is_sequence (t : tree) : Prop :=
  match t with
  | TSequence _ _ => True
  | _ => False
  end.

Definition tree_of_cables (t : tree) : Prop :=
  match t with
  | TMapping _ cables => Forall (fun c => is_sequence (snd c)) cables
  | _ => False
  end.

Definition tree_of_nodes (t : tree) : Prop :=
  match t with
  | TMapping _ nodes => Forall (fun n => tree_of_cables (snd n)) nodes
  | _ => False
  end.

(** The loop variables of cell 5. *)
Definition loop_variables : list string := ["node"; "cable"; "da"].

(** A mapping of mappings: nodes that hold cables. *)
Definition is_mapping (t : tree) : Prop :=
  match t with
  | TMapping _ _ => True
  | _ => False
  end.

Definition tree_of_mappings (t : tree) : Prop :=
  match t with
  | TMapping _ nodes => Forall (fun n => is_mapping (snd n)) nodes
  | _ => False
  end.

(** What cell 4 makes of the value [t] of [dc], a mapping of mappings:
    the cable [N] of the node [CCN] entered again under [S], with its first
    acquisition appended, and the node [CCN] as it was entered under [CAL].
    Without a node [CCN] or a cable [N] the second statement raises
    [KeyError]; when the cable is not a sequence the third finds no
    [append], and when it is an empty one, no first acquisition. *)
Definition after_cell_4 (t : tree) : result tree :=
  match t with
  | TMapping n nodes =>
      match dict_get nodes "CCN" with
      | Some (TMapping nc cables) =>
          match dict_get cables "N" with
          | Some (TSequence na (first :: rest)) =>
              let south := TSequence na ((first :: rest) ++ [first]) in
              let ccn := TMapping nc (dict_set cables "S" south) in
              Ok (TMapping n (dict_set (dict_set nodes "CCN" ccn) "CAL"
                                (TMapping nc cables)))
          | Some (TSequence _ []) => Raise IndexError
          | Some _ => Raise (AttributeError "append")
          | None => Raise (KeyError "N")
          end
      | Some _ => Raise TypeError
      | None => Raise (KeyError "CCN")
      end
  | _ => Raise TypeError
  end.

(** The two events of cells 9 to 11, selected from a value. *)
Definition event (lo hi : string) (t : tree) : result tree :=
  match parse_datetime lo, parse_datetime hi with
  | Some a, Some b => sel_tree "time" a b t
  | _, _ => Raise ValueError
  end.

Definition event_0 : tree -> result tree :=
  event "2023-11-03T12:23:35" "2023-11-03T12:24:00".

Definition event_1 : tree -> result tree :=
  event "2023-11-03T12:26:40" "2023-11-03T12:27:50".

(** *** What a slice keeps

    Sample [j] of the axis lies in the window of a coordinate; its label,
    [tie_first + j * span / steps], lies between [lo] and [hi], bounds
    included (both sides multiplied by [steps]). *)
Definition in_window (c : Coordinate) (j : Z) : Prop :=
  (Z.of_N (offset c) <= j < Z.of_N (offset c) + Z.of_N (size c))%Z.

Definition labelled_between (c : Coordinate) (lo hi : Z) (j : Z) : Prop :=
  ((lo - tie_first c) * steps c <= j * span c
   <= (hi - tie_first c) * steps c)%Z.

(** Every array of a value has the property [P]. *)
Fixpoint every_array (P : DataArray -> Prop) (t : tree) : Prop :=
  match t with
  | TArray da => P da
  | TSequence _ items =>
      (fix all (ts : list tree) : Prop :=
         match ts with
         | [] => True
         | t' :: ts' => every_array P t' /\ all ts'
         end) items
  | TMapping _ items =>
      (fix all (ts : list (string * tree)) : Prop :=
         match ts with
         | [] => True
         | kv :: ts' => every_array P (snd kv) /\ all ts'
         end) items
  end.

(** The array has samples along every dimension, the labels of its
    dimension [name] increase, and one of its samples carries a label
    between [lo] and [hi]. *)
Definition sample_between (name : string) (lo hi : Z) (da : DataArray) : Prop :=
  empty da = false
  /\ exists c, dict_get (coords da) name = Some c
               /\ (0 < span c)%Z /\ (0 < steps c)%Z
               /\ exists j, in_window c j /\ labelled_between c lo hi j.

(** A selection that leaves no array without samples. *)
Definition keeps_samples (name : string) (lo hi : Z) (t : tree) : Prop :=
  every_array (sample_between name lo hi) t.

(** What a selection makes of an array: the same dimensions in the same
    order, the same coordinate along every dimension but [name], and along
    [name] the samples of the array whose label lies between the
    bounds. *)
Definition selected (name : string) (lo hi : Z) (da da' : DataArray) : Prop :=
  map fst (coords da') = map fst (coords da)
  /\ dtype da' = dtype da
  /\ (forall d, d <> name -> dict_get (coords da') d = dict_get (coords da) d)
  /\ exists c c',
      dict_get (coords da) name = Some c
      /\ dict_get (coords da') name = Some c'
      /\ tie_first c' = tie_first c /\ tie_last c' = tie_last c
      /\ tie_count c' = tie_count c
      /\ (size c' <= size c)%N
      /\ forall j, in_window c' j <-> in_window c j /\ labelled_between c lo hi j.

(** Two values with the same names, keys and nesting, whose arrays are
    related by [R] one by one. *)
Inductive alike (R : DataArray -> DataArray -> Prop) : tree -> tree -> Prop :=
| alike_array : forall da da',
    R da da' -> alike R (TArray da) (TArray da')
| alike_sequence : forall n ts ts',
    Forall2 (alike R) ts ts' -> alike R (TSequence n ts) (TSequence n ts')
| alike_mapping : forall n ts ts',
    Forall2 (fun kt kt' => fst kt = fst kt' /\ alike R (snd kt) (snd kt'))
            ts ts' ->
    alike R (TMapping n ts) (TMapping n ts').


(** The window from [lo] to [hi], two labels given as text, leaves
    samples in every array of [t]; and so do the two windows of cells 9
    to 11. *)
Definition within (lo hi : string) (t : tree) : Prop :=
  match parse_datetime lo, parse_datetime hi with
  | Some a, Some b => keeps_samples "time" a b t
  | _, _ => False
  end.

Definition events_keep_samples (t : tree) : Prop :=
  within "2023-11-03T12:23:35" "2023-11-03T12:24:00" t
  /\ within "2023-11-03T12:26:40" "2023-11-03T12:27:50" t.

(** *** What the notebook displays, as a function of the data

    [data] is what [open_mfdatatree] finds in cell 2 and [acquisitions]
    what [open_mfdataarray] finds in cell 13.  Each code cell is given
    what it displays, or the exception it raises; a cell is reached only
    if the cells before it raised nothing. *)
Definition and_then {A B} (r : result A) (f : A -> result B) : result B :=
  match r with
  | Ok a => f a
  | Raise e => Raise e
  end.

Definition shown (r : result tree) : result (option shape) :=
  and_then r (fun t => Ok (Some (shape_of t))).


Definition two_events (t : tree) (make : tree -> tree -> tree) : result tree :=
  and_then (event_0 t) (fun e0 =>
  and_then (event_1 t) (fun e1 => Ok (make e0 e1))).

Definition events_list (e0 e1 : tree) : tree :=
  TSequence (Some "event") [e0; e1].

Definition events_dict (e0 e1 : tree) : tree :=
  TMapping (Some "event") [("id_000000", e0); ("id_000001", e1)].





End Values.

Import Values.

(** ** Values in the store

    What is needed to follow a value through changes made in place. *)

Module Layout.

(** The object at [l] stands for the value [t], whatever the fuel. *)
Definition stands_for (h : store) (l : loc) (t : tree) : Prop :=
  forall fuel, (height t <= fuel)%nat -> snapshot fuel h l = Some t.

(** The objects at the locations [a] to [b - 1] only refer to objects
    among them that were made before. *)
Definition closed (h : store) (a b : nat) : Prop :=
  forall i o, (a <= i < b)%nat -> nth_error h i = Some o ->
              Forall (fun c => (a <= c < i)%nat) (children o).

(** The objects [ls] stand for the values [ts]; each comes last in a
    closed range of its own, and the ranges follow one another from [a]
    to [b]. *)
Fixpoint chain (h : store) (a : nat) (ls : list loc) (ts : list tree) (b : nat)
  : Prop :=
  match ls, ts with
  | [], [] => a = b
  | l :: ls', t :: ts' =>
      (a <= l)%nat /\ closed h a (S l) /\ stands_for h l t
      /\ chain h (S l) ls' ts' b
  | _, _ => False
  end.

(** An object whose elements stand for the elements of the value [t]. *)
Definition made_of (h : store) (o : object) (t : tree) : Prop :=
  match t, o with
  | TArray da, ODataArray da' => da' = da
  | TSequence n ts, ODataSequence n' cs =>
      n' = n /\ Forall2 (fun t c => stands_for h c t) ts cs
  | TMapping n ts, ODataMapping n' d =>
      n' = n
      /\ Forall2 (fun (kt : string * tree) (kv : string * loc) =>
                    fst kt = fst kv /\ stands_for h (snd kv) (snd kt)) ts d
  | _, _ => False
  end.

End Layout.

Import Layout.

(** ** The table of cell 14

    [print(f"{acq}  {dt * 1000:>2.0f}ms  {dx:>2.0f}m ")]: the format
    [>2.0f] writes a number in fixed point with no decimals, rounded to the
    nearest integer and to the even one of two nearest, and pads it with
    blanks on the left to two characters. *)

Module Table.

(** A finite floating-point number is a fraction with a sign. *)
Record float : Type := {
  negative : bool;
  numerator : N;
  denominator : positive
}.

Definition nearest (x : float) : N :=
  let d := Npos (denominator x) in
  let quotient := (numerator x / d)%N in
  let remainder := (numerator x mod d)%N in
  if (2 * remainder <? d)%N then quotient
  else if (d <? 2 * remainder)%N then (quotient + 1)%N
  else if N.even quotient then quotient else (quotient + 1)%N.

(** [format(x, ".0f")] *)
Definition fixed_0 (x : float) : string :=
  ((if negative x then "-" else "") ++ show_N (nearest x))%string.

(** [format(s, ">width")] *)
Definition rjust (width : nat) (s : string) : string :=
  (spaces (width - String.length s) ++ s)%string.

(** The line printed for the acquisition [acq], given the values of
    [dt * 1000] and of [dx]. *)
Definition row (acq : nat) (dt_ms dx : float) : string :=
  (show_nat acq ++ "  " ++ rjust 2 (fixed_0 dt_ms) ++ "ms  "
   ++ rjust 2 (fixed_0 dx) ++ "m ")%string.

(** The two lines printed before the loop. *)
Definition header : list string := ["#  dt     dx"; "------------"].

Definition whole (n : N) : float :=
  {| negative := false; numerator := n; denominator := 1 |}.

(** The words of a line, what stands between blanks, as
    [printed_interval] reads them; and a string without a blank. *)
Definition words (line : string) : list string :=
  filter (fun w => negb (String.eqb w "")) (split_on " " line).

Fixpoint solid (s : string) : Prop :=
  match s with
  | EmptyString => True
  | String c s' => c <> " "%char /\ solid s'
  end.

End Table.

Import Table.

(** * Properties *)

(** ** The sources, read back *)

Lemma code_cells_notebook :
  code_cells notebook
  = [In_1; In_2; In_3; In_4; In_5; In_6; In_7; In_8; In_9; In_10; In_11;
     In_12; In_13; In_14].
Proof. reflexivity. Qed.

Lemma code_cells_notebook_prev :
  code_cells notebook_prev
  = [In_1; In_2; In_3; In_4; In_5; In_6; In_7; In_8; In_9; In_10; In_11].
Proof. reflexivity. Qed.

(** Every output the notebook recorded as the value of a cell is read by
    [Repr.parse], and a collection printed back gives the recorded lines. *)
Lemma recorded_displays_parse :
  Forall (fun c => forall text, displayed c = Some text ->
                   exists s, Repr.parse text = Some s
                             /\ (show s = text \/ exists dims, s = Array dims))
         (code_cells notebook).
Proof.
  each_code_cell; intros text H; vm_compute in H;
    try discriminate; injection H as <-;
    eexists; (split; [ vm_compute; reflexivity | ]);
    first [ left; vm_compute; reflexivity | right; eexists; reflexivity ].
Qed.

(** The modelled cells, run in order on the sample data, display what the
    notebook recorded, whichever default [copy] has. *)
Lemma session_reproduces_recorded_displays :
  forall deep_by_default, displays deep_by_default = recorded.
Proof. intros []; vm_compute; reflexivity. Qed.

Lemma session_raises_nothing :
  forall deep_by_default, exists ds s, session deep_by_default = Ok (ds, s).
Proof. intros []; vm_compute; eauto. Qed.

(** The coordinate ranges and the storage size of [CCN/N/0] are those of
    [Out[3]]. *)
Lemma CCN_N_0_as_recorded :
  map parse_range (skipn 3 (match displayed In_3 with Some t => t | None => [] end))
  = [Some ("time", ("2023-11-03T12:20:06.000", "2023-11-03T12:30:05.984"));
     Some ("distance", ("0.000", "153149.070"))]
  /\ shape_of CCN_N_0 = Array [("time", 37500%N); ("distance", 9998%N)]
  /\ recorded_display 3 = Some (shape_of CCN_N_0).
Proof. repeat split; vm_compute; reflexivity. Qed.

(** The words of the notebook the model of the library rests on. *)
Lemma the_notebook_says :
  says md_00 "- `DataMapping` that behaves as `dict`" = true
  /\ says md_00 "- `DataSequence` that behaves as `list`" = true
  /\ says md_04 "Everything you can do with dict and list can be done with data mappings sequences." = true
  /\ says In_4 "# behaves like a list" = true
  /\ says In_4 "# behaves like a dict" = true
  /\ says md_10 "the operation is applied to each element of the collection" = true
  /\ says In_9 "# Passing a list gives a DataSequence" = true
  /\ says In_10 "# Passing a dict gives a DataMapping" = true
  /\ says In_11 "# Here each event is a DataCollection" = true
  /\ says md_23 "DataSequence objects are automatically returned whenever files with different coordinates information are tried to be openned together" = true.
Proof. repeat split; vm_compute; reflexivity. Qed.

(** The sampling intervals of the three acquisitions assumed for
    [data/gps_multiacq] are those cell 14 printed. *)
Lemma gps_multiacq_as_recorded :
  map printed_interval (skipn 2 (printed In_14))
  = map Some (intervals gps_multiacq)
  /\ intervals gps_multiacq = [(16, 15); (10, 15); (10, 4)]%Z
  /\ option_map show (recorded_display 13) = Some (show (shape_of gps_multiacq)).
Proof. repeat split; vm_compute; reflexivity. Qed.

(** ** The store: basic facts *)

(** A sequence of two operations succeeds when both do. *)
Section Monad_facts.

Context {A B : Type}.

Lemma bind_Ok (m : M A) (f : A -> M B) s r :
  bind m f s = Ok r -> exists a s1, m s = Ok (a, s1) /\ f a s1 = Ok r.
Proof.
  unfold bind. destruct (m s) as [[a s1]|e]; [ eauto | discriminate ].
Qed.

Lemma bind_step (m : M A) (f : A -> M B) s a s1 :
  m s = Ok (a, s1) -> bind m f s = f a s1.
Proof. intros H. unfold bind. rewrite H. reflexivity. Qed.

End Monad_facts.

Section Dict_facts.

Context {V : Type}.
Implicit Types (d : list (string * V)) (k : string) (v : V).

Lemma dict_get_set_eq d k v : dict_get (dict_set d k v) k = Some v.
Proof.
  induction d as [|[k' v'] d IH]; simpl.
  - rewrite String.eqb_refl. reflexivity.
  - destruct (String.eqb k' k) eqn:E; simpl.
    + rewrite String.eqb_refl. reflexivity.
    + rewrite E. exact IH.
Qed.

Lemma dict_get_set_ne d k k' v :
  k <> k' -> dict_get (dict_set d k v) k' = dict_get d k'.
Proof.
  intros Hne. induction d as [|[k0 v0] d IH]; simpl.
  - apply String.eqb_neq in Hne. rewrite Hne. reflexivity.
  - destruct (String.eqb k0 k) eqn:E; simpl.
    + apply String.eqb_eq in E. subst k0.
      apply String.eqb_neq in Hne. rewrite Hne. reflexivity.
    + rewrite IH. reflexivity.
Qed.

Lemma dict_get_None d k : dict_get d k = None <-> ~ In k (map fst d).
Proof.
  induction d as [|[k' v'] d IH]; simpl.
  - tauto.
  - destruct (String.eqb k' k) eqn:E.
    + apply String.eqb_eq in E. split; [ discriminate | tauto ].
    + apply String.eqb_neq in E. rewrite IH. tauto.
Qed.

Lemma dict_get_Some_In d k : In k (map fst d) -> exists v, dict_get d k = Some v.
Proof.
  intros H. destruct (dict_get d k) as [v|] eqn:E; [ eauto | ].
  apply dict_get_None in E. contradiction.
Qed.

Lemma dict_get_In d k v : dict_get d k = Some v -> In v (map snd d).
Proof.
  induction d as [|[k' v'] d IH]; simpl; [ discriminate | ].
  destruct (String.eqb k' k); [ intros [= ->]; tauto | auto ].
Qed.

Lemma dict_set_fresh d k v :
  ~ In k (map fst d) -> dict_set d k v = d ++ [(k, v)].
Proof.
  induction d as [|[k' v'] d IH]; simpl; intros H; [ reflexivity | ].
  destruct (String.eqb k' k) eqn:E.
  - apply String.eqb_eq in E. tauto.
  - rewrite IH by tauto. reflexivity.
Qed.

Lemma dict_set_keys d k v k' :
  In k' (map fst (dict_set d k v)) <-> k' = k \/ In k' (map fst d).
Proof.
  induction d as [|[k0 v0] d IH]; simpl.
  - intuition.
  - destruct (String.eqb k0 k) eqn:E; simpl.
    + apply String.eqb_eq in E. subst. intuition.
    + rewrite IH. intuition.
Qed.

Lemma dict_update_keys other d k :
  In k (map fst (dict_update d other))
  <-> In k (map fst d) \/ In k (map fst other).
Proof.
  unfold dict_update. revert d.
  induction other as [|[k0 v0] other IH]; intros d; simpl.
  - tauto.
  - rewrite IH, dict_set_keys. intuition.
Qed.

(** A literal whose keys are all different denotes itself. *)
Lemma dict_update_distinct other d :
  NoDup (map fst other) ->
  (forall k, In k (map fst other) -> ~ In k (map fst d)) ->
  dict_update d other = d ++ other.
Proof.
  unfold dict_update. revert d.
  induction other as [|[k0 v0] other IH]; intros d Hnd Hdis; simpl.
  - rewrite app_nil_r. reflexivity.
  - simpl in Hnd. inversion Hnd as [|? ? Hnot Hnd']; subst.
    rewrite dict_set_fresh by (apply Hdis; simpl; tauto).
    rewrite IH; [ rewrite <- app_assoc; reflexivity | assumption | ].
    intros k Hk. rewrite map_app, in_app_iff. simpl.
    intros [H|[H|[]]]; [ exact (Hdis k (or_intror Hk) H) | subst; tauto ].
Qed.

Lemma dict_of_distinct (literal : list (string * V)) :
  NoDup (map fst literal) -> dict_of literal = literal.
Proof.
  intros H. unfold dict_of. rewrite dict_update_distinct; auto.
Qed.

End Dict_facts.

Lemma all_some_map_weaken {X Y} (f g : X -> option Y) l r :
  (forall x y, f x = Some y -> g x = Some y) ->
  all_some (map f l) = Some r -> all_some (map g l) = Some r.
Proof.
  intros Hfg. revert r.
  induction l as [|x l IH]; intros r; simpl; [ auto | ].
  destruct (f x) as [y|] eqn:E; [ | discriminate ].
  rewrite (Hfg _ _ E).
  destruct (all_some (map f l)) as [ys|]; [ | discriminate ].
  rewrite (IH ys eq_refl). auto.
Qed.

(** A value read from a store is read the same from any longer store. *)
Lemma snapshot_extends fuel h ext :
  forall l t, snapshot fuel h l = Some t -> snapshot fuel (h ++ ext) l = Some t.
Proof.
  induction fuel as [|fuel IH]; intros l t; simpl; [ discriminate | ].
  destruct (nth_error h l) as [o|] eqn:E; [ | discriminate ].
  rewrite nth_error_app1 by (apply nth_error_Some; congruence).
  rewrite E. destruct o as [da|n items|n items]; [ auto | | ].
  - destruct (all_some (map (snapshot fuel h) items)) as [ts|] eqn:Es;
      [ | discriminate ].
    intros H. rewrite (all_some_map_weaken _ _ _ _ IH Es). exact H.
  - destruct (all_some (map (fun kv => option_map (pair (fst kv))
                                         (snapshot fuel h (snd kv))) items))
      as [ts|] eqn:Es; [ | discriminate ].
    intros H.
    assert (W : forall (x : string * loc) (y : string * tree),
               option_map (pair (fst x)) (snapshot fuel h (snd x)) = Some y ->
               option_map (pair (fst x)) (snapshot fuel (h ++ ext) (snd x))
               = Some y).
    { intros x y Hx.
      destruct (snapshot fuel h (snd x)) as [t0|] eqn:E0; [ | discriminate ].
      rewrite (IH _ _ E0). exact Hx. }
    rewrite (all_some_map_weaken _ _ _ _ W Es). exact H.
Qed.

Lemma put_length l o h : length (put l o h) = length h.
Proof.
  revert l. induction h as [|x h IH]; intros [|l]; simpl; auto.
Qed.

(** Writing beyond a prefix leaves the prefix as it is. *)
Lemma put_beyond h0 ext l o :
  (length h0 <= l)%nat -> put l o (h0 ++ ext) = h0 ++ put (l - length h0) o ext.
Proof.
  revert l. induction h0 as [|x h0 IH]; intros l H; simpl.
  - rewrite Nat.sub_0_r. reflexivity.
  - destruct l as [|l]; [ simpl in H; lia | ].
    simpl. rewrite IH by (simpl in H; lia). reflexivity.
Qed.

Lemma nth_error_put_eq l o h :
  (l < length h)%nat -> nth_error (put l o h) l = Some o.
Proof.
  revert l. induction h as [|x h IH]; intros [|l] H; simpl in *; try lia; auto.
  apply IH. lia.
Qed.

Lemma nth_error_put_ne l l' o h :
  l <> l' -> nth_error (put l o h) l' = nth_error h l'.
Proof.
  revert l l'. induction h as [|x h IH]; intros [|l] [|l'] H; simpl; auto;
    try congruence.
Qed.

Lemma extends_refl h : extends h h.
Proof. exists []. rewrite app_nil_r. reflexivity. Qed.

Lemma extends_trans h0 h1 h2 : extends h0 h1 -> extends h1 h2 -> extends h0 h2.
Proof.
  intros [e1 ->] [e2 ->]. exists (e1 ++ e2). rewrite app_assoc. reflexivity.
Qed.

Lemma extends_app h0 h ext : extends h0 h -> extends h0 (h ++ ext).
Proof. intros [e ->]. exists (e ++ ext). rewrite app_assoc. reflexivity. Qed.

Lemma extends_length h0 h : extends h0 h -> (length h0 <= length h)%nat.
Proof. intros [e ->]. rewrite length_app. lia. Qed.

Lemma extends_put h0 h l o :
  extends h0 h -> (length h0 <= l)%nat -> extends h0 (put l o h).
Proof. intros [e ->] H. rewrite put_beyond by assumption. eexists; reflexivity. Qed.

Lemma extends_nth_error h0 h l o :
  extends h0 h -> nth_error h0 l = Some o -> nth_error h l = Some o.
Proof.
  intros [e ->] H. rewrite nth_error_app1; [ assumption | ].
  apply nth_error_Some. congruence.
Qed.

Lemma snapshot_preserved fuel h0 h l t :
  extends h0 h -> snapshot fuel h0 l = Some t -> snapshot fuel h l = Some t.
Proof. intros [e ->]. apply snapshot_extends. Qed.

(** ** Allocation *)

(** Induction on values, with the hypothesis for every element of a
    collection. *)
Lemma tree_ind_nested (P : tree -> Prop) :
  (forall da, P (TArray da)) ->
  (forall n items, Forall P items -> P (TSequence n items)) ->
  (forall n items, Forall (fun kv => P (snd kv)) items -> P (TMapping n items)) ->
  forall t, P t.
Proof.
  intros Ha Hs Hm. fix IH 1. intros [da|n items|n items].
  - apply Ha.
  - apply Hs. revert items. fix IHl 1. intros [|t items]; constructor.
    + apply IH.
    + apply IHl.
  - apply Hm. revert items. fix IHl 1. intros [|[k t] items]; constructor.
    + apply IH.
    + apply IHl.
Qed.

Lemma all_some_Forall2 {X Y} (g : Y -> option X) xs ys :
  Forall2 (fun x y => g y = Some x) xs ys -> all_some (map g ys) = Some xs.
Proof.
  induction 1 as [|x y xs ys Hxy _ IH]; simpl; [ reflexivity | ].
  rewrite Hxy, IH. reflexivity.
Qed.

Section Thread.

Context {A B : Type}.
Variable f : A -> store -> B * store.
Variable tree_of : A -> tree.
Variable loc_of : B -> loc.
Variable Q : A -> B -> Prop.

Lemma thread_built items :
  Forall (fun x => forall h y h', f x h = (y, h') ->
                   built (tree_of x) h (loc_of y) h' /\ Q x y) items ->
  forall h ys h', thread f items h = (ys, h') ->
    extends h h'
    /\ Forall2 (fun x y =>
                  (length h <= loc_of y < length h')%nat
                  /\ Q x y
                  /\ forall fuel, (height (tree_of x) <= fuel)%nat ->
                                  snapshot fuel h' (loc_of y) = Some (tree_of x))
               items ys
    /\ (list_max (map (fun x => height (tree_of x)) items)
        <= length h' - length h)%nat.
Proof.
  induction 1 as [|x items Hx _ IH]; intros h ys h'; simpl.
  - intros [= <- <-]. split; [ apply extends_refl | ].
    split; [ constructor | lia ].
  - destruct (f x h) as [y h1] eqn:E1.
    destruct (thread f items h1) as [ys' h2] eqn:E2.
    intros [= <- <-].
    destruct (Hx _ _ _ E1) as ((X1 & L1 & G1 & S1 & _) & Q1).
    destruct (IH _ _ _ E2) as (X2 & F2 & G2).
    pose proof (extends_length _ _ X1). pose proof (extends_length _ _ X2).
    split; [ eapply extends_trans; eassumption | ].
    split.
    + constructor.
      * split; [ lia | ]. split; [ exact Q1 | ].
        intros fuel Hf. eapply snapshot_preserved; eauto.
      * eapply Forall2_impl; [ | exact F2 ].
        intros a b (La & Qa & Sa). split; [ lia | ]. split; assumption.
    + lia.
Qed.

End Thread.

(** What [build] achieves, for every value. *)
Lemma build_built : forall t h l h', build t h = (l, h') -> built t h l h'.
Proof.
  induction t as [da|n items IH|n items IH] using tree_ind_nested;
    intros h l h'; simpl.
  - intros [= <- <-]. unfold built. rewrite length_app. simpl.
    split; [ eexists; reflexivity | ].
    split; [ lia | ]. split; [ lia | ].
    split.
    + intros [|fuel] Hf; [ lia | ]. simpl.
      rewrite nth_error_app2, Nat.sub_diag by lia. reflexivity.
    + exists (ODataArray da). rewrite nth_error_app2, Nat.sub_diag by lia.
      split; [ reflexivity | constructor ].
  - destruct (thread build items h) as [ls h1] eqn:E.
    intros [= <- <-].
    assert (Hall : Forall (fun x => forall h y h', build x h = (y, h') ->
                                    built x h y h' /\ True) items).
    { eapply Forall_impl; [ | exact IH ]. intros; split; auto. }
    destruct (thread_built build (fun t => t) (fun l => l) (fun _ _ => True)
                items Hall _ _ _ E) as (X & F & G).
    change (list_max (map height items) <= length h1 - length h)%nat in G.
    pose proof (extends_length _ _ X) as Lx.
    unfold built. rewrite length_app. simpl.
    split; [ apply extends_app; exact X | ].
    split; [ lia | ]. split; [ lia | ].
    split.
    + intros [|fuel] Hf; [ lia | ]. simpl.
      rewrite nth_error_app2, Nat.sub_diag by lia. simpl.
      rewrite (all_some_Forall2 (snapshot fuel (h1 ++ [ODataSequence n ls]))
                 items ls); [ reflexivity | ].
      assert (Hh : Forall (fun x => height x <= fuel)%nat items).
      { rewrite <- (Forall_map height (fun k => k <= fuel)%nat).
        apply list_max_le. lia. }
      generalize [ODataSequence n ls]; intros ext.
      clear - F Hh. induction F as [|a b ? ? (_ & _ & Sa) ? IHF]; constructor.
      * inversion Hh; subst. apply snapshot_extends. apply Sa. assumption.
      * apply IHF. inversion Hh; assumption.
    + exists (ODataSequence n ls).
      rewrite nth_error_app2, Nat.sub_diag by lia.
      split; [ reflexivity | ]. simpl.
      clear - F. induction F as [|? ? ? ? (L & _) ? IHF]; constructor; auto.
  - destruct (thread (fun kv h0 => let '(l, h1) := build (snd kv) h0 in
                                   ((fst kv, l), h1)) items h)
      as [ls h1] eqn:E.
    intros [= <- <-].
    assert (Hall : Forall (fun x : string * tree =>
                             forall h (y : string * loc) h',
                               (let '(l, h1) := build (snd x) h in
                                ((fst x, l), h1)) = (y, h') ->
                               built (snd x) h (snd y) h' /\ fst x = fst y)
                          items).
    { eapply Forall_impl; [ | exact IH ].
      intros [k t] Ht h0 [k' l'] h0'. simpl in *.
      destruct (build t h0) as [l1 h2] eqn:Eb. intros [= <- <- <-].
      split; [ apply Ht; exact Eb | reflexivity ]. }
    destruct (thread_built _ snd snd (fun x y => fst x = fst y)
                items Hall _ _ _ E) as (X & F & G).
    pose proof (extends_length _ _ X) as Lx.
    unfold built. rewrite length_app. simpl.
    split; [ apply extends_app; exact X | ].
    split; [ lia | ]. split; [ lia | ].
    split.
    + intros [|fuel] Hf; [ lia | ]. simpl.
      rewrite nth_error_app2, Nat.sub_diag by lia. simpl.
      rewrite (all_some_Forall2
                 (fun kv => option_map (pair (fst kv))
                              (snapshot fuel (h1 ++ [ODataMapping n ls]) (snd kv)))
                 items ls); [ reflexivity | ].
      assert (Hh : Forall (fun x : string * tree => height (snd x) <= fuel)%nat items).
      { rewrite <- (Forall_map (fun x : string * tree => height (snd x))
                               (fun k => k <= fuel)%nat).
        apply list_max_le. lia. }
      generalize [ODataMapping n ls]; intros ext.
      clear - F Hh. induction F as [|[k t] [k' l'] ? ? (_ & Qa & Sa) ? IHF];
        constructor.
      * simpl in *. subst k'. inversion Hh; subst.
        rewrite (snapshot_extends _ _ _ _ _ (Sa fuel ltac:(assumption))).
        reflexivity.
      * apply IHF. inversion Hh; assumption.
    + exists (ODataMapping n ls).
      rewrite nth_error_app2, Nat.sub_diag by lia.
      split; [ reflexivity | ]. simpl.
      clear - F. induction F as [|? ? ? ? (L & _) ? IHF]; simpl; constructor; auto.
Qed.

(** ** The operations, one by one *)

(** A value read with some fuel is read the same with more. *)
Lemma snapshot_more_fuel fuel :
  forall fuel' h l t,
    (fuel <= fuel')%nat -> snapshot fuel h l = Some t -> snapshot fuel' h l = Some t.
Proof.
  induction fuel as [|fuel IH]; intros fuel' h l t Hle; simpl; [ discriminate | ].
  destruct fuel' as [|fuel']; [ lia | ]. simpl.
  destruct (nth_error h l) as [[da|n items|n items]|]; try discriminate; auto.
  - destruct (all_some (map (snapshot fuel h) items)) as [ts|] eqn:Es;
      [ | discriminate ].
    intros H.
    rewrite (all_some_map_weaken (snapshot fuel h) (snapshot fuel' h) items ts);
      [ exact H | | exact Es ].
    intros x y Hx. apply (IH fuel'); [ lia | exact Hx ].
  - destruct (all_some (map (fun kv => option_map (pair (fst kv))
                                         (snapshot fuel h (snd kv))) items))
      as [ts|] eqn:Es; [ | discriminate ].
    intros H.
    assert (W : forall (x : string * loc) (y : string * tree),
               option_map (pair (fst x)) (snapshot fuel h (snd x)) = Some y ->
               option_map (pair (fst x)) (snapshot fuel' h (snd x)) = Some y).
    { intros x y Hx.
      destruct (snapshot fuel h (snd x)) as [t0|] eqn:E0; [ | discriminate ].
      rewrite (IH fuel' _ _ _ ltac:(lia) E0). exact Hx. }
    rewrite (all_some_map_weaken _ _ _ _ W Es). exact H.
Qed.

Lemma var_Ok x s v s' :
  var x s = Ok (v, s') -> s' = s /\ dict_get (vars s) x = Some v.
Proof.
  unfold var. destruct (dict_get (vars s) x); [ | discriminate ].
  intros [= <- <-]. auto.
Qed.

Lemma var_intro x s v : dict_get (vars s) x = Some v -> var x s = Ok (v, s).
Proof. intros H. unfold var. rewrite H. reflexivity. Qed.

Lemma deref_Ok v s l o s' :
  deref v s = Ok ((l, o), s') ->
  s' = s /\ v = Ref l /\ nth_error (heap s) l = Some o.
Proof.
  destruct v as [l0| | | |]; simpl; try discriminate.
  unfold bind, get_heap. destruct (nth_error (heap s) l0) eqn:E; simpl;
    [ | discriminate ].
  intros [= <- <- <-]. auto.
Qed.

Lemma deref_intro s l o :
  nth_error (heap s) l = Some o -> deref (Ref l) s = Ok ((l, o), s).
Proof. intros H. simpl. unfold bind, get_heap. rewrite H. reflexivity. Qed.

Lemma the_ref_Ok v s l s' : the_ref v s = Ok (l, s') -> s' = s /\ v = Ref l.
Proof. destruct v; simpl; try discriminate. intros [= <- <-]. auto. Qed.

Lemma the_refs_intro ls s : the_refs (map Ref ls) s = Ok (ls, s).
Proof.
  induction ls as [|l ls IH]; simpl; [ reflexivity | ].
  unfold bind at 1. simpl. unfold bind at 1. rewrite IH. reflexivity.
Qed.

Lemma the_entries_intro (es : list (string * loc)) s :
  the_entries (map (fun kv => (fst kv, Ref (snd kv))) es) s = Ok (es, s).
Proof.
  induction es as [|[k l] es IH]; simpl; [ reflexivity | ].
  unfold bind at 1. simpl. unfold bind at 1. rewrite IH. reflexivity.
Qed.

Lemma the_entries_pure kvs : forall s es s', the_entries kvs s = Ok (es, s') -> s' = s.
Proof.
  induction kvs as [|[k v] kvs IH]; simpl; intros s es s'.
  - intros [= <- <-]. reflexivity.
  - intros H. apply bind_Ok in H. destruct H as (l & s1 & H1 & H).
    apply the_ref_Ok in H1. destruct H1 as [-> _].
    apply bind_Ok in H. destruct H as (ls & s2 & H2 & H).
    apply IH in H2. subst s2. injection H as _ <-. reflexivity.
Qed.

(** Reading an entry of a mapping. *)
Lemma getitem_Str_Ok obj k s r s' :
  getitem obj (Str k) s = Ok (r, s') ->
  s' = s /\ exists l n d c,
      obj = Ref l /\ nth_error (heap s) l = Some (ODataMapping n d)
      /\ dict_get d k = Some c /\ r = Ref c.
Proof.
  unfold getitem. intros H. apply bind_Ok in H.
  destruct H as ([l o] & s1 & H1 & H).
  apply deref_Ok in H1. destruct H1 as (-> & -> & Hl). simpl in H.
  destruct o as [da|n items|n d]; try discriminate.
  destruct (dict_get d k) as [c|] eqn:E; [ | discriminate ].
  injection H as <- <-. split; [ reflexivity | ].
  exists l, n, d, c. auto.
Qed.

Lemma getitem_Str_intro s l n d k c :
  nth_error (heap s) l = Some (ODataMapping n d) -> dict_get d k = Some c ->
  getitem (Ref l) (Str k) s = Ok (Ref c, s).
Proof.
  intros Hl Hk. unfold getitem. rewrite (bind_step _ _ _ _ _ (deref_intro _ _ _ Hl)).
  simpl. rewrite Hk. reflexivity.
Qed.

Lemma getitem_pure obj key s r s' : getitem obj key s = Ok (r, s') -> s' = s.
Proof.
  unfold getitem. intros H. apply bind_Ok in H.
  destruct H as ([l o] & s1 & H1 & H).
  apply deref_Ok in H1. destruct H1 as (-> & -> & Hl). simpl in H.
  destruct o as [da|n items|n d]; destruct key as [?|k|z| |?]; try discriminate.
  - destruct (position (length items) z); [ | discriminate ].
    destruct (nth_error items n0); [ | discriminate ].
    injection H as _ <-. reflexivity.
  - destruct (dict_get d k); [ | discriminate ].
    injection H as _ <-. reflexivity.
Qed.

Lemma subscripts_pure keys : forall obj s r s', subscripts obj keys s = Ok (r, s') -> s' = s.
Proof.
  induction keys as [|k keys IH]; simpl; intros obj s r s'.
  - intros [= _ <-]. reflexivity.
  - intros H. apply bind_Ok in H. destruct H as (v & s1 & H1 & H).
    apply getitem_pure in H1. subst s1. eapply IH; eassumption.
Qed.

Lemma subscript_pure root keys s r s' :
  subscript root keys s = Ok (r, s') -> s' = s.
Proof.
  unfold subscript. intros H. apply bind_Ok in H.
  destruct H as (v & s1 & H1 & H).
  apply var_Ok in H1. destruct H1 as [-> _].
  eapply subscripts_pure; eassumption.
Qed.

Lemma value_of_Ok v s t s' :
  value_of v s = Ok (t, s') ->
  s' = s /\ exists l, v = Ref l
                      /\ snapshot (S (length (heap s))) (heap s) l = Some t.
Proof.
  unfold value_of. intros H. apply bind_Ok in H.
  destruct H as (l & s1 & H1 & H).
  apply the_ref_Ok in H1. destruct H1 as [-> ->].
  unfold bind, get_heap in H.
  destruct (snapshot (S (length (heap s))) (heap s) l) as [t0|] eqn:E;
    [ | discriminate ].
  injection H as <- <-. eauto.
Qed.

Lemma value_of_intro s l t fuel :
  snapshot fuel (heap s) l = Some t ->
  (fuel <= S (length (heap s)))%nat ->
  value_of (Ref l) s = Ok (t, s).
Proof.
  intros H Hle. unfold value_of, bind, the_ref, ret, get_heap.
  rewrite (snapshot_more_fuel _ _ _ _ _ Hle H). reflexivity.
Qed.

Lemma display_pure obj s d s' : display obj s = Ok (d, s') -> s' = s.
Proof.
  unfold display. intros H. apply bind_Ok in H.
  destruct H as (t & s1 & H1 & H). apply value_of_Ok in H1.
  destruct H1 as [-> _]. injection H as _ <-. reflexivity.
Qed.

Lemma alloc_Ok o s v s' :
  alloc o s = Ok (v, s') ->
  v = Ref (length (heap s)) /\ heap s' = heap s ++ [o]
  /\ vars s' = vars s /\ files s' = files s.
Proof. unfold alloc. intros [= <- <-]. auto. Qed.

Lemma allocate_Ok t s v s' :
  allocate t s = Ok (v, s') ->
  exists l, v = Ref l /\ built t (heap s) l (heap s')
            /\ vars s' = vars s /\ files s' = files s.
Proof.
  unfold allocate, bind, get_heap, set_heap, ret.
  destruct (build t (heap s)) as [l h'] eqn:E. simpl.
  intros [= <- <-]. exists l. simpl.
  split; [ reflexivity | ]. split; [ apply build_built; exact E | auto ].
Qed.

(** A copy is a new object; nothing that was there changes. *)
Lemma copy_Ok w obj deep s v s' :
  copy w obj deep s = Ok (v, s') ->
  exists l, v = Ref l /\ extends (heap s) (heap s')
            /\ (length (heap s) <= l < length (heap s'))%nat
            /\ vars s' = vars s /\ files s' = files s.
Proof.
  unfold copy.
  destruct (match deep with Some b => b | None => copy_deep_default w end).
  - intros H. apply bind_Ok in H. destruct H as (t & s1 & H1 & H).
    apply value_of_Ok in H1. destruct H1 as [-> _].
    apply allocate_Ok in H. destruct H as (l & -> & (X & L & _) & V & F).
    exists l. auto.
  - intros H. apply bind_Ok in H. destruct H as ([l0 o] & s1 & H1 & H).
    apply deref_Ok in H1. destruct H1 as (-> & _ & _). simpl in H.
    apply alloc_Ok in H. destruct H as (-> & Hh & V & F).
    exists (length (heap s)). rewrite Hh, length_app. simpl.
    split; [ reflexivity | ]. split; [ eexists; reflexivity | ].
    split; [ lia | auto ].
Qed.

(** A deep copy stands for the same value as its original, and consists of
    new objects only. *)
Lemma deep_copy_Ok w obj s v s' :
  copy w obj (Some true) s = Ok (v, s') ->
  exists l t, v = Ref l /\ value_of obj s = Ok (t, s)
              /\ built t (heap s) l (heap s')
              /\ vars s' = vars s /\ files s' = files s.
Proof.
  unfold copy. intros H. apply bind_Ok in H. destruct H as (t & s1 & H1 & H).
  pose proof (value_of_Ok _ _ _ _ H1) as [-> _].
  apply allocate_Ok in H. destruct H as (l & -> & Hb & V & F).
  exists l, t. auto.
Qed.

Lemma write_Ok l o s u s' :
  write l o s = Ok (u, s') ->
  heap s' = put l o (heap s) /\ vars s' = vars s /\ files s' = files s.
Proof. unfold write, bind, get_heap, set_heap. intros [= <- <-]. auto. Qed.

Lemma setitem_Str_Ok obj k x s u s' :
  setitem obj (Str k) x s = Ok (u, s') ->
  exists l n d lx,
    obj = Ref l /\ x = Ref lx
    /\ nth_error (heap s) l = Some (ODataMapping n d)
    /\ heap s' = put l (ODataMapping n (dict_set d k lx)) (heap s)
    /\ vars s' = vars s /\ files s' = files s.
Proof.
  unfold setitem. intros H. apply bind_Ok in H.
  destruct H as ([l o] & s1 & H1 & H).
  apply deref_Ok in H1. destruct H1 as (-> & -> & Hl).
  apply bind_Ok in H. destruct H as (lx & s1 & H1 & H).
  apply the_ref_Ok in H1. destruct H1 as [-> ->]. simpl in H.
  destruct o as [da|n items|n d]; try discriminate.
  apply write_Ok in H. destruct H as (Hh & V & F).
  exists l, n, d, lx. repeat split; auto.
Qed.

Lemma append_Ok obj x s u s' :
  append obj x s = Ok (u, s') ->
  exists l n items lx,
    obj = Ref l /\ x = Ref lx
    /\ nth_error (heap s) l = Some (ODataSequence n items)
    /\ heap s' = put l (ODataSequence n (items ++ [lx])) (heap s)
    /\ vars s' = vars s /\ files s' = files s.
Proof.
  unfold append. intros H. apply bind_Ok in H.
  destruct H as ([l o] & s1 & H1 & H).
  apply deref_Ok in H1. destruct H1 as (-> & -> & Hl).
  apply bind_Ok in H. destruct H as (lx & s1 & H1 & H).
  apply the_ref_Ok in H1. destruct H1 as [-> ->]. simpl in H.
  destruct o as [da|n items|n d]; try discriminate.
  apply write_Ok in H. destruct H as (Hh & V & F).
  exists l, n, items, lx. repeat split; auto.
Qed.

Lemma update_Ok obj other s u s' :
  update obj other s = Ok (u, s') ->
  exists l n d es,
    obj = Ref l
    /\ nth_error (heap s) l = Some (ODataMapping n d)
    /\ heap s' = put l (ODataMapping n (dict_update d (dict_of es))) (heap s)
    /\ vars s' = vars s /\ files s' = files s.
Proof.
  unfold update. intros H. apply bind_Ok in H.
  destruct H as ([l o] & s1 & H1 & H).
  apply deref_Ok in H1. destruct H1 as (-> & -> & Hl).
  apply bind_Ok in H. destruct H as (es & s1 & H1 & H).
  apply the_entries_pure in H1. subst s1. simpl in H.
  destruct o as [da|n items|n d]; try discriminate.
  apply write_Ok in H. destruct H as (Hh & V & F).
  exists l, n, d, es. repeat split; auto.
Qed.

Lemma assign_Ok x v s u s' :
  assign x v s = Ok (u, s') ->
  heap s' = heap s /\ vars s' = dict_set (vars s) x v /\ files s' = files s.
Proof. unfold assign. intros [= <- <-]. auto. Qed.

(** Looking up a method or a function of the library reads only. *)
Lemma method_Ok obj name s u s' : method obj name s = Ok (u, s') -> s' = s.
Proof.
  unfold method. destruct obj as [l| | | |]; [ | simpl; discriminate .. ].
  intros H. apply bind_Ok in H. destruct H as ([l0 o] & s1 & H1 & H).
  apply deref_Ok in H1. destruct H1 as (-> & _ & _).
  destruct (has_method (snd (l0, o)) name); [ | discriminate ].
  injection H as _ <-. reflexivity.
Qed.

Lemma method_intro s l o name :
  nth_error (heap s) l = Some o -> has_method o name = true ->
  method (Ref l) name s = Ok (tt, s).
Proof.
  intros Hl Hm. unfold method.
  rewrite (bind_step _ _ _ _ _ (deref_intro _ _ _ Hl)). simpl.
  rewrite Hm. reflexivity.
Qed.

Lemma xdas_function_intro alias f s :
  dict_get (vars s) alias = Some (PyModule "xdas") ->
  xdas_function alias f s = Ok (tt, s).
Proof.
  intros H. unfold xdas_function.
  rewrite (bind_step _ _ _ _ _ (var_intro _ _ _ H)). reflexivity.
Qed.

(** In a run that succeeded, step over the lookup of a method. *)
Ltac method_step H :=
  let u := fresh "u" in
  let s := fresh "s" in
  let Hm := fresh "Hm" in
  apply bind_Ok in H; destruct H as (u & s & Hm & H);
  apply method_Ok in Hm; subst s; clear u.

(** ** Cell 4 leaves the original collection alone *)

(** Every object that exists before cell 4 runs is the same object after
    it: the cell writes to the deep copy and to objects it creates, and the
    variable [dc] still names the collection it named. *)
Lemma exec_4_frame w s d s' l :
  dict_get (vars s) "dc" = Some (Ref l) ->
  exec_4 w s = Ok (d, s') ->
  extends (heap s) (heap s') /\ dict_get (vars s') "dc" = Some (Ref l).
Proof.
  intros Hdc H. unfold exec_4 in H.
  (* dc_set = dc.copy(deep=True) *)
  apply bind_Ok in H. destruct H as (v & s0 & H0 & H).
  apply var_Ok in H0. destruct H0 as [-> Hv].
  method_step H.
  apply bind_Ok in H. destruct H as (c1 & s1 & H1 & H).
  apply deep_copy_Ok in H1.
  destruct H1 as (l1 & t & -> & _ & (X1 & L1 & _ & _ & o1 & Ho1 & Hc1) & V1 & _).
  apply bind_Ok in H. destruct H as (u & s2 & H2 & H).
  apply assign_Ok in H2. destruct H2 as (Hh2 & V2 & _).
  assert (Hset2 : dict_get (vars s2) "dc_set" = Some (Ref l1))
    by (rewrite V2; apply dict_get_set_eq).
  assert (Hdc2 : dict_get (vars s2) "dc" = Some (Ref l)).
  { rewrite V2, dict_get_set_ne by discriminate. rewrite V1. exact Hdc. }
  rewrite <- Hh2 in X1, L1, Ho1. clear u Hh2 V2 V1 Hv v.
  (* dc_set["CCN"]["S"] = dc["CCN"]["N"].copy() *)
  apply bind_Ok in H. destruct H as (v & s2' & H3 & H).
  apply subscript_pure in H3. subst s2'.
  method_step H.
  apply bind_Ok in H. destruct H as (c2 & s3 & H3 & H).
  apply copy_Ok in H3. destruct H3 as (lc & -> & X3 & L3 & V3 & _).
  apply bind_Ok in H. destruct H as (t1 & s3' & H4 & H).
  pose proof (subscript_pure _ _ _ _ _ H4). subst s3'.
  unfold subscript in H4.
  rewrite (bind_step _ _ _ _ _ (var_intro "dc_set" s3 (Ref l1)
             ltac:(rewrite V3; exact Hset2))) in H4.
  simpl in H4. apply bind_Ok in H4. destruct H4 as (t1' & s3' & H4 & H4').
  injection H4' as -> ->.
  pose proof (getitem_Str_Ok _ _ _ _ _ H4) as (_ & l1' & n1 & d1 & x & E1 & Hl1 & Hx & ->).
  injection E1 as <-.
  pose proof (extends_nth_error _ _ _ _ X3 Ho1) as Ho1'.
  rewrite Hl1 in Ho1'. injection Ho1' as <-.
  assert (Lx : (length (heap s) <= x < l1)%nat).
  { rewrite Forall_forall in Hc1. apply Hc1. simpl.
    eapply dict_get_In. exact Hx. }
  apply bind_Ok in H. destruct H as (u & s4 & H5 & H).
  apply setitem_Str_Ok in H5.
  destruct H5 as (x' & nx & dx & lc' & E1 & E2 & Hox & Hh4 & V4 & _).
  injection E1 as <-. injection E2 as <-.
  assert (X4 : extends (heap s) (heap s4)).
  { rewrite Hh4. apply extends_put; [ | lia ].
    eapply extends_trans; eassumption. }
  assert (Hl1' : nth_error (heap s4) l1 = Some (ODataMapping n1 d1)).
  { rewrite Hh4, nth_error_put_ne by lia. exact Hl1. }
  assert (Hx4 : nth_error (heap s4) x
                = Some (ODataMapping nx (dict_set dx "S" lc))).
  { rewrite Hh4. apply nth_error_put_eq.
    apply nth_error_Some. congruence. }
  assert (Hset4 : dict_get (vars s4) "dc_set" = Some (Ref l1))
    by (rewrite V4, V3; exact Hset2).
  assert (Hdc4 : dict_get (vars s4) "dc" = Some (Ref l))
    by (rewrite V4, V3; exact Hdc2).
  assert (Llc : (length (heap s) <= lc)%nat).
  { pose proof (extends_length _ _ X1). lia. }
  assert (Ll1 : (length (heap s) <= l1)%nat) by lia.
  clear u Hh4 V4 V3 X3 L3 Hox Hl1 H4 Hset2 Hdc2 v L1 X1 Ho1 Lx.
  (* dc_set["CCN"]["S"].append(dc["CCN"]["N"][0].copy()) *)
  apply bind_Ok in H. destruct H as (t2 & s4' & H6 & H).
  pose proof (subscript_pure _ _ _ _ _ H6). subst s4'.
  unfold subscript in H6.
  rewrite (bind_step _ _ _ _ _ (var_intro "dc_set" s4 (Ref l1) Hset4)) in H6.
  simpl in H6.
  rewrite (bind_step _ _ _ _ _ (getitem_Str_intro s4 l1 n1 d1 "CCN" x Hl1' Hx))
    in H6.
  rewrite (bind_step _ _ _ _ _
             (getitem_Str_intro s4 x nx _ "S" lc Hx4 (dict_get_set_eq _ _ _)))
    in H6.
  injection H6 as <-.
  method_step H.
  apply bind_Ok in H. destruct H as (v & s4' & H7 & H).
  apply subscript_pure in H7. subst s4'.
  method_step H.
  apply bind_Ok in H. destruct H as (c3 & s5 & H7 & H).
  apply copy_Ok in H7. destruct H7 as (lc3 & -> & X5 & _ & V5 & _).
  apply bind_Ok in H. destruct H as (u & s6 & H8 & H).
  apply append_Ok in H8.
  destruct H8 as (lc' & nq & q & lx & E1 & _ & _ & Hh6 & V6 & _).
  injection E1 as <-.
  assert (X6 : extends (heap s) (heap s6)).
  { rewrite Hh6. apply extends_put; [ | exact Llc ].
    eapply extends_trans; eassumption. }
  assert (Hset6 : dict_get (vars s6) "dc_set" = Some (Ref l1))
    by (rewrite V6, V5; exact Hset4).
  assert (Hdc6 : dict_get (vars s6) "dc" = Some (Ref l))
    by (rewrite V6, V5; exact Hdc4).
  clear u Hh6 V6 V5 X5 X4 Hl1' Hx4 Hset4 Hdc4 v Hx.
  (* dc_set.update({"CAL": dc["CCN"].copy()}) *)
  apply bind_Ok in H. destruct H as (t3 & s6' & H9 & H).
  apply var_Ok in H9. destruct H9 as [-> Ht3].
  rewrite Hset6 in Ht3. injection Ht3 as <-.
  method_step H.
  apply bind_Ok in H. destruct H as (v & s6' & H9 & H).
  apply subscript_pure in H9. subst s6'.
  method_step H.
  apply bind_Ok in H. destruct H as (c4 & s7 & H9 & H).
  apply copy_Ok in H9. destruct H9 as (lc4 & -> & X7 & _ & V7 & _).
  apply bind_Ok in H. destruct H as (u & s8 & H10 & H).
  apply update_Ok in H10.
  destruct H10 as (l1' & nu & du & es & E1 & _ & Hh8 & V8 & _).
  injection E1 as <-.
  (* dc_set *)
  apply bind_Ok in H. destruct H as (v' & s8' & H11 & H).
  apply var_Ok in H11. destruct H11 as [-> _].
  apply display_pure in H. subst s'.
  split.
  - rewrite Hh8. apply extends_put; [ | exact Ll1 ].
    eapply extends_trans; eassumption.
  - rewrite V8, V7. exact Hdc6.
Qed.

(** ** Selection *)

Lemma slice_size_le c lo hi : (size (slice c lo hi) <= size c)%N.
Proof.
  unfold slice.
  destruct ((0 <? span c)%Z && (0 <? steps c)%Z); simpl.
  - generalize (- (- ((lo - tie_first c) * steps c) / span c))%Z.
    generalize ((hi - tie_first c) * steps c / span c)%Z.
    intros a b. lia.
  - destruct ((lo <=? tie_first c)%Z && (tie_first c <=? hi)%Z); simpl; lia.
Qed.

Lemma slice_dim_only_shrinks name lo hi cs :
  only_shrinks name
    (map (fun d => (fst d, size (snd d))) cs)
    (map (fun d => (fst d, size (snd d))) (slice_dim name lo hi cs)).
Proof.
  unfold only_shrinks.
  induction cs as [|[n c] cs IH]; simpl; [ constructor | ].
  destruct (String.eqb n name) eqn:E; simpl.
  - constructor.
    + simpl. rewrite E. split; [ reflexivity | apply slice_size_le ].
    + clear. induction cs as [|[n' c'] cs IH]; simpl; constructor; auto.
      simpl. split; [ reflexivity | ].
      destruct (String.eqb n' name); [ lia | reflexivity ].
  - constructor; [ | exact IH ].
    simpl. rewrite E. split; reflexivity.
Qed.

Lemma sel_array_only_shrinks name lo hi da da' :
  sel_array name lo hi da = Ok da' -> only_shrinks name (dims da) (dims da').
Proof.
  unfold sel_array. destruct (has_dim name da); [ | discriminate ].
  intros [= <-]. apply slice_dim_only_shrinks.
Qed.

(** *** What a slice keeps *)

Lemma ceil_div_le a b j : (0 < b -> - (- a / b) <= j <-> a <= j * b)%Z.
Proof.
  intros Hb. split; intros H.
  - assert (- j <= - a / b)%Z by lia.
    assert (- a / b * b <= - a)%Z by (rewrite Z.mul_comm; apply Z.mul_div_le; lia).
    nia.
  - assert (- j * b <= - a)%Z by lia.
    assert (- j <= - a / b)%Z by (apply Z.div_le_lower_bound; lia).
    lia.
Qed.

Lemma floor_div_ge a b j : (0 < b -> j <= a / b <-> j * b <= a)%Z.
Proof.
  intros Hb. split; intros H.
  - assert (a / b * b <= a)%Z by (rewrite Z.mul_comm; apply Z.mul_div_le; lia).
    nia.
  - apply Z.div_le_lower_bound; lia.
Qed.

(** Along an axis with increasing labels, the window of a slice holds the
    samples of the window it is taken from that are labelled within the
    bounds. *)
Lemma in_window_slice c lo hi j :
  (0 < span c)%Z -> (0 < steps c)%Z ->
  in_window (slice c lo hi) j <-> in_window c j /\ labelled_between c lo hi j.
Proof.
  intros Hspan Hsteps. unfold slice, in_window, labelled_between.
  destruct (Z.ltb_spec 0 (span c)); [ | lia ].
  destruct (Z.ltb_spec 0 (steps c)); [ | lia ].
  cbn [andb offset size].
  pose proof (ceil_div_le ((lo - tie_first c) * steps c) (span c) j Hspan) as Hlo.
  pose proof (floor_div_ge ((hi - tie_first c) * steps c) (span c) j Hspan) as Hhi.
  set (first_in := (- (- ((lo - tie_first c) * steps c) / span c))%Z) in *.
  set (last_in := ((hi - tie_first c) * steps c / span c)%Z) in *.
  lia.
Qed.

Lemma slice_ties c lo hi :
  tie_first (slice c lo hi) = tie_first c
  /\ tie_last (slice c lo hi) = tie_last c
  /\ tie_count (slice c lo hi) = tie_count c.
Proof.
  unfold slice. destruct ((0 <? span c)%Z && (0 <? steps c)%Z); [ simpl; auto | ].
  destruct ((lo <=? tie_first c)%Z && (tie_first c <=? hi)%Z); simpl; auto.
Qed.

(** *** The coordinates of a selected array *)

Lemma slice_dim_names name lo hi cs :
  map fst (slice_dim name lo hi cs) = map fst cs.
Proof.
  induction cs as [|[n c] cs IH]; simpl; [ reflexivity | ].
  destruct (String.eqb n name); simpl; congruence.
Qed.

Lemma slice_dim_get name lo hi cs c :
  dict_get cs name = Some c ->
  dict_get (slice_dim name lo hi cs) name = Some (slice c lo hi).
Proof.
  induction cs as [|[n c0] cs IH]; simpl; [ discriminate | ].
  destruct (String.eqb n name) eqn:E; simpl; rewrite E.
  - intros [= ->]. reflexivity.
  - exact IH.
Qed.

Lemma slice_dim_get_ne name lo hi cs d :
  d <> name -> dict_get (slice_dim name lo hi cs) d = dict_get cs d.
Proof.
  intros Hd. induction cs as [|[n c0] cs IH]; simpl; [ reflexivity | ].
  destruct (String.eqb n name) eqn:E; simpl.
  - apply String.eqb_eq in E. subst n.
    destruct (String.eqb_spec name d); [ congruence | reflexivity ].
  - destruct (String.eqb n d); [ reflexivity | exact IH ].
Qed.

Lemma slice_dim_not_empty name lo hi cs c :
  dict_get cs name = Some c ->
  size (slice c lo hi) <> 0%N ->
  existsb (fun d => N.eqb (size (snd d)) 0) cs = false ->
  existsb (fun d => N.eqb (size (snd d)) 0) (slice_dim name lo hi cs) = false.
Proof.
  intros Hc Hsize.
  induction cs as [|[n c0] cs IH]; simpl; [ reflexivity | ].
  simpl in Hc. destruct (String.eqb n name) eqn:E; simpl.
  - injection Hc as ->. intros H. apply orb_false_iff in H. destruct H as [_ H].
    rewrite H. apply N.eqb_neq in Hsize. rewrite Hsize. reflexivity.
  - intros H. apply orb_false_iff in H. destruct H as [H0 H].
    rewrite H0. apply IH; assumption.
Qed.

Lemma has_dim_get name da c :
  dict_get (coords da) name = Some c -> has_dim name da = true.
Proof.
  unfold has_dim. induction (coords da) as [|[n c0] cs IH]; simpl; [ discriminate | ].
  destruct (String.eqb n name); [ reflexivity | exact IH ].
Qed.

(** An array that has a sample between the bounds is selected to an
    array that has samples. *)
Lemma sel_array_selected name lo hi da :
  sample_between name lo hi da ->
  exists da', sel_array name lo hi da = Ok da'
              /\ selected name lo hi da da'
              /\ empty da' = false.
Proof.
  intros (Hne & c & Hc & Hspan & Hsteps & j & Hj & Hl).
  unfold sel_array. rewrite (has_dim_get _ _ _ Hc).
  eexists. split; [ reflexivity | ].
  assert (Hin : in_window (slice c lo hi) j)
    by (apply in_window_slice; auto).
  destruct (slice_ties c lo hi) as (T1 & T2 & T3).
  split.
  - unfold selected. simpl.
    split; [ apply slice_dim_names | ].
    split; [ reflexivity | ].
    split; [ intros d Hd; apply slice_dim_get_ne; exact Hd | ].
    exists c, (slice c lo hi).
    split; [ exact Hc | ].
    split; [ apply slice_dim_get; exact Hc | ].
    split; [ exact T1 | ]. split; [ exact T2 | ]. split; [ exact T3 | ].
    split; [ apply slice_size_le | ].
    intros i. apply in_window_slice; assumption.
  - unfold empty. simpl. apply slice_dim_not_empty with (c := c); auto.
    unfold in_window in Hin. lia.
Qed.

(** *** Collections *)

Lemma traverse_each {X Y} (f : X -> result Y) (Q : X -> Y -> Prop) xs :
  Forall (fun x => exists y, f x = Ok y /\ Q x y) xs ->
  exists ys, traverse f xs = Ok ys
             /\ Forall2 (fun x y => f x = Ok y /\ Q x y) xs ys.
Proof.
  induction 1 as [|x xs (y & Hy & Hq) _ (ys & Hys & F)]; simpl.
  - exists []. split; [ reflexivity | constructor ].
  - rewrite Hy, Hys. exists (y :: ys). split; [ reflexivity | ].
    constructor; auto.
Qed.

Lemma filter_all {X} (p : X -> bool) xs :
  Forall (fun x => p x = true) xs -> filter p xs = xs.
Proof.
  induction 1 as [|x xs Hx _ IH]; simpl; [ reflexivity | ].
  rewrite Hx, IH. reflexivity.
Qed.

Lemma every_array_sequence P n items :
  every_array P (TSequence n items) <-> Forall (every_array P) items.
Proof.
  simpl. induction items as [|t items IH]; split; intros H.
  - constructor.
  - exact I.
  - destruct H as [H1 H2]. constructor; [ exact H1 | apply IH; exact H2 ].
  - inversion H; subst. split; [ assumption | apply IH; assumption ].
Qed.

Lemma every_array_mapping P n items :
  every_array P (TMapping n items)
  <-> Forall (fun kv => every_array P (snd kv)) items.
Proof.
  simpl. induction items as [|t items IH]; split; intros H.
  - constructor.
  - exact I.
  - destruct H as [H1 H2]. constructor; [ exact H1 | apply IH; exact H2 ].
  - inversion H; subst. split; [ assumption | apply IH; assumption ].
Qed.

(** A selection that leaves samples in every array keeps every element:
    the result has the names, keys and nesting of the collection, and each
    of its arrays is the selection of the array in its place. *)
Lemma sel_tree_keeps name lo hi :
  forall t, keeps_samples name lo hi t ->
            exists t', sel_tree name lo hi t = Ok t'
                       /\ kept t' = true
                       /\ alike (selected name lo hi) t t'
                       /\ shrinks name (shape_of t) (shape_of t').
Proof.
  unfold keeps_samples.
  induction t as [da|n items IH|n items IH] using tree_ind_nested; intros Hk.
  - destruct (sel_array_selected name lo hi da Hk) as (da' & Hs & Hsel & He).
    exists (TArray da'). simpl. rewrite Hs, He.
    split; [ reflexivity | ]. split; [ reflexivity | ].
    split; [ constructor; exact Hsel | ].
    constructor. eapply sel_array_only_shrinks; exact Hs.
  - apply every_array_sequence in Hk.
    set (Q := fun x y : tree =>
                kept y = true /\ alike (selected name lo hi) x y
                /\ shrinks name (shape_of x) (shape_of y)).
    assert (Hall : Forall (fun x => exists y, sel_tree name lo hi x = Ok y /\ Q x y)
                          items).
    { rewrite Forall_forall in *. intros x Hx. apply IH; auto. }
    destruct (traverse_each _ Q items Hall) as (ys & Hys & F).
    assert (Hkept : filter kept ys = ys).
    { apply filter_all. clear - F.
      induction F as [|x y xs ys (_ & Hy & _) _ IHF]; constructor; auto. }
    exists (TSequence n ys). simpl. rewrite Hys, Hkept.
    split; [ reflexivity | ]. split; [ reflexivity | ].
    split.
    + constructor. eapply Forall2_impl; [ | exact F ].
      intros x y (_ & _ & Ha & _). exact Ha.
    + constructor. rewrite <- (Forall2_length F).
      generalize (index_keys (length items)). clear - F.
      induction F as [|x y xs ys (_ & _ & _ & Hxy) _ IHF]; intros ks; simpl.
      * destruct ks; constructor.
      * destruct ks as [|k ks]; constructor; [ | apply IHF ].
        simpl. split; [ reflexivity | exact Hxy ].
  - apply every_array_mapping in Hk.
    set (f := fun kv : string * tree =>
                match sel_tree name lo hi (snd kv) with
                | Ok t' => Ok (fst kv, t')
                | Raise e => Raise e
                end).
    set (Q := fun x y : string * tree =>
                fst x = fst y /\ kept (snd y) = true
                /\ alike (selected name lo hi) (snd x) (snd y)
                /\ shrinks name (shape_of (snd x)) (shape_of (snd y))).
    assert (Hall : Forall (fun x => exists y, f x = Ok y /\ Q x y) items).
    { rewrite Forall_forall in *. intros [k x] Hx.
      destruct (IH _ Hx (Hk _ Hx)) as (y & Hy & Hq). simpl in Hy.
      exists (k, y). unfold f. simpl. rewrite Hy.
      split; [ reflexivity | ]. split; [ reflexivity | exact Hq ]. }
    destruct (traverse_each f Q items Hall) as (ys & Hys & F).
    assert (Hkept : filter (fun kv => kept (snd kv)) ys = ys).
    { apply filter_all. clear - F.
      induction F as [|x y xs ys (_ & _ & Hy & _) _ IHF]; constructor; auto. }
    exists (TMapping n ys). simpl. fold f. rewrite Hys, Hkept.
    split; [ reflexivity | ]. split; [ reflexivity | ].
    split.
    + constructor. eapply Forall2_impl; [ | exact F ].
      intros x y (_ & Hf & _ & Ha & _). auto.
    + constructor. clear - F.
      induction F as [|x y xs ys (_ & Hf & _ & _ & Hxy) _ IHF]; simpl;
        constructor; auto.
Qed.

(** The elements of such a selection are the selections of the
    elements. *)
Lemma sel_tree_sequence name lo hi n items :
  keeps_samples name lo hi (TSequence n items) ->
  exists items',
    sel_tree name lo hi (TSequence n items) = Ok (TSequence n items')
    /\ Forall2 (fun x y => sel_tree name lo hi x = Ok y) items items'.
Proof.
  intros Hk. unfold keeps_samples in Hk. apply every_array_sequence in Hk.
  assert (Hall : Forall (fun x => exists y, sel_tree name lo hi x = Ok y
                                            /\ kept y = true) items).
  { eapply Forall_impl; [ | exact Hk ]. intros x Hx.
    destruct (sel_tree_keeps name lo hi x Hx) as (y & Hy & Hkept & _). eauto. }
  destruct (traverse_each _ (fun _ y => kept y = true) items Hall)
    as (ys & Hys & F).
  assert (Hkept : filter kept ys = ys).
  { apply filter_all. clear - F.
    induction F as [|x y xs ys (_ & Hy) _ IHF]; constructor; auto. }
  exists ys. simpl. rewrite Hys, Hkept.
  split; [ reflexivity | ].
  eapply Forall2_impl; [ | exact F ]. intros x y [H _]. exact H.
Qed.

Lemma sel_tree_mapping name lo hi n items :
  keeps_samples name lo hi (TMapping n items) ->
  exists items',
    sel_tree name lo hi (TMapping n items) = Ok (TMapping n items')
    /\ Forall2 (fun (x y : string * tree) =>
                  fst x = fst y /\ sel_tree name lo hi (snd x) = Ok (snd y))
               items items'.
Proof.
  intros Hk. unfold keeps_samples in Hk. apply every_array_mapping in Hk.
  set (f := fun kv : string * tree =>
              match sel_tree name lo hi (snd kv) with
              | Ok t' => Ok (fst kv, t')
              | Raise e => Raise e
              end).
  assert (Hall : Forall (fun x => exists y,
                             f x = Ok y
                             /\ (fst x = fst y
                                 /\ sel_tree name lo hi (snd x) = Ok (snd y)
                                 /\ kept (snd y) = true)) items).
  { eapply Forall_impl; [ | exact Hk ]. intros [k x] Hx.
    destruct (sel_tree_keeps name lo hi x Hx) as (y & Hy & Hkept & _).
    simpl in Hy. exists (k, y). unfold f. simpl. rewrite Hy. auto. }
  destruct (traverse_each f _ items Hall) as (ys & Hys & F).
  assert (Hkept : filter (fun kv => kept (snd kv)) ys = ys).
  { apply filter_all. clear - F.
    induction F as [|x y xs ys (_ & _ & _ & Hy) _ IHF]; constructor; auto. }
  exists ys. simpl. fold f. rewrite Hys, Hkept.
  split; [ reflexivity | ].
  eapply Forall2_impl; [ | exact F ]. intros x y (_ & H1 & H2 & _). auto.
Qed.

(** ** The sample data and the windows of the notebook *)

(** Both windows of the notebook hold a sample of every array of the sample
    data: the samples numbered 13063 and 24625. *)
Ltac sample_numbered j :=
  unfold keeps_samples; simpl;
  repeat split;
  try (eexists; split; [ reflexivity | ];
       split; [ vm_compute; reflexivity | ];
       split; [ vm_compute; reflexivity | ];
       exists j; vm_compute; repeat split; discriminate).

Lemma event_0_keeps_samples :
  keeps_samples "time" 1699014215000 1699014240000 gps_multicable.
Proof. sample_numbered 13063%Z. Qed.

Lemma event_1_keeps_samples :
  keeps_samples "time" 1699014400000 1699014470000 gps_multicable.
Proof. sample_numbered 24625%Z. Qed.

Lemma sample_events_keep_samples : events_keep_samples gps_multicable.
Proof.
  split; unfold within.
  - change (parse_datetime "2023-11-03T12:23:35") with (Some 1699014215000%Z).
    change (parse_datetime "2023-11-03T12:24:00") with (Some 1699014240000%Z).
    exact event_0_keeps_samples.
  - change (parse_datetime "2023-11-03T12:26:40") with (Some 1699014400000%Z).
    change (parse_datetime "2023-11-03T12:27:50") with (Some 1699014470000%Z).
    exact event_1_keeps_samples.
Qed.

(** * The claims *)

(** ** C1: what the cells call *)

(** C1, counterexample: cell 12 is the shell command [!ls data/gps_multiacq],
    and cell 14 calls [print] and [enumerate], which are not functions of
    the library; so not every operation of every code cell is a call into
    the library. *)
Lemma shell_command_in_cell_12 :
  In In_12 (code_cells notebook)
  /\ shell_lines (source In_12) = ["!ls data/gps_multiacq"]
  /\ map (kind_of (imported notebook)) (calls (source In_14))
     = [Builtin; Builtin; Builtin; LibraryFunction; LibraryFunction; Builtin]
  /\ ~ only_library_calls notebook.
Proof.
  split; [ rewrite code_cells_notebook; simpl; tauto | ].
  split; [ reflexivity | ].
  split; [ vm_compute; reflexivity | ].
  unfold only_library_calls. rewrite code_cells_notebook. intros H.
  repeat match goal with
         | H : Forall _ (_ :: _) |- _ =>
             let H1 := fresh in let H2 := fresh in
             apply Forall_cons_iff in H; destruct H as [H1 H2]
         end.
  match goal with
  | H : _ /\ shell_lines (source In_12) = [] /\ _ |- _ =>
      destruct H as (_ & H & _); vm_compute in H; discriminate
  end.
Qed.

(** C1, amended: no code cell defines a function or a class; the only shell
    command is the one of cell 12; and every call of every code cell is a
    function of an imported xdas module ([open_mfdatatree],
    [open_mfdataarray], [DataCollection], [get_sampling_interval]), one of
    the methods [copy], [append], [update], [sel], [to_netcdf] of an array
    or a collection, or one of the Python built-ins [slice], [print],
    [enumerate]. *)
Theorem cells_call_library_and_builtins :
  Forall (fun c =>
            defines_nothing (source c)
            /\ (shell_lines (source c) = []
                \/ (execution_count c = Some 12%Z
                    /\ source c = ["!ls data/gps_multiacq"]))
            /\ Forall (fun k =>
                         into_library (imported notebook) k
                         \/ In k [Global "slice"; Global "print";
                                  Global "enumerate"])
                      (calls (source c)))
         (code_cells notebook).
Proof.
  each_code_cell;
    (split; [ vm_compute; reflexivity | ]);
    (split; [ first [ left; vm_compute; reflexivity
                    | right; split; vm_compute; reflexivity ] | ]);
    each_element;
    first [ left; left; vm_compute; reflexivity
          | left; right; vm_compute; reflexivity
          | right; simpl; tauto ].
Qed.

(** ** C2: control flow *)

(** C2, counterexample: cell 5 is three nested [for] loops and cell 14
    holds a [for] loop; the cells are not all straight-line code. *)
Lemma loops_in_cells_5_and_14 :
  used control_keywords (source In_5) = ["for"; "for"; "for"]
  /\ used control_keywords (source In_14) = ["for"]
  /\ In In_5 (code_cells notebook)
  /\ ~ straight_line notebook.
Proof.
  split; [ vm_compute; reflexivity | ].
  split; [ vm_compute; reflexivity | ].
  split; [ rewrite code_cells_notebook; simpl; tauto | ].
  unfold straight_line. rewrite code_cells_notebook. intros H.
  repeat match goal with
         | H : Forall _ (_ :: _) |- _ =>
             let H1 := fresh in let H2 := fresh in
             apply Forall_cons_iff in H; destruct H as [H1 H2]
         end.
  match goal with
  | H : used control_keywords (source In_5) = [] |- _ =>
      vm_compute in H; discriminate
  end.
Qed.

(** C2, amended: the code cells run in the order of the document, numbered
    1 to 14; the only control construct they hold is the [for] loop, in
    cells 5 and 14; every other cell is straight-line code, with no branch,
    [while] loop, [try], [with] or other control construct; and a cell
    records nothing, the value of its last expression, or what it printed. *)
Theorem cells_are_sequential_with_two_loops :
  map execution_count (code_cells notebook)
  = map (fun n => Some (Z.of_nat n)) (seq 1 14)
  /\ Forall (fun c =>
               (used control_keywords (source c) = []
                \/ ((execution_count c = Some 5%Z \/ execution_count c = Some 14%Z)
                    /\ Forall (eq "for") (used control_keywords (source c))))
               /\ (outputs c = []
                   \/ (exists n t, outputs c = [execute_result n t]
                                   /\ execution_count c = Some n)
                   \/ (exists t, outputs c = [stream "stdout" t])))
            (code_cells notebook).
Proof.
  split; [ vm_compute; reflexivity | ].
  each_code_cell;
    (split;
     [ first [ left; vm_compute; reflexivity
             | right; split;
               [ first [ left; reflexivity | right; reflexivity ]
               | vm_compute; repeat constructor ] ]
     | first [ left; reflexivity
             | right; left; do 2 eexists; split; reflexivity
             | right; right; eexists; reflexivity ] ]).
Qed.

(** ** C3: failures *)


(** An exception raised by an operation ends the computation it is part
    of: the monad of the cells has no handler. *)
Lemma exceptions_propagate {A B} (m : M A) (f : A -> M B) s e :
  m s = Raise e -> bind m f s = Raise e.
Proof. intros H. unfold bind. rewrite H. reflexivity. Qed.




(** ** C4: nothing is defined *)

(** C4: no file of the repository defines a function or a class: no code
    cell of either revision of the notebook, and no command block of any
    revision of the README, holds [def], [class] or [lambda]. *)
Theorem nothing_is_defined :
  Forall (fun nb => Forall (fun c => defines_nothing (source c)) (code_cells nb))
         notebooks
  /\ Forall (fun text =>
               Forall (fun c => defines_nothing [Markdown.line c])
                      (Markdown.commands text))
            readmes.
Proof.
  split.
  - unfold notebooks. split_Forall; each_code_cell; vm_compute; reflexivity.
  - unfold readmes. split_Forall; each_element; vm_compute; reflexivity.
Qed.

(** ** C5: the two kinds of collection *)

(** What cells 9 to 11 recorded. *)
Lemma recorded_collections_hold : recorded_collections.
Proof.
  unfold recorded_collections.
  repeat split;
    try (vm_compute; reflexivity);
    eexists; (split; [ vm_compute; reflexivity | ]);
    repeat split; vm_compute; reflexivity.
Qed.

(** A sequence may hold a mapping and a mapping a sequence, next to
    arrays. *)
Lemma collections_nest_freely :
  match mixed_nesting initial with
  | Ok (Some s, _) => show s
  | _ => []
  end
  = ["Collection:";
     "  array: <xdas.DataArray (time: 37500, distance: 9998)>";
     "  sequence: ";
     "    Mixed:";
     "      0: <xdas.DataArray (time: 37500, distance: 9998)>";
     "      1: ";
     "        Collection:";
     "          x: <xdas.DataArray (time: 37500, distance: 9998)>"].
Proof. vm_compute. reflexivity. Qed.

Lemma position_in_range n i :
  (i < n)%nat -> position n (Z.of_nat i) = Some i.
Proof.
  intros H. unfold position.
  destruct (Z.leb_spec 0 (Z.of_nat i)); [ | lia ].
  destruct (Z.ltb_spec (Z.of_nat i) (Z.of_nat n)); [ | lia ].
  simpl. rewrite Nat2Z.id. reflexivity.
Qed.

Lemma position_beyond n i :
  (n <= i)%nat -> position n (Z.of_nat i) = None.
Proof.
  intros H. unfold position.
  destruct (Z.leb_spec 0 (Z.of_nat i)); [ | lia ].
  destruct (Z.ltb_spec (Z.of_nat i) (Z.of_nat n)); [ lia | ].
  simpl. destruct (Z.leb_spec (- Z.of_nat n) (Z.of_nat i)); [ | reflexivity ].
  destruct (Z.ltb_spec (Z.of_nat i) 0); [ lia | reflexivity ].
Qed.

Lemma map_fst_combine {X Y} (xs : list X) (ys : list Y) :
  length xs = length ys -> map fst (combine xs ys) = xs.
Proof.
  revert ys. induction xs as [|x xs IH]; intros [|y ys]; simpl; try discriminate;
    auto.
  intros [= H]. rewrite IH by assumption. reflexivity.
Qed.

Lemma length_index_keys n : length (index_keys n) = n.
Proof. unfold index_keys. rewrite length_map, length_seq. reflexivity. Qed.

(** C5: [xd.DataCollection] applied to a list makes a [DataSequence] of
    the elements of the list: iterating it yields the elements, the
    element [i] is found under the integer [i] for [i] from 0 to the length
    less one and nothing is found beyond, and it is displayed with the keys
    0, 1, ...  Applied to a dict (with distinct keys) it makes a
    [DataMapping] with the entries of the dict: iterating it yields the
    keys, each entry is found under its key and nothing under another key,
    and it is displayed with the keys of the dict.  The elements are any
    objects of the store, arrays or collections: the value of the new
    collection has the values of its elements below it.  The notebook
    records the same for its cells 9, 10 and 11. *)
Theorem DataCollection_from_list_or_dict
        (s : state) (name : option string)
        (items : list loc) (entries : list (string * loc)) :
  NoDup (map fst entries) ->
  let c := Ref (length (heap s)) in
  let seq_state := {| heap := heap s ++ [ODataSequence name items];
                      vars := vars s; files := files s |} in
  let map_state := {| heap := heap s ++ [ODataMapping name entries];
                      vars := vars s; files := files s |} in
  (DataCollection (PyList (map Ref items)) name s = Ok (c, seq_state)
   /\ iterate c seq_state = Ok (map Ref items, seq_state)
   /\ (forall i, getitem c (Int (Z.of_nat i)) seq_state
                 = match nth_error items i with
                   | Some l => Ok (Ref l, seq_state)
                   | None => Raise IndexError
                   end)
   /\ (forall ts, Forall2 (fun l t => value_of (Ref l) s = Ok (t, s)) items ts ->
                  value_of c seq_state = Ok (TSequence name ts, seq_state)
                  /\ Repr.keys (shape_of (TSequence name ts))
                     = index_keys (length items)))
  /\ (DataCollection (PyDict (map (fun kv => (fst kv, Ref (snd kv))) entries))
                     name s = Ok (c, map_state)
      /\ iterate c map_state
         = Ok (map (fun kv => Str (fst kv)) entries, map_state)
      /\ (forall k, getitem c (Str k) map_state
                    = match dict_get entries k with
                      | Some l => Ok (Ref l, map_state)
                      | None => Raise (KeyError k)
                      end)
      /\ (forall ts, Forall2 (fun (kv : string * loc) (kt : string * tree) =>
                                fst kv = fst kt
                                /\ value_of (Ref (snd kv)) s = Ok (snd kt, s))
                             entries ts ->
                     value_of c map_state = Ok (TMapping name ts, map_state)
                     /\ Repr.keys (shape_of (TMapping name ts)) = map fst entries))
  /\ recorded_collections.
Proof.
  intros Hnd c seq_state map_state.
  assert (Hseq : nth_error (heap seq_state) (length (heap s))
                 = Some (ODataSequence name items)).
  { simpl. rewrite nth_error_app2, Nat.sub_diag by lia. reflexivity. }
  assert (Hmap : nth_error (heap map_state) (length (heap s))
                 = Some (ODataMapping name entries)).
  { simpl. rewrite nth_error_app2, Nat.sub_diag by lia. reflexivity. }
  split; [ | split; [ | apply recorded_collections_hold ] ].
  - split; [ | split; [ | split ] ].
    + unfold DataCollection.
      rewrite (bind_step _ _ _ _ _ (the_refs_intro items s)). reflexivity.
    + unfold iterate, c.
      rewrite (bind_step _ _ _ _ _ (deref_intro _ _ _ Hseq)). reflexivity.
    + intros i. unfold getitem, c.
      rewrite (bind_step _ _ _ _ _ (deref_intro _ _ _ Hseq)).
      cbv beta iota delta [snd].
      destruct (nth_error items i) as [l|] eqn:E.
      * rewrite position_in_range by (apply nth_error_Some; congruence).
        rewrite E. reflexivity.
      * rewrite position_beyond by (apply nth_error_None; exact E).
        reflexivity.
    + intros ts F. split.
      * unfold c. apply value_of_intro with (fuel := S (S (length (heap s)))).
        -- change (snapshot (S (S (length (heap s)))) (heap seq_state)
                     (length (heap s)))
             with (match nth_error (heap seq_state) (length (heap s)) with
                   | None => None
                   | Some (ODataArray da) => Some (TArray da)
                   | Some (ODataSequence n its) =>
                       option_map (TSequence n)
                         (all_some (map (snapshot (S (length (heap s)))
                                           (heap seq_state)) its))
                   | Some (ODataMapping n its) =>
                       option_map (TMapping n)
                         (all_some
                            (map (fun kv => option_map (pair (fst kv))
                                              (snapshot (S (length (heap s)))
                                                 (heap seq_state) (snd kv)))
                                 its))
                   end).
           rewrite Hseq.
           rewrite (all_some_Forall2 _ ts items); [ reflexivity | ].
           unfold seq_state. simpl heap.
           generalize [ODataSequence name items]. intros ext.
           clear - F. induction F as [|l t ls ts' Hlt _ IH]; constructor; auto.
           apply value_of_Ok in Hlt. destruct Hlt as (_ & l0 & [= <-] & Hs).
           apply snapshot_extends. exact Hs.
        -- simpl. rewrite length_app. simpl. lia.
      * simpl. rewrite map_fst_combine.
        -- rewrite (Forall2_length F). reflexivity.
        -- rewrite length_index_keys, length_map. reflexivity.
  - split; [ | split; [ | split ] ].
    + unfold DataCollection.
      rewrite (bind_step _ _ _ _ _ (the_entries_intro entries s)).
      rewrite dict_of_distinct by exact Hnd. reflexivity.
    + unfold iterate, c.
      rewrite (bind_step _ _ _ _ _ (deref_intro _ _ _ Hmap)). reflexivity.
    + intros k. unfold getitem, c.
      rewrite (bind_step _ _ _ _ _ (deref_intro _ _ _ Hmap)).
      cbv beta iota delta [snd].
      destruct (dict_get entries k); reflexivity.
    + intros ts F. split.
      * unfold c. apply value_of_intro with (fuel := S (S (length (heap s)))).
        -- change (snapshot (S (S (length (heap s)))) (heap map_state)
                     (length (heap s)))
             with (match nth_error (heap map_state) (length (heap s)) with
                   | None => None
                   | Some (ODataArray da) => Some (TArray da)
                   | Some (ODataSequence n its) =>
                       option_map (TSequence n)
                         (all_some (map (snapshot (S (length (heap s)))
                                           (heap map_state)) its))
                   | Some (ODataMapping n its) =>
                       option_map (TMapping n)
                         (all_some
                            (map (fun kv => option_map (pair (fst kv))
                                              (snapshot (S (length (heap s)))
                                                 (heap map_state) (snd kv)))
                                 its))
                   end).
           rewrite Hmap.
           rewrite (all_some_Forall2 _ ts entries); [ reflexivity | ].
           unfold map_state. simpl heap.
           generalize [ODataMapping name entries]. intros ext.
           clear - F.
           induction F as [|[k l] [k' t] ls ts' (Hk & Hlt) _ IH]; constructor; auto.
           cbn [fst snd] in *. subst k'.
           apply value_of_Ok in Hlt. destruct Hlt as (_ & l0 & [= <-] & Hs).
           rewrite (snapshot_extends _ _ ext _ _ Hs). reflexivity.
        -- simpl. rewrite length_app. simpl. lia.
      * simpl. rewrite map_map. simpl.
        clear - F. induction F as [|[k l] [k' t] ls ts' (Hk & _) _ IH]; simpl;
          [ reflexivity | ].
        simpl in Hk. subst k'. rewrite IH. reflexivity.
Qed.

(** C5, witness: a sequence and a mapping made of the array [SER/N/0] and of
    the whole collection of cell 2, in the session after cell 8. *)
Lemma DataCollection_witness :
  NoDup (map fst [("id_000000", 3%nat); ("id_000001", 8%nat)])
  /\ let s := state_after 8 true in
     let name := Some "event" in
     let items := [3%nat; 8%nat] in
     let entries := [("id_000000", 3%nat); ("id_000001", 8%nat)] in
     let c := Ref (length (heap s)) in
     let seq_state := {| heap := heap s ++ [ODataSequence name items];
                         vars := vars s; files := files s |} in
     let map_state := {| heap := heap s ++ [ODataMapping name entries];
                         vars := vars s; files := files s |} in
     (DataCollection (PyList (map Ref items)) name s = Ok (c, seq_state)
      /\ iterate c seq_state = Ok (map Ref items, seq_state)
      /\ (forall i, getitem c (Int (Z.of_nat i)) seq_state
                    = match nth_error items i with
                      | Some l => Ok (Ref l, seq_state)
                      | None => Raise IndexError
                      end)
      /\ (forall ts, Forall2 (fun l t => value_of (Ref l) s = Ok (t, s)) items ts ->
                     value_of c seq_state = Ok (TSequence name ts, seq_state)
                     /\ Repr.keys (shape_of (TSequence name ts))
                        = index_keys (length items)))
     /\ (DataCollection (PyDict (map (fun kv => (fst kv, Ref (snd kv))) entries))
                        name s = Ok (c, map_state)
         /\ iterate c map_state
            = Ok (map (fun kv => Str (fst kv)) entries, map_state)
         /\ (forall k, getitem c (Str k) map_state
                       = match dict_get entries k with
                         | Some l => Ok (Ref l, map_state)
                         | None => Raise (KeyError k)
                         end)
         /\ (forall ts, Forall2 (fun (kv : string * loc) (kt : string * tree) =>
                                   fst kv = fst kt
                                   /\ value_of (Ref (snd kv)) s = Ok (snd kt, s))
                                entries ts ->
                        value_of c map_state = Ok (TMapping name ts, map_state)
                        /\ Repr.keys (shape_of (TMapping name ts)) = map fst entries))
     /\ recorded_collections.
Proof.
  assert (Hnd : NoDup (map fst [("id_000000", 3%nat); ("id_000001", 8%nat)])).
  { simpl. repeat constructor; simpl; intuition discriminate. }
  split; [ exact Hnd | ].
  exact (DataCollection_from_list_or_dict
           (state_after 8 true) (Some "event") [3%nat; 8%nat]
           [("id_000000", 3%nat); ("id_000001", 8%nat)] Hnd).
Defined.

(** ** C6: the dimensions of the arrays *)

(** A selection keeps the dimensions of an array and their order. *)
Lemma sel_array_keeps_dimensions name lo hi da da' :
  sel_array name lo hi da = Ok da' ->
  map fst (coords da') = map fst (coords da).
Proof.
  unfold sel_array. destruct (has_dim name da); [ | discriminate ].
  intros [= <-]. simpl.
  induction (coords da) as [|[n c] cs IH]; simpl; [ reflexivity | ].
  destruct (String.eqb n name); simpl; [ reflexivity | ].
  rewrite IH. reflexivity.
Qed.

(** C6: every array the notebook displays, in the collections opened from
    files, in the selections and in the collections built from them, has
    exactly the two dimensions [time] and [distance], in this order; so has
    every array in the store of the session, displayed or not; and the
    storage recorded for [CCN/N/0] is that of a dense array of 37500 by 9998
    16-bit integers. *)
Theorem arrays_are_time_by_distance :
  Forall (fun c => Forall (fun dims => dim_names dims = ["time"; "distance"])
                          (displayed_arrays c))
         (code_cells notebook)
  /\ length (flat_map displayed_arrays (code_cells notebook)) = 26%nat
  /\ arrays_have_dims ["time"; "distance"] (heap (state_after 13 true))
  /\ arrays_have_dims ["time"; "distance"] (heap (state_after 13 false))
  /\ length (heap (state_after 13 true)) = 62%nat
  /\ dense_storage (match displayed In_3 with Some t => t | None => [] end).
Proof.
  split; [ each_code_cell; each_element; reflexivity | ].
  split; [ vm_compute; reflexivity | ].
  split; [ unfold arrays_have_dims; each_element;
           first [ reflexivity | exact I ] | ].
  split; [ unfold arrays_have_dims; each_element;
           first [ reflexivity | exact I ] | ].
  split; [ vm_compute; reflexivity | ].
  unfold dense_storage. do 5 eexists.
  do 4 (split; [ vm_compute; reflexivity | ]).
  vm_compute. split; [ discriminate | reflexivity ].
Qed.

(** ** C7: sequential execution *)

(** C7: the code cells carry the execution counts 1 to 14, strictly
    increasing in document order; each recorded value carries the count of
    its cell; no cell uses [async] or [await], and the only modules
    imported are numpy, xdas and xdas.signal. *)
Theorem cells_execute_in_document_order :
  map execution_count (code_cells notebook)
  = [Some 1; Some 2; Some 3; Some 4; Some 5; Some 6; Some 7; Some 8; Some 9;
     Some 10; Some 11; Some 12; Some 13; Some 14]%Z
  /\ (forall i j m n,
         nth_error (map execution_count (code_cells notebook)) i = Some (Some m) ->
         nth_error (map execution_count (code_cells notebook)) j = Some (Some n) ->
         (i < j)%nat -> (m < n)%Z)
  /\ Forall (fun c => used concurrency_keywords (source c) = []
                      /\ forall n t, In (execute_result n t) (outputs c) ->
                                     execution_count c = Some n)
            (code_cells notebook)
  /\ imported notebook
     = [("np", ["numpy"]); ("xd", ["xdas"]); ("xs", ["xdas"; "signal"])].
Proof.
  split; [ vm_compute; reflexivity | ].
  split.
  - assert (E : map execution_count (code_cells notebook)
                = map (fun k => Some (Z.of_nat (S k))) (seq 0 14))
      by (vm_compute; reflexivity).
    rewrite E. intros i j m n Hi Hj Hij.
    rewrite nth_error_map in Hi, Hj.
    destruct (nth_error (seq 0 14) i) as [a|] eqn:Ea; [ | discriminate ].
    destruct (nth_error (seq 0 14) j) as [b|] eqn:Eb; [ | discriminate ].
    pose proof (nth_error_Some (seq 0 14) i) as Li.
    pose proof (nth_error_Some (seq 0 14) j) as Lj.
    rewrite Ea in Li. rewrite Eb in Lj. rewrite length_seq in Li, Lj.
    assert (i < 14)%nat by (apply Li; discriminate).
    assert (j < 14)%nat by (apply Lj; discriminate).
    apply nth_error_nth with (d := 0%nat) in Ea, Eb.
    rewrite seq_nth in Ea, Eb by assumption.
    simpl in Hi, Hj. injection Hi as <-. injection Hj as <-. lia.
  - split; [ | vm_compute; reflexivity ].
    each_code_cell; (split; [ vm_compute; reflexivity | ]);
      intros n t H; simpl in H;
      repeat match goal with
             | H : _ \/ _ |- _ => destruct H as [H|H]
             end;
      try contradiction; try discriminate;
      injection H as <- _; reflexivity.
Qed.

(** ** C8: the setup instructions *)

(** C8, counterexample: the setup of the README starts with the step "Get
    the source code", whose commands run git; that is none of environment
    creation, package installation and sample-data download. *)
Lemma setup_also_fetches_the_source :
  Markdown.subsections setup README
  = ["Get the source code"; "Creating a dedicated environment";
     "Installing Xdas"; "Additional dependencies"; "Download Data samples"]
  /\ Markdown.commands_under setup "Get the source code" README
     = ["git clone https://github.com/xdas-dev/tutorials.git"; "cd tutorials";
        "git reset --hard HEAD"; "git pull"]
  /\ concern_of "git clone https://github.com/xdas-dev/tutorials.git"
     = Some SourceCode
  /\ ~ only_named_concerns README.
Proof.
  split; [ vm_compute; reflexivity | ].
  split; [ vm_compute; reflexivity | ].
  split; [ vm_compute; reflexivity | ].
  unfold only_named_concerns. intros H.
  match type of H with
  | Forall _ ?l =>
      let l' := eval vm_compute in l in
      assert (E : l = l') by (vm_compute; reflexivity);
      rewrite E in H; clear E
  end.
  apply Forall_cons_iff in H. destruct H as [(k & Hk & Hin) _].
  vm_compute in Hk. injection Hk as <-.
  simpl in Hin. intuition discriminate.
Qed.

(** C8, amended: the setup instructions of the README are five steps: get
    the source code (git), create a dedicated environment (conda), install
    Xdas (pip), install the additional dependencies (pip), and download
    the data samples (wget of the one address
    https://zenodo.org/records/11212055/files/data.zip, unzip, and a fresh
    outputs folder). *)
Theorem setup_of_the_README :
  setup_steps README
  = [("Get the source code",
      ["git clone https://github.com/xdas-dev/tutorials.git"; "cd tutorials";
       "git reset --hard HEAD"; "git pull"]);
     ("Creating a dedicated environment",
      ["conda config --add channels conda-forge";
       "conda create -n xdas-tutorials"; "conda activate xdas-tutorials";
       "conda install pip --yes"]);
     ("Installing Xdas", ["pip install xdas"]);
     ("Additional dependencies", ["pip install notebook seisbench"]);
     ("Download Data samples",
      ["wget https://zenodo.org/records/11212055/files/data.zip";
       "unzip data.zip"; "rm -rf outputs"; "mkdir -p outputs"])]
  /\ downloads README = ["https://zenodo.org/records/11212055/files/data.zip"]
  /\ map (fun c => concern_of (Markdown.line c)) (Markdown.commands README)
     = map Some [SourceCode; SourceCode; SourceCode; SourceCode;
                 EnvironmentCreation; EnvironmentCreation;
                 EnvironmentCreation; EnvironmentCreation;
                 PackageInstallation; PackageInstallation;
                 SampleData; SampleData; OutputFolder; OutputFolder]
  /\ Forall (fun c => Markdown.section c = setup) (Markdown.commands README).
Proof.
  split; [ vm_compute; reflexivity | ].
  split; [ vm_compute; reflexivity | ].
  split; [ vm_compute; reflexivity | ].
  each_element; reflexivity.
Qed.

(** ** C9: selection, as recorded and in general *)





(** ** C10: the deep copy and its original *)

(** What cells 2, 4, 6 and 11 recorded. *)
Lemma recorded_original_untouched_holds : recorded_original_untouched.
Proof.
  unfold recorded_original_untouched.
  do 6 eexists.
  do 6 (split; [ vm_compute; reflexivity | ]).
  repeat split; vm_compute; reflexivity.
Qed.

(** C10: when cell 4 has run, having copied [dc] deeply into [dc_set], set
    a new key in the copy, appended to one of its sequences and updated it
    with a new entry, the variable [dc] names the object it named before and
    that object stands for the value it stood for before, whatever the
    collection and whatever the default of [copy].  The notebook records
    the same: cell 4 displays the cable [S] under [CCN] and the node [CAL]
    in the copy, and the later cells 6 and 11, which use [dc], display
    neither. *)
Theorem deep_copy_keeps_the_original w s d s' dc t :
  var "dc" s = Ok (dc, s) ->
  value_of dc s = Ok (t, s) ->
  exec_4 w s = Ok (d, s') ->
  var "dc" s' = Ok (dc, s')
  /\ value_of dc s' = Ok (t, s')
  /\ extends (heap s) (heap s')
  /\ recorded_original_untouched.
Proof.
  intros Hv Ht H.
  apply var_Ok in Hv. destruct Hv as [_ Hv].
  pose proof (value_of_Ok _ _ _ _ Ht) as (_ & l & -> & Hs).
  destruct (exec_4_frame _ _ _ _ _ Hv H) as [X Hv'].
  split; [ apply var_intro; exact Hv' | ].
  split; [ | split; [ exact X | apply recorded_original_untouched_holds ] ].
  eapply value_of_intro.
  - eapply snapshot_preserved; eassumption.
  - pose proof (extends_length _ _ X). lia.
Qed.

(** C10, witness: cell 4 of the session, after cells 1 to 3. *)
Lemma deep_copy_witness :
  var "dc" (state_after 3 true) = Ok (Ref 8, state_after 3 true)
  /\ value_of (Ref 8) (state_after 3 true) = Ok (gps_multicable, state_after 3 true)
  /\ exists d s',
      exec_4 (sample_data true) (state_after 3 true) = Ok (d, s')
      /\ var "dc" s' = Ok (Ref 8, s')
      /\ value_of (Ref 8) s' = Ok (gps_multicable, s')
      /\ extends (heap (state_after 3 true)) (heap s')
      /\ recorded_original_untouched.
Proof.
  split; [ vm_compute; reflexivity | ].
  split; [ vm_compute; reflexivity | ].
  do 2 eexists. split; [ vm_compute; reflexivity | ].
  eapply (deep_copy_keeps_the_original
            (sample_data true) (state_after 3 true) _ _ (Ref 8) gps_multicable);
    vm_compute; reflexivity.
Defined.

(** Without the copy the append of cell 4 would reach the original: a
    sequence entered under a new key is the same object as before. *)
Lemma an_alias_is_not_a_copy :
  match (v <- subscript "dc" [Str "CCN"; Str "N"] ;;
         t <- subscript "dc" [Str "CCN"] ;; setitem t (Str "S") v ;;
         t <- subscript "dc" [Str "CCN"; Str "S"] ;;
         a <- subscript "dc" [Str "SER"; Str "N"; Int 0] ;;
         append t a ;;
         v <- var "dc" ;; display v)%py (state_after 3 true) with
  | Ok (Some s, _) => option_map show (at_path s ["CCN"; "N"])
  | _ => None
  end
  = Some ["Acquisition:";
          "  0: <xdas.DataArray (time: 37500, distance: 9998)>";
          "  1: <xdas.DataArray (time: 37500, distance: 10000)>"].
Proof. vm_compute. reflexivity. Qed.

(** * The cells on any data *)

(** ** Indexing *)

Lemma all_some_inv {X Y} (g : Y -> option X) ys :
  forall xs, all_some (map g ys) = Some xs ->
             Forall2 (fun x y => g y = Some x) xs ys.
Proof.
  induction ys as [|y ys IH]; simpl; intros xs.
  - intros [= <-]. constructor.
  - destruct (g y) as [x|] eqn:E; [ | discriminate ].
    destruct (all_some (map g ys)) as [xs'|]; [ | discriminate ].
    intros [= <-]. constructor; auto.
Qed.

(** The entries of a mapping and their values, key by key. *)
Lemma entries_inv fuel h (d : list (string * loc)) ts :
  all_some (map (fun kv => option_map (pair (fst kv)) (snapshot fuel h (snd kv))) d)
  = Some ts ->
  Forall2 (fun (kt : string * tree) (kv : string * loc) =>
             fst kt = fst kv /\ snapshot fuel h (snd kv) = Some (snd kt)) ts d.
Proof.
  intros H. apply all_some_inv in H.
  eapply Forall2_impl; [ | exact H ].
  intros [k t] [k' l]. simpl.
  destruct (snapshot fuel h l); [ | discriminate ].
  intros [= <- <-]. auto.
Qed.

Lemma dict_get_Forall2 {V W} (R : V -> W -> Prop)
      (ts : list (string * V)) (d : list (string * W)) k :
  Forall2 (fun kt kv => fst kt = fst kv /\ R (snd kt) (snd kv)) ts d ->
  match dict_get ts k, dict_get d k with
  | Some t, Some l => R t l
  | None, None => True
  | _, _ => False
  end.
Proof.
  induction 1 as [|[k1 t] [k2 l] ts d (Hk & Hr) _ IH]; simpl; [ exact I | ].
  simpl in Hk. subst k2. destruct (String.eqb k1 k); [ exact Hr | exact IH ].
Qed.

Lemma nth_error_Forall2 {V W} (R : V -> W -> Prop) ts d i :
  Forall2 R ts d ->
  match nth_error ts i, nth_error d i with
  | Some t, Some l => R t l
  | None, None => True
  | _, _ => False
  end.
Proof.
  intros F. revert i. induction F as [|t l ts d Hr _ IH]; intros [|i]; simpl; auto.
  apply IH.
Qed.

(** Indexing an object gives the object that stands for the indexed
    value, and fails as indexing the value does. *)
Lemma getitem_value obj key s t :
  value_of obj s = Ok (t, s) ->
  match tree_getitem t key with
  | Ok t' => exists r, getitem obj key s = Ok (r, s) /\ value_of r s = Ok (t', s)
  | Raise e => getitem obj key s = Raise e
  end.
Proof.
  intros H. apply value_of_Ok in H. destruct H as (_ & l & -> & H).
  simpl in H.
  destruct (nth_error (heap s) l) as [o|] eqn:Hl; [ | discriminate ].
  unfold getitem. rewrite (bind_step _ _ _ _ _ (deref_intro _ _ _ Hl)).
  cbv beta iota delta [snd].
  destruct o as [da|n items|n d].
  - injection H as <-. destruct key; reflexivity.
  - destruct (all_some (map (snapshot (length (heap s)) (heap s)) items))
      as [ts|] eqn:E; [ | discriminate ].
    injection H as <-. apply all_some_inv in E.
    destruct key as [?|?|z| |?]; try reflexivity. simpl.
    rewrite (Forall2_length E).
    destruct (position (length items) z) as [i|]; [ | reflexivity ].
    pose proof (nth_error_Forall2 _ _ _ i E) as Hi. cbv beta in Hi.
    destruct (nth_error ts i) as [t'|], (nth_error items i) as [c|];
      try contradiction; [ | reflexivity ].
    exists (Ref c). split; [ reflexivity | ].
    eapply value_of_intro; [ exact Hi | lia ].
  - destruct (all_some (map (fun kv => option_map (pair (fst kv))
                                         (snapshot (length (heap s)) (heap s) (snd kv)))
                            d)) as [ts|] eqn:E; [ | discriminate ].
    injection H as <-. apply entries_inv in E.
    destruct key as [?|k|?| |?]; try reflexivity. simpl.
    pose proof (dict_get_Forall2
                  (fun t0 l0 => snapshot (length (heap s)) (heap s) l0 = Some t0)
                  _ _ k E) as Hk.
    destruct (dict_get ts k) as [t'|], (dict_get d k) as [c|];
      try contradiction; [ | reflexivity ].
    exists (Ref c). split; [ reflexivity | ].
    eapply value_of_intro; [ exact Hk | lia ].
Qed.

Lemma subscripts_value keys :
  forall obj s t,
    value_of obj s = Ok (t, s) ->
    match tree_subscripts t keys with
    | Ok t' => exists r, subscripts obj keys s = Ok (r, s)
                         /\ value_of r s = Ok (t', s)
    | Raise e => subscripts obj keys s = Raise e
    end.
Proof.
  induction keys as [|k keys IH]; intros obj s t H; simpl.
  - exists obj. split; [ reflexivity | exact H ].
  - pose proof (getitem_value obj k s t H) as G.
    destruct (tree_getitem t k) as [t1|e].
    + destruct G as (r & Hr & Hv).
      rewrite (bind_step _ _ _ _ _ Hr). apply IH. exact Hv.
    + unfold bind. rewrite G. reflexivity.
Qed.

Lemma getitem_extends obj key s s' r :
  getitem obj key s = Ok (r, s) -> extends (heap s) (heap s') ->
  getitem obj key s' = Ok (r, s').
Proof.
  intros H X. unfold getitem in H. apply bind_Ok in H.
  destruct H as ([l o] & s1 & H1 & H).
  apply deref_Ok in H1. destruct H1 as (-> & -> & Hl).
  pose proof (extends_nth_error _ _ _ _ X Hl) as Hl'.
  unfold getitem. rewrite (bind_step _ _ _ _ _ (deref_intro _ _ _ Hl')).
  cbn [snd] in *.
  destruct o as [da|n items|n d]; destruct key as [?|k|z| |?]; try discriminate.
  - destruct (position (length items) z); [ | discriminate ].
    destruct (nth_error items n0); [ | discriminate ].
    injection H as <-. reflexivity.
  - destruct (dict_get d k); [ | discriminate ].
    injection H as <-. reflexivity.
Qed.

Lemma subscripts_extends keys :
  forall obj s s' r,
    subscripts obj keys s = Ok (r, s) -> extends (heap s) (heap s') ->
    subscripts obj keys s' = Ok (r, s').
Proof.
  induction keys as [|k keys IH]; intros obj s s' r; simpl.
  - intros [= <-] _. reflexivity.
  - intros H X. apply bind_Ok in H. destruct H as (v & s1 & H1 & H).
    pose proof (getitem_pure _ _ _ _ _ H1). subst s1.
    rewrite (bind_step _ _ _ _ _ (getitem_extends _ _ _ _ _ H1 X)).
    eapply IH; eassumption.
Qed.

(** ** Loops *)

(** A loop keeps what each of its rounds keeps. *)
Lemma for_invariant (I : state -> Prop) x values body :
  (forall v s, In v values -> I s ->
     exists s', body {| heap := heap s; vars := dict_set (vars s) x v;
                        files := files s |} = Ok (tt, s') /\ I s') ->
  forall s, I s -> exists s', for_ x values body s = Ok (tt, s') /\ I s'.
Proof.
  induction values as [|v values IH]; intros Hbody s Hs; simpl.
  - exists s. split; [ reflexivity | exact Hs ].
  - destruct (Hbody v s (or_introl eq_refl) Hs) as (s1 & H1 & I1).
    unfold bind at 1. unfold assign at 1. unfold bind at 1. rewrite H1.
    apply IH; [ | exact I1 ].
    intros v' s' Hv'. apply Hbody. right. exact Hv'.
Qed.

Lemma dict_get_In_pair {V} (d : list (string * V)) k v :
  dict_get d k = Some v -> In (k, v) d.
Proof.
  induction d as [|[k' v'] d IH]; simpl; [ discriminate | ].
  destruct (String.eqb k' k) eqn:E.
  - apply String.eqb_eq in E. intros [= ->]. left. congruence.
  - auto.
Qed.

(** An object that stands for a sequence is a sequence, one that stands
    for a mapping a mapping with the same keys. *)
Lemma snapshot_sequence fuel h l n ts :
  snapshot fuel h l = Some (TSequence n ts) ->
  exists items, nth_error h l = Some (ODataSequence n items)
                /\ exists fuel', fuel = S fuel'
                   /\ Forall2 (fun t c => snapshot fuel' h c = Some t) ts items.
Proof.
  destruct fuel as [|fuel]; simpl; [ discriminate | ].
  destruct (nth_error h l) as [[da|n' items|n' d]|]; try discriminate.
  - destruct (all_some (map (snapshot fuel h) items)) as [ts'|] eqn:E;
      [ | discriminate ].
    intros [= <- <-]. exists items. split; [ reflexivity | ].
    exists fuel. split; [ reflexivity | apply all_some_inv; exact E ].
  - destruct (all_some _); discriminate.
Qed.

Lemma snapshot_mapping fuel h l n ts :
  snapshot fuel h l = Some (TMapping n ts) ->
  exists d, nth_error h l = Some (ODataMapping n d)
            /\ exists fuel', fuel = S fuel'
               /\ Forall2 (fun (kt : string * tree) (kv : string * loc) =>
                             fst kt = fst kv
                             /\ snapshot fuel' h (snd kv) = Some (snd kt)) ts d.
Proof.
  destruct fuel as [|fuel]; simpl; [ discriminate | ].
  destruct (nth_error h l) as [[da|n' items|n' d]|]; try discriminate.
  - destruct (all_some _); discriminate.
  - destruct (all_some (map (fun kv => option_map (pair (fst kv))
                                         (snapshot fuel h (snd kv))) d))
      as [ts'|] eqn:E; [ | discriminate ].
    intros [= <- <-]. exists d. split; [ reflexivity | ].
    exists fuel. split; [ reflexivity | apply entries_inv; exact E ].
Qed.

Lemma snapshot_array fuel h l da :
  snapshot fuel h l = Some (TArray da) -> nth_error h l = Some (ODataArray da).
Proof.
  destruct fuel as [|fuel]; simpl; [ discriminate | ].
  destruct (nth_error h l) as [[da'|n' items|n' d]|]; try discriminate.
  - intros [= <-]. reflexivity.
  - destruct (all_some _); discriminate.
  - destruct (all_some _); discriminate.
Qed.

Lemma Forall2_In_r {X Y} (R : X -> Y -> Prop) xs ys y :
  Forall2 R xs ys -> In y ys -> exists x, In x xs /\ R x y.
Proof.
  induction 1 as [|x0 y0 xs ys Hr _ IH]; simpl; [ tauto | ].
  intros [<-|H]; [ eauto | ].
  destruct (IH H) as (x & Hx & Hxy). eauto.
Qed.

Lemma iterate_mapping s l n d :
  nth_error (heap s) l = Some (ODataMapping n d) ->
  iterate (Ref l) s = Ok (map (fun kv => Str (fst kv)) d, s).
Proof.
  intros H. unfold iterate. rewrite (bind_step _ _ _ _ _ (deref_intro _ _ _ H)).
  reflexivity.
Qed.

Lemma iterate_sequence s l n items :
  nth_error (heap s) l = Some (ODataSequence n items) ->
  iterate (Ref l) s = Ok (map Ref items, s).
Proof.
  intros H. unfold iterate. rewrite (bind_step _ _ _ _ _ (deref_intro _ _ _ H)).
  reflexivity.
Qed.

Lemma subscript_intro root keys s v r :
  dict_get (vars s) root = Some v ->
  subscripts v keys s = Ok (r, s) ->
  subscript root keys s = Ok (r, s).
Proof.
  intros Hv Hr. unfold subscript.
  rewrite (bind_step _ _ _ _ _ (var_intro _ _ _ Hv)). exact Hr.
Qed.

Lemma subscript_fails root keys s v e :
  dict_get (vars s) root = Some v ->
  subscripts v keys s = Raise e ->
  subscript root keys s = Raise e.
Proof.
  intros Hv Hr. unfold subscript.
  rewrite (bind_step _ _ _ _ _ (var_intro _ _ _ Hv)). exact Hr.
Qed.

Lemma bind_fail {A B} (m : M A) (f : A -> M B) s e :
  m s = Raise e -> bind m f s = Raise e.
Proof. intros H. unfold bind. rewrite H. reflexivity. Qed.

(** Run the first operation of a sequence, given what it returns. *)
Ltac run H := rewrite (bind_step _ _ _ _ _ H); cbv beta.

(** The three nested loops of cell 5 on a collection of nodes, cables and
    acquisitions. *)
Lemma exec_5_runs s l t :
  dict_get (vars s) "dc" = Some (Ref l) ->
  value_of (Ref l) s = Ok (t, s) ->
  tree_of_nodes t ->
  exists s', exec_5 s = Ok (None, s')
             /\ heap s' = heap s /\ files s' = files s
             /\ forall x, ~ In x loop_variables ->
                          dict_get (vars s') x = dict_get (vars s) x.
Proof.
  intros Hdc Hv Ht.
  apply value_of_Ok in Hv. destruct Hv as (_ & l0 & [= <-] & Hsnap).
  destruct t as [da|n ts|n nodes]; try contradiction. simpl in Ht.
  apply snapshot_mapping in Hsnap.
  destruct Hsnap as (d & Hl & fuel & [= <-] & F).
  set (same := fun s1 : state =>
                 heap s1 = heap s /\ files s1 = files s
                 /\ forall x, ~ In x loop_variables ->
                              dict_get (vars s1) x = dict_get (vars s) x).
  assert (Hsame : same s) by (repeat split; reflexivity).
  assert (Hkeep : forall s1 x v,
             In x loop_variables -> same s1 ->
             same {| heap := heap s1; vars := dict_set (vars s1) x v;
                     files := files s1 |}).
  { intros s1 x v Hx (Hh & Hf & Hvars). repeat split; simpl; auto.
    intros y Hy. rewrite dict_get_set_ne by (intros ->; exact (Hy Hx)). auto. }
  assert (Hroot : forall s1, same s1 -> dict_get (vars s1) "dc" = Some (Ref l)).
  { intros s1 (_ & _ & Hvars).
    rewrite Hvars; [ exact Hdc | ]. simpl. intuition discriminate. }
  unfold exec_5.
  run (var_intro _ _ _ Hdc).
  run (iterate_mapping _ _ _ _ Hl).
  match goal with
  | |- context [for_ "node" ?vs ?b] =>
      assert (Hloop : exists s', for_ "node" vs b s = Ok (tt, s') /\ same s')
  end.
  2: { destruct Hloop as (s' & Hrun & Hs').
       run Hrun.
       exists s'. split; [ reflexivity | exact Hs' ]. }
  apply for_invariant; [ | exact Hsame ].
  (* one node *)
  intros v s1 Hin Hs1.
  apply in_map_iff in Hin. destruct Hin as ([k c0] & <- & Hin). simpl.
  pose proof (Hkeep s1 "node" (Str k) ltac:(simpl; tauto) Hs1) as Hs2.
  set (s2 := {| heap := heap s1; vars := dict_set (vars s1) "node" (Str k);
                files := files s1 |}) in *.
  assert (Hnode : dict_get (vars s2) "node" = Some (Str k))
    by apply dict_get_set_eq.
  run (var_intro _ _ _ Hnode).
  destruct (dict_get_Some_In d k) as [c Hc].
  { apply in_map_iff. exists (k, c0). auto. }
  assert (Hl2 : nth_error (heap s2) l = Some (ODataMapping n d))
    by (destruct Hs2 as (-> & _); exact Hl).
  assert (Hsub : subscript "dc" [Str k] s2 = Ok (Ref c, s2)).
  { apply subscript_intro with (v := Ref l); [ apply Hroot; exact Hs2 | ].
    simpl. run (getitem_Str_intro _ _ _ _ _ _ Hl2 Hc). reflexivity. }
  run Hsub.
  (* the node is a mapping of cables *)
  destruct (Forall2_In_r _ _ _ _ F (dict_get_In_pair _ _ _ Hc))
    as ([k' tn] & Hin' & _ & Hsn).
  simpl in Hsn.
  rewrite Forall_forall in Ht. specialize (Ht _ Hin'). simpl in Ht.
  destruct tn as [?|?|nc cables]; try contradiction. simpl in Ht.
  apply snapshot_mapping in Hsn.
  destruct Hsn as (dc & Hc2 & fuel' & Hfuel & Fc).
  assert (Hc3 : nth_error (heap s2) c = Some (ODataMapping nc dc))
    by (destruct Hs2 as (-> & _); exact Hc2).
  run (iterate_mapping _ _ _ _ Hc3).
  set (with_node := fun s3 : state =>
                      same s3 /\ dict_get (vars s3) "node" = Some (Str k)).
  match goal with
  | |- context [for_ "cable" ?vs ?b] =>
      assert (Hloop : exists s', for_ "cable" vs b s2 = Ok (tt, s')
                                 /\ with_node s')
  end.
  2: { destruct Hloop as (s3 & Hrun & Hs3 & _).
       exists s3. split; [ exact Hrun | exact Hs3 ]. }
  apply for_invariant; [ | split; assumption ].
  (* one cable *)
  clear Hnode Hl2 Hc3.
  intros v s3 Hinc Hs3.
  apply in_map_iff in Hinc. destruct Hinc as ([kc q0] & <- & Hinc). simpl.
  destruct Hs3 as (Hs3 & Hnode).
  pose proof (Hkeep s3 "cable" (Str kc) ltac:(simpl; tauto) Hs3) as Hs4.
  set (s4 := {| heap := heap s3; vars := dict_set (vars s3) "cable" (Str kc);
                files := files s3 |}) in *.
  assert (Hnode4 : dict_get (vars s4) "node" = Some (Str k)).
  { simpl. rewrite dict_get_set_ne by discriminate. exact Hnode. }
  assert (Hcable : dict_get (vars s4) "cable" = Some (Str kc))
    by apply dict_get_set_eq.
  run (var_intro _ _ _ Hnode4).
  run (var_intro _ _ _ Hcable).
  assert (Hl4 : nth_error (heap s4) l = Some (ODataMapping n d))
    by (destruct Hs4 as (-> & _); exact Hl).
  assert (Hc4 : nth_error (heap s4) c = Some (ODataMapping nc dc))
    by (destruct Hs4 as (-> & _); exact Hc2).
  destruct (dict_get_Some_In dc kc) as [q Hq].
  { apply in_map_iff. exists (kc, q0). split; [ reflexivity | exact Hinc ]. }
  assert (Hsub4 : subscript "dc" [Str k; Str kc] s4 = Ok (Ref q, s4)).
  { apply subscript_intro with (v := Ref l); [ apply Hroot; exact Hs4 | ].
    simpl. run (getitem_Str_intro _ _ _ _ _ _ Hl4 Hc).
    run (getitem_Str_intro _ _ _ _ _ _ Hc4 Hq). reflexivity. }
  run Hsub4.
  (* the cable is a sequence *)
  destruct (Forall2_In_r _ _ _ _ Fc (dict_get_In_pair _ _ _ Hq))
    as ([k'' tq] & Hin'' & _ & Hsq).
  simpl in Hsq.
  rewrite Forall_forall in Ht. specialize (Ht _ Hin''). simpl in Ht.
  destruct tq as [?|nq acqs|?]; try contradiction.
  apply snapshot_sequence in Hsq. destruct Hsq as (items & Hq2 & _).
  assert (Hq4 : nth_error (heap s4) q = Some (ODataSequence nq items))
    by (destruct Hs4 as (-> & _); exact Hq2).
  run (iterate_sequence _ _ _ _ Hq4).
  apply for_invariant; [ | split; assumption ].
  intros v s5 _ (Hs5 & Hnode5).
  eexists. split; [ reflexivity | ]. split.
  - apply Hkeep; [ simpl; tauto | exact Hs5 ].
  - simpl. rewrite dict_get_set_ne by discriminate. exact Hnode5.
Qed.

(** ** The operations, run forward *)

Lemma built_value t h l s' :
  built t h l (heap s') -> value_of (Ref l) s' = Ok (t, s').
Proof.
  intros (X & L & G & S' & _).
  eapply value_of_intro; [ apply S'; reflexivity | lia ].
Qed.

Lemma allocate_run t s :
  exists l s', allocate t s = Ok (Ref l, s')
               /\ built t (heap s) l (heap s')
               /\ vars s' = vars s /\ files s' = files s.
Proof.
  destruct (allocate t s) as [[r s']|e] eqn:E.
  - destruct (allocate_Ok _ _ _ _ E) as (l & -> & Hb & V & F).
    exists l, s'. auto.
  - exfalso. revert E. unfold allocate, bind, get_heap, set_heap, ret.
    destruct (build t (heap s)). discriminate.
Qed.

(** A value that a reference stands for is still its value in a larger
    store. *)
Lemma value_of_extends v s t s' :
  value_of v s = Ok (t, s) -> extends (heap s) (heap s') ->
  value_of v s' = Ok (t, s').
Proof.
  intros H X. apply value_of_Ok in H. destruct H as (_ & l & -> & H).
  eapply value_of_intro.
  - eapply snapshot_preserved; eassumption.
  - pose proof (extends_length _ _ X). lia.
Qed.

Lemma assign_run x v s :
  assign x v s
  = Ok (tt, {| heap := heap s; vars := dict_set (vars s) x v;
               files := files s |}).
Proof. reflexivity. Qed.

(** An object has the methods that the three classes share. *)
Lemma method_run obj name s t :
  value_of obj s = Ok (t, s) ->
  str_in name ["copy"; "sel"; "to_netcdf"] = true ->
  method obj name s = Ok (tt, s).
Proof.
  intros H Hn. apply value_of_Ok in H. destruct H as (_ & l & -> & H).
  simpl in H. destruct (nth_error (heap s) l) as [o|] eqn:Hl; [ | discriminate ].
  apply (method_intro s l o name Hl). unfold has_method. rewrite Hn. reflexivity.
Qed.

Lemma method_missing s l o name :
  nth_error (heap s) l = Some o -> has_method o name = false ->
  method (Ref l) name s = Raise (AttributeError name).
Proof.
  intros Hl Hm. unfold method.
  rewrite (bind_step _ _ _ _ _ (deref_intro _ _ _ Hl)). simpl.
  rewrite Hm. reflexivity.
Qed.

Lemma display_run obj s t :
  value_of obj s = Ok (t, s) -> display obj s = Ok (Some (shape_of t), s).
Proof. intros H. unfold display. rewrite (bind_step _ _ _ _ _ H). reflexivity. Qed.

Lemma to_netcdf_run obj path s t :
  value_of obj s = Ok (t, s) ->
  to_netcdf obj path s
  = Ok (tt, {| heap := heap s; vars := vars s;
               files := dict_set (files s) path t |}).
Proof. intros H. unfold to_netcdf. rewrite (bind_step _ _ _ _ _ H). reflexivity. Qed.

(** A selection on an object makes a new object for the selection of the
    value, and fails as the selection of the value does. *)
Lemma sel_run obj lo hi s t :
  value_of obj s = Ok (t, s) ->
  match event lo hi t with
  | Ok t' => exists l s', sel obj "time" lo hi s = Ok (Ref l, s')
                          /\ built t' (heap s) l (heap s')
                          /\ vars s' = vars s /\ files s' = files s
  | Raise e => sel obj "time" lo hi s = Raise e
  end.
Proof.
  intros H. unfold event, sel.
  destruct (parse_datetime lo) as [a|]; [ | reflexivity ].
  destruct (parse_datetime hi) as [b|]; [ | reflexivity ].
  rewrite (bind_step _ _ _ _ _ H).
  destruct (sel_tree "time" a b t) as [t'|e]; [ | reflexivity ].
  unfold lift. unfold bind at 1. unfold ret at 1.
  apply allocate_run.
Qed.

(** Opening a collection, binding it and displaying it. *)
Lemma open_bind_display (find : result tree) (x : string) s :
  match find with
  | Ok t =>
      exists l s',
        ((v <- (t <- lift find ;; allocate t) ;; assign x v ;;
          v <- var x ;; display v)%py s = Ok (Some (shape_of t), s'))
        /\ built t (heap s) l (heap s')
        /\ vars s' = dict_set (vars s) x (Ref l)
        /\ files s' = files s
  | Raise e =>
      (v <- (t <- lift find ;; allocate t) ;; assign x v ;;
       v <- var x ;; display v)%py s = Raise e
  end.
Proof.
  destruct find as [t|e]; [ | reflexivity ].
  destruct (allocate_run t s) as (l & s1 & Ha & Hb & V & F).
  set (s2 := {| heap := heap s1; vars := dict_set (vars s1) x (Ref l);
                files := files s1 |}).
  exists l, s2.
  assert (Hopen : (t0 <- lift (Ok t) ;; allocate t0)%py s = Ok (Ref l, s1))
    by exact Ha.
  rewrite (bind_step _ _ _ _ _ Hopen). cbv beta.
  unfold bind at 1. unfold assign at 1.
  fold s2.
  assert (Hx : dict_get (vars s2) x = Some (Ref l)) by apply dict_get_set_eq.
  rewrite (bind_step _ _ _ _ _ (var_intro _ _ _ Hx)). cbv beta.
  assert (Hv : value_of (Ref l) s2 = Ok (t, s2)) by (eapply built_value; exact Hb).
  rewrite (display_run _ _ _ Hv).
  split; [ reflexivity | ]. split; [ exact Hb | ].
  simpl. rewrite V, F. auto.
Qed.

Lemma deep_copy_run w obj s t :
  value_of obj s = Ok (t, s) ->
  exists l s', copy w obj (Some true) s = Ok (Ref l, s')
               /\ built t (heap s) l (heap s')
               /\ vars s' = vars s /\ files s' = files s.
Proof.
  intros H. unfold copy. rewrite (bind_step _ _ _ _ _ H). apply allocate_run.
Qed.

(** ** Selection and indexing *)

(** Where a selection leaves samples in every array, the selection of an
    indexed element is the indexed element of the selection. *)
Lemma sel_tree_getitem dim a b t key t1 :
  keeps_samples dim a b t ->
  tree_getitem t key = Ok t1 ->
  keeps_samples dim a b t1
  /\ exists t' t1', sel_tree dim a b t = Ok t'
                    /\ sel_tree dim a b t1 = Ok t1'
                    /\ tree_getitem t' key = Ok t1'.
Proof.
  intros Hk. destruct t as [da|n items|n items].
  - destruct key; discriminate.
  - destruct (sel_tree_sequence dim a b n items Hk) as (items' & E & F).
    apply (proj1 (every_array_sequence _ n items)) in Hk.
    destruct key as [?|?|z| |?]; try discriminate. simpl.
    destruct (position (length items) z) as [i|] eqn:Ep; [ | discriminate ].
    destruct (nth_error items i) as [x|] eqn:Ei; [ | discriminate ].
    intros [= <-].
    rewrite Forall_forall in Hk.
    split; [ apply Hk; eapply nth_error_In; exact Ei | ].
    pose proof (nth_error_Forall2 _ _ _ i F) as Hi. cbv beta in Hi.
    rewrite Ei in Hi.
    destruct (nth_error items' i) as [y|] eqn:Ey; [ | contradiction ].
    exists (TSequence n items'), y.
    split; [ exact E | ]. split; [ exact Hi | ].
    simpl. rewrite <- (Forall2_length F), Ep, Ey. reflexivity.
  - destruct (sel_tree_mapping dim a b n items Hk) as (items' & E & F).
    apply (proj1 (every_array_mapping _ n items)) in Hk.
    destruct key as [?|k|?| |?]; try discriminate. simpl.
    destruct (dict_get items k) as [x|] eqn:Ek; [ | discriminate ].
    intros [= <-].
    rewrite Forall_forall in Hk.
    split; [ apply (Hk (k, x)); eapply dict_get_In_pair; exact Ek | ].
    pose proof (dict_get_Forall2
                  (fun t1 t2 => sel_tree dim a b t1 = Ok t2) _ _ k F) as Hx.
    rewrite Ek in Hx.
    destruct (dict_get items' k) as [y|] eqn:Ey; [ | contradiction ].
    exists (TMapping n items'), y.
    split; [ exact E | ]. split; [ exact Hx | ].
    simpl. rewrite Ey. reflexivity.
Qed.

Lemma sel_tree_subscripts dim a b keys :
  forall t u,
    keeps_samples dim a b t ->
    tree_subscripts t keys = Ok u ->
    keeps_samples dim a b u
    /\ exists t' u', sel_tree dim a b t = Ok t'
                     /\ sel_tree dim a b u = Ok u'
                     /\ tree_subscripts t' keys = Ok u'.
Proof.
  induction keys as [|k keys IH]; intros t u Hk; simpl.
  - intros [= <-]. split; [ exact Hk | ].
    destruct (sel_tree_keeps dim a b t Hk) as (t' & Ht' & _).
    exists t', t'. auto.
  - destruct (tree_getitem t k) as [t1|e] eqn:E1; [ | discriminate ].
    intros Hu.
    destruct (sel_tree_getitem dim a b t k t1 Hk E1)
      as (Hk1 & t' & t1' & Ht' & Ht1' & G).
    destruct (IH t1 u Hk1 Hu) as (Hku & t1'' & u' & Ht1'' & Hu' & S').
    split; [ exact Hku | ].
    exists t', u'. split; [ exact Ht' | ]. split; [ exact Hu' | ].
    rewrite G. rewrite Ht1' in Ht1''. injection Ht1'' as <-. exact S'.
Qed.

(** ** New collections *)

(** One more level on top of objects that have a value. *)
Lemma snapshot_unfold fuel h l :
  snapshot (S fuel) h l
  = match nth_error h l with
    | None => None
    | Some (ODataArray da) => Some (TArray da)
    | Some (ODataSequence n items) =>
        option_map (TSequence n) (all_some (map (snapshot fuel h) items))
    | Some (ODataMapping n items) =>
        option_map (TMapping n)
          (all_some (map (fun kv => option_map (pair (fst kv))
                                      (snapshot fuel h (snd kv))) items))
    end.
Proof. reflexivity. Qed.

Lemma alloc_sequence_value s n items ts vs fs :
  Forall2 (fun l t => value_of (Ref l) s = Ok (t, s)) items ts ->
  let s' := {| heap := heap s ++ [ODataSequence n items]; vars := vs;
               files := fs |} in
  value_of (Ref (length (heap s))) s' = Ok (TSequence n ts, s').
Proof.
  intros F s'.
  apply value_of_intro with (fuel := S (S (length (heap s)))).
  - rewrite snapshot_unfold. simpl heap.
    rewrite nth_error_app2, Nat.sub_diag by lia. simpl nth_error. cbv iota.
    rewrite (all_some_Forall2 _ ts items); [ reflexivity | ].
    generalize [ODataSequence n items]. intros ext.
    clear - F. induction F as [|l t ls ts' Hlt _ IH]; constructor; auto.
    apply value_of_Ok in Hlt. destruct Hlt as (_ & l0 & [= <-] & Hs).
    apply snapshot_extends. exact Hs.
  - simpl. rewrite length_app. simpl. lia.
Qed.

Lemma alloc_mapping_value s n (entries : list (string * loc))
      (ts : list (string * tree)) vs fs :
  Forall2 (fun kv kt => fst kv = fst kt
                        /\ value_of (Ref (snd kv)) s = Ok (snd kt, s))
          entries ts ->
  let s' := {| heap := heap s ++ [ODataMapping n entries]; vars := vs;
               files := fs |} in
  value_of (Ref (length (heap s))) s' = Ok (TMapping n ts, s').
Proof.
  intros F s'.
  apply value_of_intro with (fuel := S (S (length (heap s)))).
  - rewrite snapshot_unfold. simpl heap.
    rewrite nth_error_app2, Nat.sub_diag by lia. simpl nth_error. cbv iota.
    rewrite (all_some_Forall2 _ ts entries); [ reflexivity | ].
    generalize [ODataMapping n entries]. intros ext.
    clear - F.
    induction F as [|[k l] [k' t] ls ts' (Hk & Hlt) _ IH]; constructor; auto.
    cbn [fst snd] in *. subst k'.
    apply value_of_Ok in Hlt. destruct Hlt as (_ & l0 & [= <-] & Hs).
    rewrite (snapshot_extends _ _ ext _ _ Hs). reflexivity.
  - simpl. rewrite length_app. simpl. lia.
Qed.

Lemma DataCollection_list s name items :
  DataCollection (PyList (map Ref items)) name s
  = Ok (Ref (length (heap s)),
        {| heap := heap s ++ [ODataSequence name items]; vars := vars s;
           files := files s |}).
Proof.
  unfold DataCollection. rewrite (bind_step _ _ _ _ _ (the_refs_intro items s)).
  reflexivity.
Qed.

Lemma DataCollection_dict s name (es : list (string * loc)) :
  DataCollection (PyDict (map (fun kv => (fst kv, Ref (snd kv))) es)) name s
  = Ok (Ref (length (heap s)),
        {| heap := heap s ++ [ODataMapping name (dict_of es)]; vars := vars s;
           files := files s |}).
Proof.
  unfold DataCollection.
  rewrite (bind_step _ _ _ _ _ (the_entries_intro es s)). reflexivity.
Qed.

(** Two selections of the same object, one after the other. *)
Lemma two_events_run obj s t e0 e1 :
  value_of obj s = Ok (t, s) ->
  event_0 t = Ok e0 -> event_1 t = Ok e1 ->
  exists a s1 b s2,
    sel obj "time" "2023-11-03T12:23:35" "2023-11-03T12:24:00" s = Ok (Ref a, s1)
    /\ sel obj "time" "2023-11-03T12:26:40" "2023-11-03T12:27:50" s1
       = Ok (Ref b, s2)
    /\ value_of obj s1 = Ok (t, s1)
    /\ value_of (Ref a) s2 = Ok (e0, s2)
    /\ value_of (Ref b) s2 = Ok (e1, s2)
    /\ extends (heap s) (heap s2)
    /\ vars s1 = vars s /\ vars s2 = vars s
    /\ files s1 = files s /\ files s2 = files s.
Proof.
  intros Ht H0 H1.
  pose proof (sel_run obj "2023-11-03T12:23:35" "2023-11-03T12:24:00" s t Ht) as R0.
  fold (event_0 t) in R0. rewrite H0 in R0.
  destruct R0 as (a & s1 & Ha & Hba & V1 & F1).
  pose proof Hba as (X1 & _).
  pose proof (value_of_extends _ _ _ s1 Ht X1) as Ht1.
  pose proof (sel_run obj "2023-11-03T12:26:40" "2023-11-03T12:27:50" s1 t Ht1) as R1.
  fold (event_1 t) in R1. rewrite H1 in R1.
  destruct R1 as (b & s2 & Hb & Hbb & V2 & F2).
  pose proof Hbb as (X2 & _).
  exists a, s1, b, s2.
  split; [ exact Ha | ]. split; [ exact Hb | ]. split; [ exact Ht1 | ].
  split; [ eapply value_of_extends; [ eapply built_value; exact Hba | exact X2 ] | ].
  split; [ eapply built_value; exact Hbb | ].
  split; [ eapply extends_trans; eassumption | ].
  repeat split; congruence.
Qed.

(** The first selection fails, or the second one. *)
Lemma two_events_fail obj s t (k : value -> value -> M (option shape)) x :
  dict_get (vars s) x = Some obj ->
  value_of obj s = Ok (t, s) ->
  match event_0 t, event_1 t with
  | Ok _, Ok _ => True
  | Raise e, _ | Ok _, Raise e =>
      (v <- var x ;; method v "sel" ;;
       a <- sel v "time" "2023-11-03T12:23:35" "2023-11-03T12:24:00" ;;
       v <- var x ;; method v "sel" ;;
       b <- sel v "time" "2023-11-03T12:26:40" "2023-11-03T12:27:50" ;;
       k a b)%py s = Raise e
  end.
Proof.
  intros Hx Ht.
  pose proof (sel_run obj "2023-11-03T12:23:35" "2023-11-03T12:24:00" s t Ht) as R0.
  fold (event_0 t) in R0.
  destruct (event_0 t) as [e0|e].
  - destruct R0 as (a & s1 & Ha & Hba & V1 & F1).
    pose proof Hba as (X1 & _).
    pose proof (value_of_extends _ _ _ s1 Ht X1) as Ht1.
    pose proof (sel_run obj "2023-11-03T12:26:40" "2023-11-03T12:27:50" s1 t Ht1)
      as R1.
    fold (event_1 t) in R1.
    destruct (event_1 t) as [e1|e]; [ exact I | ].
    run (var_intro _ _ _ Hx). run (method_run _ "sel" _ _ Ht eq_refl). run Ha.
    assert (Hx1 : dict_get (vars s1) x = Some obj) by (rewrite V1; exact Hx).
    run (var_intro _ _ _ Hx1). run (method_run _ "sel" _ _ Ht1 eq_refl).
    unfold bind. rewrite R1. reflexivity.
  - assert (E : (v <- var x ;; method v "sel" ;;
       a <- sel v "time" "2023-11-03T12:23:35" "2023-11-03T12:24:00" ;;
       v <- var x ;; method v "sel" ;;
       b <- sel v "time" "2023-11-03T12:26:40" "2023-11-03T12:27:50" ;;
       k a b)%py s = Raise e).
    { run (var_intro _ _ _ Hx). run (method_run _ "sel" _ _ Ht eq_refl).
      unfold bind. rewrite R0. reflexivity. }
    destruct (event_1 t); exact E.
Qed.

(** ** Windows that keep samples *)

(** Within such a window a selection raises nothing, and an element
    reached by indexing lies within the window as the collection does. *)
Lemma within_event lo hi t : within lo hi t -> exists t', event lo hi t = Ok t'.
Proof.
  unfold within, event.
  destruct (parse_datetime lo) as [a|]; [ | contradiction ].
  destruct (parse_datetime hi) as [b|]; [ | contradiction ].
  intros Hk. destruct (sel_tree_keeps "time" a b t Hk) as (t' & Ht' & _). eauto.
Qed.

Lemma within_shrinks lo hi t t' :
  within lo hi t -> event lo hi t = Ok t' ->
  shrinks "time" (shape_of t) (shape_of t').
Proof.
  unfold within, event.
  destruct (parse_datetime lo) as [a|]; [ | contradiction ].
  destruct (parse_datetime hi) as [b|]; [ | contradiction ].
  intros Hk Ht'.
  destruct (sel_tree_keeps "time" a b t Hk) as (t'' & Ht'' & _ & _ & Hs).
  rewrite Ht'' in Ht'. injection Ht' as <-. exact Hs.
Qed.

Lemma within_subscripts lo hi keys t u :
  within lo hi t -> tree_subscripts t keys = Ok u -> within lo hi u.
Proof.
  unfold within.
  destruct (parse_datetime lo) as [a|]; [ | contradiction ].
  destruct (parse_datetime hi) as [b|]; [ | contradiction ].
  intros Hk Hu. apply (sel_tree_subscripts "time" a b keys t u Hk Hu).
Qed.

(** ** Values that do not depend on the rest of the store *)

Lemma height_In ts (t : tree) : In t ts -> (height t <= list_max (map height ts))%nat.
Proof.
  induction ts as [|t' ts IH]; simpl; [ tauto | ].
  intros [->|H]; [ lia | ]. specialize (IH H). lia.
Qed.

Lemma Forall2_In_l {X Y} (R : X -> Y -> Prop) xs ys x :
  Forall2 R xs ys -> In x xs -> exists y, In y ys /\ R x y.
Proof.
  induction 1 as [|x0 y0 xs ys Hr _ IH]; simpl; [ tauto | ].
  intros [<-|H]; [ eauto | ].
  destruct (IH H) as (y & Hy & Hxy). eauto.
Qed.

Lemma Forall2_strengthen {X Y} (R R' : X -> Y -> Prop) xs ys :
  Forall2 R xs ys ->
  (forall x y, In x xs -> In y ys -> R x y -> R' x y) ->
  Forall2 R' xs ys.
Proof.
  induction 1 as [|x y xs ys Hr _ IH]; intros H; constructor.
  - apply H; simpl; auto.
  - apply IH. intros x' y' Hx Hy. apply H; simpl; auto.
Qed.

(** An object that is a sequence of objects with values has a value, and
    so for a mapping. *)
Lemma stands_for_sequence h l n items ts :
  nth_error h l = Some (ODataSequence n items) ->
  Forall2 (fun t c => stands_for h c t) ts items ->
  stands_for h l (TSequence n ts).
Proof.
  intros Hl F [|fuel] Hf; simpl in Hf; [ lia | ].
  rewrite snapshot_unfold, Hl.
  rewrite (all_some_Forall2 _ ts items); [ reflexivity | ].
  eapply Forall2_strengthen; [ exact F | ].
  intros t c Ht _ Hs. apply Hs.
  pose proof (height_In _ _ Ht). lia.
Qed.

Lemma stands_for_mapping h l n (d : list (string * loc)) (ts : list (string * tree)) :
  nth_error h l = Some (ODataMapping n d) ->
  Forall2 (fun kt kv => fst kt = fst kv /\ stands_for h (snd kv) (snd kt)) ts d ->
  stands_for h l (TMapping n ts).
Proof.
  intros Hl F [|fuel] Hf; simpl in Hf; [ lia | ].
  rewrite snapshot_unfold, Hl.
  rewrite (all_some_Forall2 _ ts d); [ reflexivity | ].
  eapply Forall2_strengthen; [ exact F | ].
  intros [k t] [k' c] Ht _ (Hk & Hs). simpl in *. subst k'.
  rewrite Hs; [ reflexivity | ].
  pose proof (height_In (map snd ts) t
                ltac:(apply in_map_iff; exists (k, t); auto)) as Hh.
  rewrite map_map in Hh. lia.
Qed.

(** A value does not depend on the fuel it is read with. *)
Lemma snapshot_stands fuel :
  forall h l t, snapshot fuel h l = Some t ->
                (height t <= fuel)%nat /\ stands_for h l t.
Proof.
  induction fuel as [|fuel IH]; intros h l t H; [ discriminate | ].
  destruct t as [da|n ts|n ts].
  - pose proof (snapshot_array _ _ _ _ H) as Hl. split; [ simpl; lia | ].
    intros [|f] Hf; simpl in Hf; [ lia | ].
    rewrite snapshot_unfold, Hl. reflexivity.
  - apply snapshot_sequence in H.
    destruct H as (items & Hl & f & [= <-] & F).
    assert (F' : Forall2 (fun t c => (height t <= fuel)%nat /\ stands_for h c t)
                         ts items).
    { eapply Forall2_impl; [ | exact F ]. intros t c. apply IH. }
    split.
    + simpl. apply le_n_S. apply list_max_le.
      rewrite Forall_map. apply Forall_forall. intros t Ht.
      destruct (Forall2_In_l _ _ _ _ F' Ht) as (c & _ & Hc & _). exact Hc.
    + eapply stands_for_sequence; [ exact Hl | ].
      eapply Forall2_impl; [ | exact F' ]. intros t c [_ Hs]. exact Hs.
  - apply snapshot_mapping in H.
    destruct H as (d & Hl & f & [= <-] & F).
    assert (F' : Forall2 (fun (kt : string * tree) (kv : string * loc) =>
                            fst kt = fst kv
                            /\ (height (snd kt) <= fuel)%nat
                            /\ stands_for h (snd kv) (snd kt)) ts d).
    { eapply Forall2_impl; [ | exact F ]. intros kt kv [Hk Hs].
      split; [ exact Hk | apply IH; exact Hs ]. }
    split.
    + simpl. apply le_n_S. apply list_max_le.
      rewrite Forall_map. apply Forall_forall. intros kt Ht.
      destruct (Forall2_In_l _ _ _ _ F' Ht) as (c & _ & _ & Hc & _). exact Hc.
    + eapply stands_for_mapping; [ exact Hl | ].
      eapply Forall2_impl; [ | exact F' ]. intros kt kv (Hk & _ & Hs). auto.
Qed.

Lemma stands_for_extends h g l t :
  stands_for h l t -> extends h g -> stands_for g l t.
Proof.
  intros H X fuel Hf. eapply snapshot_preserved; [ exact X | apply H; exact Hf ].
Qed.

Lemma stands_for_value s l t :
  stands_for (heap s) l t -> (height t <= S (length (heap s)))%nat ->
  value_of (Ref l) s = Ok (t, s).
Proof.
  intros H Hh. eapply value_of_intro; [ apply H; reflexivity | exact Hh ].
Qed.

Lemma value_stands v s t :
  value_of v s = Ok (t, s) ->
  exists l, v = Ref l /\ stands_for (heap s) l t
            /\ (height t <= S (length (heap s)))%nat.
Proof.
  intros H. apply value_of_Ok in H. destruct H as (_ & l & -> & H).
  apply snapshot_stands in H. exists l. tauto.
Qed.

(** A value depends only on the objects it is made of: here, on a set of
    locations that holds the children of each of its members. *)
Lemma stands_for_local (P : loc -> Prop) h g :
  (forall i o, P i -> nth_error h i = Some o ->
               nth_error g i = Some o /\ Forall P (children o)) ->
  forall l t, P l -> stands_for h l t -> stands_for g l t.
Proof.
  intros HP l t Hl Hs fuel Hf. specialize (Hs fuel Hf). clear Hf.
  revert l t Hl Hs.
  induction fuel as [|fuel IH]; intros l t Hl Hs; [ discriminate | ].
  destruct t as [da|n ts|n ts].
  - apply snapshot_array in Hs. destruct (HP _ _ Hl Hs) as [Hg _].
    rewrite snapshot_unfold, Hg. reflexivity.
  - apply snapshot_sequence in Hs.
    destruct Hs as (items & Hh & f & [= <-] & F).
    destruct (HP _ _ Hl Hh) as [Hg Hc]. simpl in Hc.
    rewrite snapshot_unfold, Hg.
    rewrite (all_some_Forall2 _ ts items); [ reflexivity | ].
    eapply Forall2_strengthen; [ exact F | ].
    intros t c _ Hin Hs. apply IH; [ | exact Hs ].
    rewrite Forall_forall in Hc. apply Hc. exact Hin.
  - apply snapshot_mapping in Hs.
    destruct Hs as (d & Hh & f & [= <-] & F).
    destruct (HP _ _ Hl Hh) as [Hg Hc]. simpl in Hc.
    rewrite snapshot_unfold, Hg.
    rewrite (all_some_Forall2 _ ts d); [ reflexivity | ].
    eapply Forall2_strengthen; [ exact F | ].
    intros [k t] [k' c] _ Hin (Hk & Hs). simpl in *. subst k'.
    rewrite (IH c t); [ reflexivity | | exact Hs ].
    rewrite Forall_forall in Hc. apply Hc.
    apply in_map_iff. exists (k, c). auto.
Qed.

(** The same for a range of locations closed under children. *)
Lemma stands_for_range h g a b l t :
  closed h a b ->
  (forall i, (a <= i < b)%nat -> nth_error g i = nth_error h i) ->
  (a <= l < b)%nat ->
  stands_for h l t -> stands_for g l t.
Proof.
  intros Hc Hg Hl.
  apply (stands_for_local (fun i => (a <= i < b)%nat)); [ | exact Hl ].
  intros i o Hi Ho. split; [ rewrite Hg by exact Hi; exact Ho | ].
  eapply Forall_impl; [ | exact (Hc i o Hi Ho) ].
  intros c Hc'. simpl in Hc'. lia.
Qed.

Lemma closed_extends h e a b :
  closed h a b -> (b <= length h)%nat -> closed (h ++ e) a b.
Proof.
  intros Hc Hb i o Hi Ho. rewrite nth_error_app1 in Ho by lia.
  exact (Hc i o Hi Ho).
Qed.

Lemma closed_join h a m b :
  closed h a m -> closed h m b -> (a <= m)%nat -> closed h a b.
Proof.
  intros H1 H2 Hm i o Hi Ho.
  destruct (Nat.lt_ge_cases i m) as [L|L].
  - apply H1; [ lia | exact Ho ].
  - eapply Forall_impl; [ | apply (H2 i o); [ lia | exact Ho ] ].
    intros c Hc. simpl in Hc. lia.
Qed.

Lemma closed_narrow h a b b' :
  closed h a b -> (b' <= b)%nat -> closed h a b'.
Proof. intros H Hb i o Hi Ho. apply H; [ lia | exact Ho ]. Qed.

(** ** How [build] lays a value out *)

Lemma chain_bounds h : forall ls ts a b,
  chain h a ls ts b -> (a <= b)%nat /\ Forall (fun l => (a <= l < b)%nat) ls.
Proof.
  induction ls as [|l ls IH]; intros [|t ts] a b; simpl; try tauto.
  - intros ->. split; [ lia | constructor ].
  - intros (Ha & _ & _ & Hc). destruct (IH _ _ _ Hc) as [Hb F].
    split; [ lia | ]. constructor; [ lia | ].
    eapply Forall_impl; [ | exact F ]. intros c Hc'. simpl in Hc'. lia.
Qed.

Lemma chain_closed h : forall ls ts a b, chain h a ls ts b -> closed h a b.
Proof.
  induction ls as [|l ls IH]; intros [|t ts] a b; simpl; try tauto.
  - intros -> i o Hi. lia.
  - intros (Ha & Hc & _ & Hch).
    apply closed_join with (m := S l); [ exact Hc | | lia ].
    apply IH with (ts := ts). exact Hch.
Qed.

Lemma chain_stands h : forall ls ts a b,
  chain h a ls ts b -> Forall2 (fun t l => stands_for h l t) ts ls.
Proof.
  induction ls as [|l ls IH]; intros [|t ts] a b; simpl; try tauto.
  - constructor.
  - intros (_ & _ & Hs & Hch). constructor; [ exact Hs | eapply IH; exact Hch ].
Qed.

Lemma chain_NoDup h : forall ls ts a b, chain h a ls ts b -> NoDup ls.
Proof.
  induction ls as [|l ls IH]; intros [|t ts] a b; simpl; try tauto.
  - constructor.
  - intros (_ & _ & _ & Hch). constructor; [ | eapply IH; exact Hch ].
    intros Hin. destruct (chain_bounds _ _ _ _ _ Hch) as [_ F].
    rewrite Forall_forall in F. specialize (F _ Hin). lia.
Qed.

Lemma chain_extends h e : forall ls ts a b,
  chain h a ls ts b -> (b <= length h)%nat -> chain (h ++ e) a ls ts b.
Proof.
  induction ls as [|l ls IH]; intros [|t ts] a b; simpl; try tauto.
  intros (Ha & Hc & Hs & Hch) Hb.
  destruct (chain_bounds _ _ _ _ _ Hch) as [Hlb _].
  split; [ exact Ha | ].
  split; [ apply closed_extends; [ exact Hc | lia ] | ].
  split; [ eapply stands_for_extends; [ exact Hs | eexists; reflexivity ] | ].
  apply IH; assumption.
Qed.

Section Thread_layout.

Context {A B : Type}.
Variable f : A -> store -> B * store.
Variable tree_of : A -> tree.
Variable loc_of : B -> loc.

Lemma thread_layout items :
  Forall (fun x => forall h y h', f x h = (y, h') ->
                   extends h h' /\ S (loc_of y) = length h'
                   /\ (length h <= loc_of y)%nat
                   /\ closed h' (length h) (length h')
                   /\ stands_for h' (loc_of y) (tree_of x)) items ->
  forall h ys h', thread f items h = (ys, h') ->
    extends h h'
    /\ chain h' (length h) (map loc_of ys) (map tree_of items) (length h').
Proof.
  induction 1 as [|x items Hx _ IH]; intros h ys h'; simpl.
  - intros [= <- <-]. split; [ apply extends_refl | reflexivity ].
  - destruct (f x h) as [y h1] eqn:E1.
    destruct (thread f items h1) as [ys' h2] eqn:E2.
    intros [= <- <-].
    destruct (Hx _ _ _ E1) as (X1 & L1 & B1 & C1 & S1).
    destruct (IH _ _ _ E2) as (X2 & Ch).
    split; [ eapply extends_trans; eassumption | ].
    destruct X2 as [e ->]. simpl.
    split; [ exact B1 | ].
    split; [ rewrite L1; apply closed_extends; [ exact C1 | lia ] | ].
    split; [ eapply stands_for_extends; [ exact S1 | eexists; reflexivity ] | ].
    rewrite L1. exact Ch.
Qed.

End Thread_layout.

(** A closed range stays closed with one more object after it that
    refers into the range. *)
Lemma closed_root h a l o :
  closed h a l -> nth_error h l = Some o ->
  Forall (fun c => (a <= c < l)%nat) (children o) ->
  closed h a (S l).
Proof.
  intros Hc Hl Ho i o' Hi Hi'.
  destruct (Nat.eq_dec i l) as [->|Hne].
  - rewrite Hl in Hi'. injection Hi' as <-. exact Ho.
  - apply Hc; [ lia | exact Hi' ].
Qed.

(** The objects of a value built in a store follow one another; the root
    comes last, and no object refers to one outside. *)
Lemma build_layout :
  forall t h l h', build t h = (l, h') ->
                   S l = length h' /\ closed h' (length h) (length h').
Proof.
  induction t as [da|n items IH|n items IH] using tree_ind_nested;
    intros h l h'; simpl.
  - intros [= <- <-]. rewrite length_app. simpl. split; [ lia | ].
    rewrite Nat.add_1_r.
    apply closed_root with (o := ODataArray da).
    + intros i o Hi. lia.
    + rewrite nth_error_app2, Nat.sub_diag by lia. reflexivity.
    + constructor.
  - destruct (thread build items h) as [ls h1] eqn:E.
    intros [= <- <-]. rewrite length_app. simpl. split; [ lia | ].
    assert (Hall : Forall (fun x => forall h y h', build x h = (y, h') ->
                     extends h h' /\ S y = length h'
                     /\ (length h <= y)%nat
                     /\ closed h' (length h) (length h')
                     /\ stands_for h' y x) items).
    { eapply Forall_impl; [ | exact IH ]. intros t Ht h0 y h0' Hb.
      destruct (Ht _ _ _ Hb) as [L C].
      destruct (build_built _ _ _ _ Hb) as (X0 & B0 & _ & S0 & _).
      repeat split; auto; lia. }
    destruct (thread_layout build (fun t => t) (fun l => l) items Hall _ _ _ E)
      as (X & Ch).
    rewrite !map_id in Ch.
    rewrite Nat.add_1_r.
    apply closed_root with (o := ODataSequence n ls).
    + apply closed_extends; [ eapply chain_closed; exact Ch | lia ].
    + rewrite nth_error_app2, Nat.sub_diag by lia. reflexivity.
    + simpl. eapply chain_bounds; exact Ch.
  - destruct (thread (fun kv h0 => let '(l, h1) := build (snd kv) h0 in
                                   ((fst kv, l), h1)) items h)
      as [ls h1] eqn:E.
    intros [= <- <-]. rewrite length_app. simpl. split; [ lia | ].
    assert (Hall : Forall (fun x : string * tree => forall h y h',
                     (let '(l, h1) := build (snd x) h in ((fst x, l), h1))
                     = (y, h') ->
                     extends h h' /\ S (snd y) = length h'
                     /\ (length h <= snd y)%nat
                     /\ closed h' (length h) (length h')
                     /\ stands_for h' (snd y) (snd x)) items).
    { eapply Forall_impl; [ | exact IH ].
      intros [k t] Ht h0 [k' l'] h0'. simpl in *.
      destruct (build t h0) as [l1 h2] eqn:Hb. intros [= <- <- <-].
      destruct (Ht _ _ _ Hb) as [L C].
      destruct (build_built _ _ _ _ Hb) as (X0 & B0 & _ & S0 & _).
      repeat split; auto; lia. }
    destruct (thread_layout _ _ _ items Hall _ _ _ E) as (X & Ch).
    cbv beta in Ch.
    rewrite Nat.add_1_r.
    apply closed_root with (o := ODataMapping n ls).
    + apply closed_extends; [ eapply chain_closed; exact Ch | lia ].
    + rewrite nth_error_app2, Nat.sub_diag by lia. reflexivity.
    + simpl. eapply chain_bounds; exact Ch.
Qed.

(** The root of a mapping built in a store, and its entries one after the
    other. *)
Lemma build_mapping_layout n items h l h' :
  build (TMapping n items) h = (l, h') ->
  exists d, nth_error h' l = Some (ODataMapping n d)
            /\ map fst d = map fst items
            /\ chain h' (length h) (map snd d) (map snd items) l
            /\ S l = length h'.
Proof.
  simpl.
  destruct (thread (fun kv h0 => let '(l, h1) := build (snd kv) h0 in
                                 ((fst kv, l), h1)) items h)
    as [ls h1] eqn:E.
  intros [= <- <-]. exists ls.
  split; [ rewrite nth_error_app2, Nat.sub_diag by lia; reflexivity | ].
  assert (Hall : Forall (fun x => forall h y h', (fun (kv : string * tree) h0 => let '(l, h1) := build (snd kv) h0 in ((fst kv, l), h1)) x h = (y, h') ->
                   extends h h' /\ S (snd y) = length h'
                   /\ (length h <= snd y)%nat
                   /\ closed h' (length h) (length h')
                   /\ stands_for h' (snd y) (snd x)) items).
  { apply Forall_forall. intros [k t] _ h0 [k' l'] h0'. simpl.
    destruct (build t h0) as [l1 h2] eqn:Hb. intros [= <- <- <-].
    destruct (build_layout _ _ _ _ Hb) as [L C].
    destruct (build_built _ _ _ _ Hb) as (X0 & B0 & _ & S0 & _).
    repeat split; auto; lia. }
  destruct (thread_layout _ _ _ items Hall _ _ _ E) as (X & Ch).
  cbv beta in Ch.
  split.
  - clear - E. revert h ls h1 E.
    induction items as [|[k t] items IH]; intros h ls h1; simpl.
    + intros [= <- <-]. reflexivity.
    + destruct (build t h) as [l1 h2].
      destruct (thread _ items h2) as [ys h3] eqn:E2.
      intros [= <- <-]. simpl. rewrite (IH _ _ _ E2). reflexivity.
  - split; [ apply chain_extends; [ exact Ch | lia ] | ].
    rewrite length_app. simpl. lia.
Qed.

(** ** A value and its root object *)

Lemma made_of_stands h l o t :
  nth_error h l = Some o -> made_of h o t -> stands_for h l t.
Proof.
  destruct t as [da|n ts|n ts], o as [da'|n' cs|n' d]; simpl; try tauto.
  - intros Hl -> [|fuel] Hf; simpl in Hf; [ lia | ].
    rewrite snapshot_unfold, Hl. reflexivity.
  - intros Hl [-> F]. eapply stands_for_sequence; eassumption.
  - intros Hl [-> F]. eapply stands_for_mapping; eassumption.
Qed.

Lemma stands_made_of h l t :
  stands_for h l t -> exists o, nth_error h l = Some o /\ made_of h o t.
Proof.
  intros H. specialize (H (height t) (le_n _)).
  destruct t as [da|n ts|n ts].
  - apply snapshot_array in H. exists (ODataArray da). simpl. auto.
  - apply snapshot_sequence in H. destruct H as (cs & Hl & f & _ & F).
    exists (ODataSequence n cs). split; [ exact Hl | ]. simpl.
    split; [ reflexivity | ].
    eapply Forall2_impl; [ | exact F ]. intros t c Hs.
    apply (snapshot_stands _ _ _ _ Hs).
  - apply snapshot_mapping in H. destruct H as (d & Hl & f & _ & F).
    exists (ODataMapping n d). split; [ exact Hl | ]. simpl.
    split; [ reflexivity | ].
    eapply Forall2_impl; [ | exact F ]. intros kt kv [Hk Hs].
    split; [ exact Hk | apply (snapshot_stands _ _ _ _ Hs) ].
Qed.

(** An object that stands for a value has the methods the three classes
    share, also in a larger store. *)
Lemma method_stands h l t name s :
  stands_for h l t -> extends h (heap s) ->
  str_in name ["copy"; "sel"; "to_netcdf"] = true ->
  method (Ref l) name s = Ok (tt, s).
Proof.
  intros Hs X Hn. destruct (stands_made_of _ _ _ Hs) as (o & Ho & _).
  apply (method_intro s l o name); [ eapply extends_nth_error; eassumption | ].
  unfold has_method. rewrite Hn. reflexivity.
Qed.

Lemma made_of_impl h g o t :
  (forall c t', In c (children o) -> stands_for h c t' -> stands_for g c t') ->
  made_of h o t -> made_of g o t.
Proof.
  destruct t as [da|n ts|n ts], o as [da'|n' cs|n' d]; simpl; try tauto.
  - intros Hc [-> F]. split; [ reflexivity | ].
    eapply Forall2_strengthen; [ exact F | ]. intros t c _ Hin. apply Hc. exact Hin.
  - intros Hc [-> F]. split; [ reflexivity | ].
    eapply Forall2_strengthen; [ exact F | ].
    intros [k t] [k' c] _ Hin [Hk Hs]. split; [ exact Hk | ].
    apply Hc; [ | exact Hs ]. apply in_map_iff. exists (k', c). auto.
Qed.

Lemma made_of_extends h g o t : made_of h o t -> extends h g -> made_of g o t.
Proof.
  intros H X. eapply made_of_impl; [ | exact H ].
  intros c t' _ Hs. eapply stands_for_extends; eassumption.
Qed.

Lemma made_of_range h g a b o t :
  closed h a b ->
  (forall i, (a <= i < b)%nat -> nth_error g i = nth_error h i) ->
  Forall (fun c => (a <= c < b)%nat) (children o) ->
  made_of h o t -> made_of g o t.
Proof.
  intros Hc Hg Ho. apply made_of_impl.
  intros c t' Hin. rewrite Forall_forall in Ho.
  apply (stands_for_range h g a b); auto.
Qed.

Lemma allocate_build t s :
  exists l s', allocate t s = Ok (Ref l, s')
               /\ build t (heap s) = (l, heap s')
               /\ vars s' = vars s /\ files s' = files s.
Proof.
  unfold allocate, bind, get_heap, set_heap, ret.
  destruct (build t (heap s)) as [l h'] eqn:E. simpl.
  eexists. eexists. split; [ reflexivity | ]. simpl. auto.
Qed.

(** A copy, deep or not, of an object that had its value in an earlier
    store [h0]: the copy is a new object, made of objects that have their
    values in every store that keeps [h0] and the new objects below the
    copy. *)
Lemma copy_run w deep s h0 lobj t :
  stands_for h0 lobj t -> extends h0 (heap s) ->
  (height t <= S (length (heap s)))%nat ->
  exists l s' o,
    copy w (Ref lobj) deep s = Ok (Ref l, s')
    /\ extends (heap s) (heap s')
    /\ (length (heap s) <= l)%nat /\ S l = length (heap s')
    /\ vars s' = vars s /\ files s' = files s
    /\ nth_error (heap s') l = Some o
    /\ forall g, extends h0 g ->
                 (forall i, (length (heap s) <= i < l)%nat ->
                            nth_error g i = nth_error (heap s') i) ->
                 made_of g o t.
Proof.
  intros Hs X Hh. unfold copy.
  destruct (match deep with Some b => b | None => copy_deep_default w end).
  - assert (Hv : value_of (Ref lobj) s = Ok (t, s)).
    { apply stands_for_value; [ | exact Hh ].
      eapply stands_for_extends; eassumption. }
    rewrite (bind_step _ _ _ _ _ Hv).
    destruct (allocate_build t s) as (l & s' & Ha & Hb & V & F).
    destruct (build_layout _ _ _ _ Hb) as [L C].
    destruct (build_built _ _ _ _ Hb) as (X' & B' & _ & S' & _).
    destruct (stands_made_of _ _ _ S') as (o & Ho & Hm).
    exists l, s', o. repeat split; auto; try lia.
    intros g _ Hg. rewrite <- L in C.
    apply (made_of_range (heap s') g (length (heap s)) l).
    + eapply closed_narrow; [ exact C | lia ].
    + exact Hg.
    + apply (C l o); [ lia | exact Ho ].
    + exact Hm.
  - destruct (stands_made_of _ _ _ Hs) as (o & Ho & Hm).
    pose proof (extends_nth_error _ _ _ _ X Ho) as Ho'.
    rewrite (bind_step _ _ _ _ _ (deref_intro _ _ _ Ho')). cbn [snd].
    exists (length (heap s)). eexists. exists o.
    split; [ reflexivity | ]. simpl. rewrite length_app. simpl.
    split; [ eexists; reflexivity | ].
    split; [ lia | ]. split; [ lia | ]. split; [ reflexivity | ].
    split; [ reflexivity | ].
    split; [ rewrite nth_error_app2, Nat.sub_diag by lia; reflexivity | ].
    intros g Xg _. eapply made_of_extends; eassumption.
Qed.

(** ** In-place changes, run forward *)

Lemma setitem_run s l n d k lx :
  nth_error (heap s) l = Some (ODataMapping n d) ->
  setitem (Ref l) (Str k) (Ref lx) s
  = Ok (tt, {| heap := put l (ODataMapping n (dict_set d k lx)) (heap s);
               vars := vars s; files := files s |}).
Proof.
  intros H. unfold setitem. rewrite (bind_step _ _ _ _ _ (deref_intro _ _ _ H)).
  reflexivity.
Qed.

Lemma append_run s l n items lx :
  nth_error (heap s) l = Some (ODataSequence n items) ->
  append (Ref l) (Ref lx) s
  = Ok (tt, {| heap := put l (ODataSequence n (items ++ [lx])) (heap s);
               vars := vars s; files := files s |}).
Proof.
  intros H. unfold append. rewrite (bind_step _ _ _ _ _ (deref_intro _ _ _ H)).
  reflexivity.
Qed.

Lemma update_run s l n d k lx :
  nth_error (heap s) l = Some (ODataMapping n d) ->
  update (Ref l) [(k, Ref lx)] s
  = Ok (tt, {| heap := put l (ODataMapping n (dict_set d k lx)) (heap s);
               vars := vars s; files := files s |}).
Proof.
  intros H. unfold update. rewrite (bind_step _ _ _ _ _ (deref_intro _ _ _ H)).
  reflexivity.
Qed.

(** ** Entries kept and entries replaced *)

Lemma chain_kept h g x : forall ls ts a b,
  chain h a ls ts b ->
  (x < a)%nat \/ In x ls \/ (b <= x)%nat ->
  (forall i, (a <= i < b)%nat -> i <> x -> nth_error g i = nth_error h i) ->
  Forall2 (fun t l => l = x \/ stands_for g l t) ts ls.
Proof.
  induction ls as [|l ls IH]; intros [|t ts] a b; simpl; try tauto.
  - constructor.
  - intros (Ha & Hc & Hs & Hch) Hx Hg.
    destruct (chain_bounds _ _ _ _ _ Hch) as [Hb Fb].
    constructor.
    + destruct (Nat.eq_dec l x) as [E|Hne]; [ left; exact E | right ].
      assert (Hout : (x < a \/ l < x)%nat).
      { destruct Hx as [Hx|[[Hx|Hx]|Hx]].
        - lia.
        - congruence.
        - rewrite Forall_forall in Fb. specialize (Fb _ Hx). lia.
        - lia. }
      apply (stands_for_range h g a (S l)).
      * exact Hc.
      * intros i Hi. apply Hg; lia.
      * lia.
      * exact Hs.
    + apply (IH ts (S l) b); [ exact Hch | | ].
      * destruct Hx as [Hx|[[Hx|Hx]|Hx]].
        -- left. lia.
        -- left. lia.
        -- right. left. exact Hx.
        -- right. right. exact Hx.
      * intros i Hi. apply Hg. lia.
Qed.

Lemma Forall2_entries {V W} (R : V -> W -> Prop)
      (ts : list (string * V)) (d : list (string * W)) :
  map fst d = map fst ts ->
  Forall2 R (map snd ts) (map snd d) ->
  Forall2 (fun kt kv => fst kt = fst kv /\ R (snd kt) (snd kv)) ts d.
Proof.
  revert d. induction ts as [|[k t] ts IH]; intros [|[k' c] d]; simpl;
    try discriminate.
  - constructor.
  - intros [= -> Hk] F. inversion F; subst. constructor; auto.
Qed.

Lemma Forall2_dict_set {V W} (R : V -> W -> Prop)
      (ts : list (string * V)) (d : list (string * W)) k v l :
  Forall2 (fun kt kv => fst kt = fst kv /\ R (snd kt) (snd kv)) ts d ->
  R v l ->
  Forall2 (fun kt kv => fst kt = fst kv /\ R (snd kt) (snd kv))
          (dict_set ts k v) (dict_set d k l).
Proof.
  intros F Hr. induction F as [|[k1 t] [k2 c] ts d (Hk & Ht) F IH]; simpl.
  - constructor; [ auto | constructor ].
  - simpl in Hk. subst k2. destruct (String.eqb k1 k).
    + constructor; [ auto | exact F ].
    + constructor; [ auto | exact IH ].
Qed.

(** Replacing the value of the first entry under a key, when the entries
    are all different objects. *)
Lemma Forall2_dict_set_first {V} (R : V -> loc -> Prop)
      (ts : list (string * V)) (d : list (string * loc)) k x v :
  Forall2 (fun kt kv => fst kt = fst kv /\ (snd kv = x \/ R (snd kt) (snd kv)))
          ts d ->
  dict_get d k = Some x -> NoDup (map snd d) -> R v x ->
  Forall2 (fun kt kv => fst kt = fst kv /\ R (snd kt) (snd kv))
          (dict_set ts k v) d.
Proof.
  intros F. induction F as [|[k1 t] [k2 c] ts d (Hk & Ht) F IH]; simpl.
  - discriminate.
  - simpl in Hk. subst k2. intros Hget Hnd Hr.
    inversion Hnd as [|? ? Hnot Hnd']; subst.
    destruct (String.eqb k1 k) eqn:E.
    + injection Hget as ->. apply String.eqb_eq in E. subst k1.
      constructor; [ auto | ].
      eapply Forall2_strengthen; [ exact F | ].
      intros [k' t'] [k'' c'] _ Hin (Hk' & [Hx|Hr']); simpl in *.
      * exfalso. apply Hnot. subst. apply in_map_iff. exists (k'', x). auto.
      * auto.
    + constructor.
      * split; [ reflexivity | ]. destruct Ht as [Hx|Ht]; [ | exact Ht ].
        exfalso. apply Hnot. simpl in Hx. subst c.
        eapply dict_get_In. exact Hget.
      * apply IH; assumption.
Qed.

(** ** Heights *)

Lemma height_dict_get (d : list (string * tree)) k v :
  dict_get d k = Some v ->
  (height v <= list_max (map (fun kv => height (snd kv)) d))%nat.
Proof.
  induction d as [|[k' t] d IH]; simpl; [ discriminate | ].
  destruct (String.eqb k' k); [ intros [= ->]; lia | ].
  intros H. specialize (IH H). lia.
Qed.

Lemma height_dict_set (d : list (string * tree)) k v :
  (list_max (map (fun kv => height (snd kv)) (dict_set d k v))
   <= Nat.max (list_max (map (fun kv => height (snd kv)) d)) (height v))%nat.
Proof.
  induction d as [|[k' t] d IH]; simpl; [ lia | ].
  destruct (String.eqb k' k); simpl; lia.
Qed.

(** ** Cell 4, step by step *)

(** Indexing the value of an object, in a later and larger store. *)
Lemma subscripts_later keys obj s t s' :
  value_of obj s = Ok (t, s) -> extends (heap s) (heap s') ->
  match tree_subscripts t keys with
  | Ok t' => exists c, subscripts obj keys s' = Ok (Ref c, s')
                       /\ stands_for (heap s) c t'
                       /\ (height t' <= S (length (heap s)))%nat
  | Raise e => subscripts obj keys s' = Raise e
  end.
Proof.
  intros Hv X.
  pose proof (value_of_extends _ _ _ s' Hv X) as Hv'.
  pose proof (subscripts_value keys _ _ _ Hv) as H.
  pose proof (subscripts_value keys _ _ _ Hv') as H'.
  destruct (tree_subscripts t keys) as [t'|e]; [ | exact H' ].
  destruct H as (r & Hr & Hrv).
  apply value_stands in Hrv. destruct Hrv as (c & -> & Hs & Hh).
  exists c. split; [ | auto ].
  eapply subscripts_extends; eassumption.
Qed.

Lemma deep_copy_build w obj s t :
  value_of obj s = Ok (t, s) ->
  exists l s', copy w obj (Some true) s = Ok (Ref l, s')
               /\ build t (heap s) = (l, heap s')
               /\ vars s' = vars s /\ files s' = files s.
Proof.
  intros H. unfold copy. rewrite (bind_step _ _ _ _ _ H). apply allocate_build.
Qed.

(** Name the state the next operation runs in. *)
Ltac name_state s :=
  match goal with
  | |- context [bind _ _ {| heap := ?h; vars := ?v; files := ?f |}] =>
      set (s := {| heap := h; vars := v; files := f |}) in *
  end.

(** The first two statements of cell 4 and the left-hand side of the
    third: the deep copy [dc_set], and the copy of [dc["CCN"]["N"]] entered
    under [S]. *)
Lemma exec_4_prefix w s l n nodes nc cables tn :
  dict_get (vars s) "dc" = Some (Ref l) ->
  value_of (Ref l) s = Ok (TMapping n nodes, s) ->
  dict_get nodes "CCN" = Some (TMapping nc cables) ->
  dict_get cables "N" = Some tn ->
  exists s4 h1 l1 d1 x dx lc oc,
    exec_4 w s
    = (method (Ref lc) "append" ;;
       v <- subscript "dc" [Str "CCN"; Str "N"; Int 0] ;; method v "copy" ;;
       c <- copy w v None ;;
       append (Ref lc) c ;;
       t <- var "dc_set" ;; method t "update" ;;
       v <- subscript "dc" [Str "CCN"] ;; method v "copy" ;; c <- copy w v None ;;
       update t [("CAL", c)] ;;
       v <- var "dc_set" ;; display v)%py s4
    /\ (extends (heap s) h1 /\ S l1 = length h1
        /\ (length (heap s) <= x < l1)%nat)
    /\ (nth_error h1 l1 = Some (ODataMapping n d1)
        /\ map fst d1 = map fst nodes
        /\ chain h1 (length (heap s)) (map snd d1) (map snd nodes) l1
        /\ dict_get d1 "CCN" = Some x)
    /\ (nth_error h1 x = Some (ODataMapping nc dx)
        /\ Forall2 (fun (kt : string * tree) (kv : string * loc) =>
                      fst kt = fst kv /\ stands_for h1 (snd kv) (snd kt))
                   cables dx)
    /\ ((length h1 <= lc)%nat /\ S lc = length (heap s4)
        /\ nth_error (heap s4) lc = Some oc)
    /\ (forall i, (i < length h1)%nat -> i <> x ->
                  nth_error (heap s4) i = nth_error h1 i)
    /\ nth_error (heap s4) x = Some (ODataMapping nc (dict_set dx "S" lc))
    /\ (forall g, extends (heap s) g ->
                  (forall i, (length h1 <= i < lc)%nat ->
                             nth_error g i = nth_error (heap s4) i) ->
                  made_of g oc tn)
    /\ extends (heap s) (heap s4)
    /\ vars s4 = dict_set (vars s) "dc_set" (Ref l1) /\ files s4 = files s.
Proof.
  intros Hdc Hv Hccn Hn.
  (* dc_set = dc.copy(deep=True) *)
  destruct (deep_copy_build w _ _ _ Hv) as (l1 & s1 & Hc1 & Hb & V1 & F1).
  destruct (build_mapping_layout _ _ _ _ _ Hb) as (d1 & O1 & K1 & Ch & L1).
  destruct (build_built _ _ _ _ Hb) as (X1 & _).
  pose proof (Forall2_entries (fun t c => stands_for (heap s1) c t) nodes d1 K1
                (chain_stands _ _ _ _ _ Ch)) as Fn.
  pose proof (dict_get_Forall2 (fun t c => stands_for (heap s1) c t) _ _ "CCN" Fn)
    as Hx.
  rewrite Hccn in Hx. destruct (dict_get d1 "CCN") as [x|] eqn:Ex; [ | contradiction ].
  destruct (stands_made_of _ _ _ Hx) as (ox & Ox & Mx).
  destruct ox as [?|? ?|nc' dx]; simpl in Mx; try contradiction.
  destruct Mx as [-> Fx].
  destruct (chain_bounds _ _ _ _ _ Ch) as [_ Bd].
  assert (Bx : (length (heap s) <= x < l1)%nat).
  { rewrite Forall_forall in Bd. apply Bd. eapply dict_get_In. exact Ex. }
  (* the value of dc["CCN"]["N"] *)
  assert (Et : tree_subscripts (TMapping n nodes) [Str "CCN"; Str "N"] = Ok tn)
    by (simpl; rewrite Hccn; simpl; rewrite Hn; reflexivity).
  pose proof (subscripts_later [Str "CCN"; Str "N"] _ _ _ s1 Hv X1) as Q2.
  rewrite Et in Q2. destruct Q2 as (q & Hq & Sq & Hhq).
  unfold exec_4. run (var_intro _ _ _ Hdc).
  run (method_run _ "copy" _ _ Hv eq_refl). run Hc1.
  run (assign_run "dc_set" (Ref l1) s1). name_state s2.
  assert (Hdc2 : dict_get (vars s2) "dc" = Some (Ref l)).
  { simpl. rewrite dict_get_set_ne by discriminate. rewrite V1. exact Hdc. }
  assert (Hset2 : dict_get (vars s2) "dc_set" = Some (Ref l1))
    by apply dict_get_set_eq.
  (* dc_set["CCN"]["S"] = dc["CCN"]["N"].copy() *)
  run (subscript_intro "dc" _ s2 _ _ Hdc2 (subscripts_extends _ _ s1 s2 _ Hq
                                             (extends_refl _))).
  run (method_stands (heap s) q tn "copy" s2 Sq X1 eq_refl).
  destruct (copy_run w None s2 (heap s) q tn Sq X1
              ltac:(pose proof (extends_length _ _ X1); simpl; lia))
    as (lc & s3 & oc & Hc3 & X3 & Blc & Llc & V3 & F3 & Oc & Mc).
  run Hc3.
  assert (O13 : nth_error (heap s3) l1 = Some (ODataMapping n d1))
    by (eapply extends_nth_error; [ exact X3 | exact O1 ]).
  assert (Ox3 : nth_error (heap s3) x = Some (ODataMapping nc dx))
    by (eapply extends_nth_error; [ exact X3 | exact Ox ]).
  assert (Hsub3 : subscript "dc_set" [Str "CCN"] s3 = Ok (Ref x, s3)).
  { apply subscript_intro with (v := Ref l1); [ rewrite V3; exact Hset2 | ].
    simpl. run (getitem_Str_intro _ _ _ _ _ _ O13 Ex). reflexivity. }
  run Hsub3.
  run (setitem_run s3 x nc dx "S" lc Ox3). name_state s4.
  assert (Hh4 : heap s4 = put x (ODataMapping nc (dict_set dx "S" lc)) (heap s3))
    by reflexivity.
  assert (V4 : vars s4 = dict_set (vars s) "dc_set" (Ref l1))
    by (simpl; rewrite V3; simpl; rewrite V1; reflexivity).
  assert (F4 : files s4 = files s)
    by (simpl; rewrite F3; simpl; exact F1).
  clearbody s4.
  pose proof (extends_length _ _ X3) as Len3. simpl heap in *.
  assert (O14 : nth_error (heap s4) l1 = Some (ODataMapping n d1))
    by (rewrite Hh4, nth_error_put_ne by lia; exact O13).
  assert (Ox4 : nth_error (heap s4) x = Some (ODataMapping nc (dict_set dx "S" lc)))
    by (rewrite Hh4; apply nth_error_put_eq; lia).
  (* dc_set["CCN"]["S"] *)
  assert (Hsub4 : subscript "dc_set" [Str "CCN"; Str "S"] s4 = Ok (Ref lc, s4)).
  { apply subscript_intro with (v := Ref l1).
    - rewrite V4. apply dict_get_set_eq.
    - simpl. run (getitem_Str_intro _ _ _ _ _ _ O14 Ex).
      run (getitem_Str_intro _ _ _ _ _ _ Ox4 (dict_get_set_eq dx "S" lc)).
      reflexivity. }
  run Hsub4.
  exists s4, (heap s1), l1, d1, x, dx, lc, oc.
  split; [ reflexivity | ].
  split; [ auto | ]. split; [ auto | ]. split; [ auto | ].
  split.
  { split; [ lia | ]. split; [ rewrite Hh4, put_length; exact Llc | ].
    rewrite Hh4, nth_error_put_ne by lia. exact Oc. }
  split.
  { intros i Hi Hne. rewrite Hh4, nth_error_put_ne by congruence.
    destruct X3 as [e ->]. apply nth_error_app1. exact Hi. }
  split; [ exact Ox4 | ].
  split.
  { intros g Xg Hg. apply Mc; [ exact Xg | ].
    intros i Hi. rewrite Hg by exact Hi.
    rewrite Hh4. apply nth_error_put_ne. lia. }
  split; [ | auto ].
  rewrite Hh4. apply extends_put; [ | lia ].
  eapply extends_trans; eassumption.
Qed.

Lemma after_cell_4_height t t4 :
  after_cell_4 t = Ok t4 -> (height t4 <= height t)%nat.
Proof.
  unfold after_cell_4.
  destruct t as [?|? ?|n nodes]; try discriminate.
  destruct (dict_get nodes "CCN") as [[?|? ?|nc cables]|] eqn:Hccn; try discriminate.
  destruct (dict_get cables "N") as [[?|na [|first rest]|? ?]|] eqn:Hn;
    try discriminate.
  intros [= <-].
  set (acqs := first :: rest) in *.
  pose proof (height_dict_get _ _ _ Hccn) as H1.
  pose proof (height_dict_get _ _ _ Hn) as H2.
  assert (H3 : (height first <= list_max (map height acqs))%nat)
    by (apply height_In; left; reflexivity).
  pose proof (height_dict_set
                (dict_set nodes "CCN"
                   (TMapping nc (dict_set cables "S" (TSequence na (acqs ++ [first])))))
                "CAL" (TMapping nc cables)) as H4.
  pose proof (height_dict_set nodes "CCN"
                (TMapping nc (dict_set cables "S" (TSequence na (acqs ++ [first])))))
    as H5.
  pose proof (height_dict_set cables "S" (TSequence na (acqs ++ [first]))) as H6.
  cbn [height] in *. rewrite map_app, list_max_app in *. simpl in *. lia.
Qed.

(** Cell 4 on a mapping of mappings: what it displays, and what it
    leaves. *)
Lemma exec_4_runs w s l t :
  dict_get (vars s) "dc" = Some (Ref l) ->
  value_of (Ref l) s = Ok (t, s) ->
  tree_of_mappings t ->
  match after_cell_4 t with
  | Ok t4 =>
      exists l1 s',
        exec_4 w s = Ok (Some (shape_of t4), s')
        /\ vars s' = dict_set (vars s) "dc_set" (Ref l1)
        /\ files s' = files s
        /\ extends (heap s) (heap s')
        /\ value_of (Ref l1) s' = Ok (t4, s')
  | Raise e => exec_4 w s = Raise e
  end.
Proof.
  intros Hdc Hv Hshape.
  pose proof (value_stands _ _ _ Hv) as (l0 & [= <-] & S0 & Hh0).
  (* where dc["CCN"]["N"] fails, the second statement fails *)
  assert (Fail2 : forall e,
             tree_subscripts t [Str "CCN"; Str "N"] = Raise e ->
             exec_4 w s = Raise e).
  { intros e He.
    destruct (deep_copy_build w _ _ _ Hv) as (l1 & s1 & Hc1 & Hb & V1 & F1).
    destruct (build_built _ _ _ _ Hb) as (X1 & _).
    unfold exec_4. run (var_intro _ _ _ Hdc).
    run (method_run _ "copy" _ _ Hv eq_refl). run Hc1.
    run (assign_run "dc_set" (Ref l1) s1). name_state s2.
    apply bind_fail. apply subscript_fails with (v := Ref l).
    - simpl. rewrite dict_get_set_ne by discriminate. rewrite V1. exact Hdc.
    - pose proof (subscripts_later [Str "CCN"; Str "N"] _ _ _ s2 Hv X1) as Q.
      rewrite He in Q. exact Q. }
  unfold after_cell_4.
  destruct t as [da|ns ts|n nodes]; try contradiction.
  simpl in Hshape.
  destruct (dict_get nodes "CCN") as [tccn|] eqn:Hccn;
    [ | apply Fail2; simpl; rewrite Hccn; reflexivity ].
  assert (Hm : is_mapping tccn).
  { rewrite Forall_forall in Hshape.
    apply (Hshape ("CCN", tccn)). eapply dict_get_In_pair. exact Hccn. }
  destruct tccn as [da|ns ts|nc cables]; try contradiction. clear Hm.
  destruct (dict_get cables "N") as [tn|] eqn:Hn;
    [ | apply Fail2; simpl; rewrite Hccn; simpl; rewrite Hn; reflexivity ].
  clear Fail2.
  destruct (exec_4_prefix w s l n nodes nc cables tn Hdc Hv Hccn Hn)
    as (s4 & h1 & l1 & d1 & x & dx & lc & oc & Hrun
        & (X1 & L1 & Bx) & (O1 & K1 & Ch & Ex) & (Ox & Fx)
        & (Blc & Llc & Oc) & A1 & Ox4 & Mc & X4 & V4 & F4).
  rewrite Hrun. clear Hrun.
  pose proof (extends_length _ _ X1) as Len1.
  assert (Hdc4 : dict_get (vars s4) "dc" = Some (Ref l))
    by (rewrite V4, dict_get_set_ne by discriminate; exact Hdc).
  assert (Hset4 : dict_get (vars s4) "dc_set" = Some (Ref l1))
    by (rewrite V4; apply dict_get_set_eq).
  (* .append is looked up before its argument is evaluated *)
  pose proof (Mc (heap s4) X4 (fun i _ => eq_refl)) as Moc.
  destruct tn as [da|na acqs|nm ms].
  { destruct oc as [?|? ?|? ?]; simpl in Moc; try contradiction.
    apply bind_fail. eapply method_missing; [ exact Oc | reflexivity ]. }
  2: { destruct oc as [?|? ?|? ?]; simpl in Moc; try contradiction.
       apply bind_fail. eapply method_missing; [ exact Oc | reflexivity ]. }
  destruct oc as [?|na' cs|? ?]; simpl in Moc; try contradiction.
  destruct Moc as [-> _].
  run (method_intro s4 lc _ "append" Oc eq_refl).
  (* dc["CCN"]["N"][0] *)
  pose proof (subscripts_later [Str "CCN"; Str "N"; Int 0] _ _ _ s4 Hv X4) as Q3.
  assert (Et : tree_subscripts (TMapping n nodes) [Str "CCN"; Str "N"; Int 0]
               = tree_getitem (TSequence na acqs) (Int 0)).
  { simpl. rewrite Hccn. simpl. rewrite Hn. simpl.
    destruct (position (length acqs) 0) as [i|];
      [ destruct (nth_error acqs i) | ]; reflexivity. }
  rewrite Et in Q3. clear Et.
  destruct acqs as [|first rest].
  { apply bind_fail. apply subscript_fails with (v := Ref l); assumption. }
  set (acqs := first :: rest) in *.
  change (tree_getitem (TSequence na acqs) (Int 0)) with (Ok first) in Q3.
  destruct Q3 as (q0 & Hq0 & Sq0 & Hhq0).
  run (subscript_intro "dc" _ s4 _ _ Hdc4 Hq0).
  run (method_stands (heap s) q0 first "copy" s4 Sq0 X4 eq_refl).
  destruct (copy_run w None s4 (heap s) q0 first Sq0 X4
              ltac:(pose proof (extends_length _ _ X4); lia))
    as (lc3 & s5 & o3 & Hc5 & X5 & Blc3 & Llc3 & V5 & F5 & O3 & M3).
  run Hc5.
  (* .append *)
  assert (Oc5 : nth_error (heap s5) lc = Some (ODataSequence na cs))
    by (eapply extends_nth_error; [ exact X5 | exact Oc ]).
  run (append_run s5 lc na cs lc3 Oc5). name_state s6.
  assert (Hh6 : heap s6 = put lc (ODataSequence na (cs ++ [lc3])) (heap s5))
    by reflexivity.
  assert (V6 : vars s6 = vars s4) by exact V5.
  assert (F6 : files s6 = files s4) by exact F5.
  clearbody s6.
  assert (X6 : extends (heap s) (heap s6)).
  { rewrite Hh6. apply extends_put; [ | lia ].
    eapply extends_trans; eassumption. }
  (* dc_set.update({"CAL": dc["CCN"].copy()}) *)
  assert (Hset6 : dict_get (vars s6) "dc_set" = Some (Ref l1))
    by (rewrite V6; exact Hset4).
  run (var_intro _ _ _ Hset6).
  pose proof (extends_length _ _ X5) as Len5.
  assert (O16 : nth_error (heap s6) l1 = Some (ODataMapping n d1)).
  { rewrite Hh6, nth_error_put_ne by lia.
    eapply extends_nth_error; [ exact X5 | ].
    rewrite A1 by lia. exact O1. }
  run (method_intro s6 l1 _ "update" O16 eq_refl).
  pose proof (subscripts_later [Str "CCN"] _ _ _ s6 Hv X6) as Q4.
  simpl tree_subscripts in Q4. rewrite Hccn in Q4.
  destruct Q4 as (p & Hp & Sp & Hhp).
  run (subscript_intro "dc" _ s6 _ _ ltac:(rewrite V6; exact Hdc4) Hp).
  run (method_stands (heap s) p _ "copy" s6 Sp X6 eq_refl).
  destruct (copy_run w None s6 (heap s) p (TMapping nc cables) Sp X6
              ltac:(pose proof (extends_length _ _ X6); lia))
    as (lc4 & s7 & o4 & Hc7 & X7 & Blc4 & Llc4 & V7 & F7 & O4 & M4).
  run Hc7.
  pose proof (extends_length _ _ X7) as Len7.
  assert (Len6 : length (heap s6) = length (heap s5))
    by (rewrite Hh6; apply put_length).
  assert (O17 : nth_error (heap s7) l1 = Some (ODataMapping n d1))
    by (eapply extends_nth_error; [ exact X7 | exact O16 ]).
  run (update_run s7 l1 n d1 "CAL" lc4 O17). name_state s8.
  assert (Hh8 : heap s8 = put l1 (ODataMapping n (dict_set d1 "CAL" lc4)) (heap s7))
    by reflexivity.
  assert (V8 : vars s8 = vars s4) by (simpl; rewrite V7; exact V6).
  assert (F8 : files s8 = files s)
    by (simpl; rewrite F7, F6; exact F4).
  clearbody s8.
  assert (Len8 : length (heap s8) = length (heap s7))
    by (rewrite Hh8; apply put_length).
  assert (X8 : extends (heap s) (heap s8)).
  { rewrite Hh8. apply extends_put; [ | lia ].
    eapply extends_trans; eassumption. }
  (* how the last store relates to the earlier ones *)
  assert (At5 : forall i, (i < length (heap s5))%nat -> i <> lc -> i <> l1 ->
                          nth_error (heap s8) i = nth_error (heap s5) i).
  { intros i Hi H1 H2. rewrite Hh8, nth_error_put_ne by congruence.
    destruct X7 as [e7 E7]. rewrite E7, nth_error_app1 by lia.
    rewrite Hh6. apply nth_error_put_ne. congruence. }
  assert (At4 : forall i, (i < length (heap s4))%nat -> i <> lc -> i <> l1 ->
                          nth_error (heap s8) i = nth_error (heap s4) i).
  { intros i Hi H1 H2. rewrite At5 by (auto; lia).
    destruct X5 as [e5 E5]. rewrite E5. apply nth_error_app1. exact Hi. }
  assert (At1 : forall i, (i < l1)%nat -> i <> x ->
                          nth_error (heap s8) i = nth_error h1 i).
  { intros i Hi H1. rewrite At4 by lia. apply A1; [ lia | exact H1 ]. }
  (* the value of dc_set *)
  set (south := TSequence na (acqs ++ [first])).
  set (ccn := TMapping nc (dict_set cables "S" south)).
  set (t4 := TMapping n (dict_set (dict_set nodes "CCN" ccn) "CAL"
                           (TMapping nc cables))).
  assert (Hfirst : stands_for (heap s8) lc3 first).
  { apply made_of_stands with (o := o3).
    - rewrite At5 by lia. exact O3.
    - apply M3; [ exact X8 | ]. intros i Hi. apply At5; lia. }
  assert (Hsouth : stands_for (heap s8) lc south).
  { apply stands_for_sequence with (items := cs ++ [lc3]).
    - rewrite Hh8, nth_error_put_ne by lia.
      eapply extends_nth_error; [ exact X7 | ].
      rewrite Hh6. apply nth_error_put_eq. lia.
    - apply Forall2_app; [ | constructor; [ exact Hfirst | constructor ] ].
      assert (Mc8 : made_of (heap s8) (ODataSequence na cs) (TSequence na acqs)).
      { apply Mc; [ exact X8 | ]. intros i Hi. apply At4; lia. }
      simpl in Mc8. apply Mc8. }
  assert (Hccn8 : stands_for (heap s8) x ccn).
  { apply stands_for_mapping with (d := dict_set dx "S" lc).
    - rewrite At4 by lia. exact Ox4.
    - apply (Forall2_dict_set (fun t c => stands_for (heap s8) c t));
        [ | exact Hsouth ].
      assert (Cx : Forall (fun c => (length (heap s) <= c < x)%nat) (map snd dx)).
      { apply (chain_closed _ _ _ _ _ Ch x (ODataMapping nc dx)); [ lia | exact Ox ]. }
      eapply Forall2_strengthen; [ exact Fx | ].
      intros [k t'] [k' c] _ Hin [Hk Hs]. split; [ exact Hk | ].
      simpl in *. rewrite Forall_forall in Cx.
      specialize (Cx c ltac:(apply in_map_iff; exists (k', c); auto)).
      apply (stands_for_range h1 (heap s8) (length (heap s)) x).
      + eapply closed_narrow; [ eapply chain_closed; exact Ch | lia ].
      + intros i Hi. apply At1; lia.
      + exact Cx.
      + exact Hs. }
  assert (Hcal : stands_for (heap s8) lc4 (TMapping nc cables)).
  { apply made_of_stands with (o := o4).
    - rewrite Hh8, nth_error_put_ne by lia. exact O4.
    - apply M4; [ exact X8 | ]. intros i Hi.
      rewrite Hh8. apply nth_error_put_ne. lia. }
  assert (Hroot : stands_for (heap s8) l1 t4).
  { apply stands_for_mapping with (d := dict_set d1 "CAL" lc4).
    - rewrite Hh8. apply nth_error_put_eq. lia.
    - apply (Forall2_dict_set (fun t c => stands_for (heap s8) c t));
        [ | exact Hcal ].
      apply (Forall2_dict_set_first (fun t c => stands_for (heap s8) c t))
        with (x := x).
      + apply (Forall2_entries (fun t c => c = x \/ stands_for (heap s8) c t));
          [ exact K1 | ].
        apply (chain_kept h1 (heap s8) x _ _ _ _ Ch).
        * right. left. eapply dict_get_In. exact Ex.
        * intros i Hi Hne. apply At1; [ lia | exact Hne ].
      + exact Ex.
      + eapply chain_NoDup. exact Ch.
      + exact Hccn8. }
  assert (Hh4' : (height t4 <= S (length (heap s8)))%nat).
  { assert (E4 : after_cell_4 (TMapping n nodes) = Ok t4).
    { unfold after_cell_4. rewrite Hccn, Hn. reflexivity. }
    pose proof (after_cell_4_height _ _ E4).
    pose proof (extends_length _ _ X8). lia. }
  pose proof (stands_for_value _ _ _ Hroot Hh4') as Hv8.
  assert (Hset8 : dict_get (vars s8) "dc_set" = Some (Ref l1))
    by (rewrite V8; exact Hset4).
  exists l1, s8.
  split; [ run (var_intro _ _ _ Hset8); apply display_run; exact Hv8 | ].
  split; [ rewrite V8; exact V4 | ].
  split; [ exact F8 | ].
  split; [ exact X8 | exact Hv8 ].
Qed.

(** ** The notebook, cell after cell *)



Lemma exec_7_runs s l t :
  dict_get (vars s) "dc" = Some (Ref l) ->
  value_of (Ref l) s = Ok (t, s) ->
  exec_7 s = Ok (None, {| heap := heap s; vars := vars s;
                          files := dict_set (files s) "outputs/multicable.nc" t |}).
Proof.
  intros Hdc Hv. unfold exec_7. run (var_intro _ _ _ Hdc).
  run (method_run _ "to_netcdf" _ _ Hv eq_refl).
  run (to_netcdf_run _ "outputs/multicable.nc" _ _ Hv). reflexivity.
Qed.

Lemma exec_8_runs s l t :
  dict_get (vars s) "dc" = Some (Ref l) ->
  value_of (Ref l) s = Ok (t, s) ->
  match tree_subscripts t [Str "SER"; Str "N"; Int 0] with
  | Ok a =>
      exists q s',
        exec_8 s = Ok (None, s')
        /\ subscripts (Ref l) [Str "SER"; Str "N"; Int 0] s = Ok (Ref q, s)
        /\ heap s' = heap s
        /\ vars s' = dict_set (vars s) "da" (Ref q)
        /\ files s' = dict_set (files s) "outputs/singlecable.nc" a
        /\ value_of (Ref q) s' = Ok (a, s')
  | Raise e => exec_8 s = Raise e
  end.
Proof.
  intros Hdc Hv.
  pose proof (subscripts_later [Str "SER"; Str "N"; Int 0] _ _ _ s Hv
                (extends_refl _)) as H.
  unfold exec_8.
  destruct (tree_subscripts t [Str "SER"; Str "N"; Int 0]) as [a|e].
  - destruct H as (q & Hq & Sq & Hh).
    run (subscript_intro "dc" _ s _ _ Hdc Hq).
    run (assign_run "da" (Ref q) s). name_state s1.
    assert (Hda : dict_get (vars s1) "da" = Some (Ref q)) by apply dict_get_set_eq.
    assert (Hva : value_of (Ref q) s1 = Ok (a, s1))
      by (apply stands_for_value; assumption).
    run (var_intro _ _ _ Hda).
    run (method_run _ "to_netcdf" _ _ Hva eq_refl).
    run (to_netcdf_run _ "outputs/singlecable.nc" _ _ Hva).
    eexists. eexists. split; [ reflexivity | ].
    split; [ exact Hq | ]. simpl. repeat split.
    apply stands_for_value; assumption.
  - apply bind_fail. eapply subscript_fails; eassumption.
Qed.

(** Cells 9 to 11: two selections of the object named [x], gathered in a
    list or in a dict. *)
Lemma events_list_run x obj s t :
  dict_get (vars s) "xd" = Some (PyModule "xdas") ->
  dict_get (vars s) x = Some obj ->
  value_of obj s = Ok (t, s) ->
  match shown (two_events t events_list) with
  | Ok d =>
      exists s',
        (xdas_function "xd" "DataCollection" ;;
         v <- var x ;; method v "sel" ;;
         a <- sel v "time" "2023-11-03T12:23:35" "2023-11-03T12:24:00" ;;
         v <- var x ;; method v "sel" ;;
         b <- sel v "time" "2023-11-03T12:26:40" "2023-11-03T12:27:50" ;;
         c <- DataCollection (PyList [a; b]) (Some "event") ;;
         display c)%py s = Ok (d, s')
        /\ extends (heap s) (heap s')
        /\ vars s' = vars s /\ files s' = files s
  | Raise e =>
      (xdas_function "xd" "DataCollection" ;;
       v <- var x ;; method v "sel" ;;
       a <- sel v "time" "2023-11-03T12:23:35" "2023-11-03T12:24:00" ;;
       v <- var x ;; method v "sel" ;;
       b <- sel v "time" "2023-11-03T12:26:40" "2023-11-03T12:27:50" ;;
       c <- DataCollection (PyList [a; b]) (Some "event") ;;
       display c)%py s = Raise e
  end.
Proof.
  intros Hxd Hx Ht.
  pose proof (xdas_function_intro "xd" "DataCollection" s Hxd) as Hf.
  pose proof (two_events_fail obj s t
                (fun a b => c <- DataCollection (PyList [a; b]) (Some "event") ;;
                            display c)%py x Hx Ht) as Fail.
  unfold two_events, shown, and_then.
  destruct (event_0 t) as [e0|e] eqn:E0; [ | run Hf; exact Fail ].
  destruct (event_1 t) as [e1|e] eqn:E1; [ | run Hf; exact Fail ].
  clear Fail.
  destruct (two_events_run obj s t e0 e1 Ht E0 E1)
    as (a & s1 & b & s2 & Ha & Hb & Ht1 & Va & Vb & X & V1 & V2 & F1 & F2).
  pose proof (alloc_sequence_value s2 (Some "event") [a; b] [e0; e1]
                (vars s2) (files s2)
                ltac:(repeat constructor; assumption)) as Vseq.
  cbv zeta in Vseq.
  eexists. split.
  { run Hf.
    run (var_intro _ _ _ Hx). run (method_run _ "sel" _ _ Ht eq_refl). run Ha.
    run (var_intro x s1 obj ltac:(rewrite V1; exact Hx)).
    run (method_run _ "sel" _ _ Ht1 eq_refl). run Hb.
    change [Ref a; Ref b] with (map Ref [a; b]).
    run (DataCollection_list s2 (Some "event") [a; b]).
    apply display_run. exact Vseq. }
  simpl. repeat split; try congruence. apply extends_app. exact X.
Qed.

Lemma events_dict_run x obj s t :
  dict_get (vars s) "xd" = Some (PyModule "xdas") ->
  dict_get (vars s) x = Some obj ->
  value_of obj s = Ok (t, s) ->
  match shown (two_events t events_dict) with
  | Ok d =>
      exists s',
        (xdas_function "xd" "DataCollection" ;;
         v <- var x ;; method v "sel" ;;
         a <- sel v "time" "2023-11-03T12:23:35" "2023-11-03T12:24:00" ;;
         v <- var x ;; method v "sel" ;;
         b <- sel v "time" "2023-11-03T12:26:40" "2023-11-03T12:27:50" ;;
         c <- DataCollection (PyDict [("id_000000", a); ("id_000001", b)])
                (Some "event") ;;
         display c)%py s = Ok (d, s')
        /\ extends (heap s) (heap s')
        /\ vars s' = vars s /\ files s' = files s
  | Raise e =>
      (xdas_function "xd" "DataCollection" ;;
       v <- var x ;; method v "sel" ;;
       a <- sel v "time" "2023-11-03T12:23:35" "2023-11-03T12:24:00" ;;
       v <- var x ;; method v "sel" ;;
       b <- sel v "time" "2023-11-03T12:26:40" "2023-11-03T12:27:50" ;;
       c <- DataCollection (PyDict [("id_000000", a); ("id_000001", b)])
              (Some "event") ;;
       display c)%py s = Raise e
  end.
Proof.
  intros Hxd Hx Ht.
  pose proof (xdas_function_intro "xd" "DataCollection" s Hxd) as Hf.
  pose proof (two_events_fail obj s t
                (fun a b => c <- DataCollection
                                   (PyDict [("id_000000", a); ("id_000001", b)])
                                   (Some "event") ;;
                            display c)%py x Hx Ht) as Fail.
  unfold two_events, shown, and_then.
  destruct (event_0 t) as [e0|e] eqn:E0; [ | run Hf; exact Fail ].
  destruct (event_1 t) as [e1|e] eqn:E1; [ | run Hf; exact Fail ].
  clear Fail.
  destruct (two_events_run obj s t e0 e1 Ht E0 E1)
    as (a & s1 & b & s2 & Ha & Hb & Ht1 & Va & Vb & X & V1 & V2 & F1 & F2).
  pose proof (alloc_mapping_value s2 (Some "event")
                [("id_000000", a); ("id_000001", b)]
                [("id_000000", e0); ("id_000001", e1)]
                (vars s2) (files s2)
                ltac:(repeat constructor; assumption)) as Vmap.
  cbv zeta in Vmap.
  eexists. split.
  { run Hf.
    run (var_intro _ _ _ Hx). run (method_run _ "sel" _ _ Ht eq_refl). run Ha.
    run (var_intro x s1 obj ltac:(rewrite V1; exact Hx)).
    run (method_run _ "sel" _ _ Ht1 eq_refl). run Hb.
    change [("id_000000", Ref a); ("id_000001", Ref b)]
      with (map (fun kv : string * loc => (fst kv, Ref (snd kv)))
                [("id_000000", a); ("id_000001", b)]).
    run (DataCollection_dict s2 (Some "event")
           [("id_000000", a); ("id_000001", b)]).
    change (dict_of [("id_000000", a); ("id_000001", b)])
      with [("id_000000", a); ("id_000001", b)].
    apply display_run. exact Vmap. }
  simpl. repeat split; try congruence. apply extends_app. exact X.
Qed.



(** ** The cells in order *)





(** ** Text: words and numerals *)

Lemma append_nil_r (s : string) : (s ++ "")%string = s.
Proof. induction s as [|c s IH]; simpl; [ reflexivity | rewrite IH; reflexivity ]. Qed.

Lemma append_assoc (a b c : string) : ((a ++ b) ++ c = a ++ (b ++ c))%string.
Proof. induction a as [|x a IH]; simpl; [ reflexivity | rewrite IH; reflexivity ]. Qed.

Lemma length_append (a b : string) :
  String.length (a ++ b) = String.length a + String.length b.
Proof. induction a as [|x a IH]; simpl; [ reflexivity | rewrite IH; reflexivity ]. Qed.

Lemma length_spaces n : String.length (spaces n) = n.
Proof. induction n as [|n IH]; simpl; [ reflexivity | rewrite IH; reflexivity ]. Qed.

Lemma string_of_rev_cons c r :
  string_of_rev (c :: r) = (string_of_rev r ++ String c "")%string.
Proof.
  unfold string_of_rev. simpl.
  change (String c "") with ("" ++ String c "")%string at 1.
  generalize ""%string at 1 3 as acc.
  induction r as [|x r IH]; intros acc; simpl; [ reflexivity | ].
  change (String x (acc ++ String c ""))%string
    with (String x acc ++ String c "")%string.
  apply IH.
Qed.

Lemma split_go_step cur c s :
  split_go " " 0 cur (String c s)
  = if ascii_dec " " c then string_of_rev cur :: split_go " " 0 [] s
    else split_go " " 0 (c :: cur) s.
Proof.
  change (split_go " " 0 cur (String c s))
    with (if String.prefix " " (String c s)
          then string_of_rev cur :: split_go " " 0 [] s
          else split_go " " 0 (c :: cur) s).
  change (String.prefix " " (String c s))
    with (if ascii_dec " " c then String.prefix "" s else false).
  destruct (ascii_dec " " c); [ | reflexivity ].
  destruct s; reflexivity.
Qed.

Lemma split_go_word w :
  solid w ->
  forall cur rest,
    split_go " " 0 cur (w ++ String " " rest)
    = (string_of_rev cur ++ w)%string :: split_go " " 0 [] rest.
Proof.
  induction w as [|c w IH]; intros Hw cur rest.
  - change ("" ++ String " " rest)%string with (String " " rest).
    rewrite split_go_step, append_nil_r. reflexivity.
  - destruct Hw as [Hc Hw].
    change (String c w ++ String " " rest)%string
      with (String c (w ++ String " " rest)).
    rewrite split_go_step.
    destruct (ascii_dec " " c) as [E|_]; [ congruence | ].
    rewrite IH by exact Hw. rewrite string_of_rev_cons, append_assoc.
    reflexivity.
Qed.

Lemma words_word w rest :
  solid w -> w <> ""%string ->
  words (w ++ String " " rest) = w :: words rest.
Proof.
  intros Hw Hne. unfold words, split_on.
  rewrite split_go_word by exact Hw. simpl.
  destruct (String.eqb_spec w ""); [ contradiction | reflexivity ].
Qed.

Lemma words_blank rest : words (String " " rest) = words rest.
Proof.
  unfold words, split_on.
  change (String " " rest) with ("" ++ String " " rest)%string.
  rewrite split_go_word by exact I. reflexivity.
Qed.

Lemma words_spaces n rest : words (spaces n ++ rest) = words rest.
Proof.
  induction n as [|n IH]; simpl; [ reflexivity | ].
  rewrite words_blank. exact IH.
Qed.

Lemma solid_append a b : solid a -> solid b -> solid (a ++ b).
Proof. induction a as [|c a IH]; simpl; [ auto | intros [Hc Ha] Hb; auto ]. Qed.

Lemma solid_uint d : solid (NilEmpty.string_of_uint d).
Proof. induction d; simpl; auto; split; auto; discriminate. Qed.

Lemma uint_nonempty d : d <> Decimal.Nil -> NilEmpty.string_of_uint d <> ""%string.
Proof. destruct d; simpl; congruence. Qed.

Lemma show_N_nonempty n : show_N n <> ""%string.
Proof.
  unfold show_N. apply uint_nonempty.
  destruct n as [|p]; simpl; [ discriminate | ].
  apply DecimalPos.Unsigned.to_uint_nonnil.
Qed.

Lemma show_nat_nonempty n : show_nat n <> ""%string.
Proof.
  unfold show_nat. apply uint_nonempty. intros E.
  pose proof (DecimalNat.Unsigned.of_to n) as H. rewrite E in H.
  simpl in H. subst n. discriminate.
Qed.

Lemma parse_N_show_N n : parse_N (show_N n) = Some n.
Proof.
  unfold parse_N. pose proof (show_N_nonempty n) as Hne.
  destruct (show_N n) eqn:E; [ contradiction | ].
  rewrite <- E. unfold show_N. rewrite NilEmpty.usu. simpl.
  rewrite DecimalN.Unsigned.of_to. reflexivity.
Qed.

Lemma substring_append a b : substring 0 (String.length a) (a ++ b) = a.
Proof.
  induction a as [|c a IH]; simpl.
  - destruct b; reflexivity.
  - rewrite IH. reflexivity.
Qed.

Lemma drop_end_append a b : drop_end (String.length b) (a ++ b) = a.
Proof.
  unfold drop_end. rewrite length_append, Nat.add_sub. apply substring_append.
Qed.

Lemma words_row A D1 D2 p1 p2 :
  solid A -> A <> ""%string -> solid D1 -> solid D2 ->
  words (A ++ "  " ++ (spaces p1 ++ D1) ++ "ms  " ++ (spaces p2 ++ D2) ++ "m ")
  = [A; (D1 ++ "ms")%string; (D2 ++ "m")%string].
Proof.
  intros HA HAne H1 H2.
  change ("  " ++ (spaces p1 ++ D1) ++ "ms  " ++ (spaces p2 ++ D2) ++ "m ")%string
    with (String " " (String " " ((spaces p1 ++ D1) ++ "ms  "
                                  ++ (spaces p2 ++ D2) ++ "m ")))%string.
  rewrite words_word by assumption. rewrite words_blank.
  rewrite append_assoc, words_spaces.
  change (D1 ++ "ms  " ++ (spaces p2 ++ D2) ++ "m ")%string
    with (D1 ++ "ms" ++ String " " (String " " ((spaces p2 ++ D2) ++ "m ")))%string.
  rewrite <- append_assoc.
  rewrite words_word.
  2: { apply solid_append; [ exact H1 | simpl; repeat split; discriminate ]. }
  2: { destruct D1; discriminate. }
  rewrite words_blank, append_assoc, words_spaces.
  change (D2 ++ "m ")%string with (D2 ++ "m" ++ String " " "")%string.
  rewrite <- append_assoc.
  rewrite words_word.
  2: { apply solid_append; [ exact H2 | simpl; repeat split; discriminate ]. }
  2: { destruct D2; discriminate. }
  reflexivity.
Qed.

Lemma solid_show_N n : solid (show_N n).
Proof. apply solid_uint. Qed.

Lemma solid_show_nat n : solid (show_nat n).
Proof. apply solid_uint. Qed.

Lemma nearest_is_nearest x :
  (2 * Z.abs (Z.of_N (numerator x) - Z.of_N (nearest x) * Z.pos (denominator x))
   <= Z.pos (denominator x))%Z.
Proof.
  unfold nearest.
  pose proof (N.div_mod (numerator x) (N.pos (denominator x)) ltac:(discriminate)) as E.
  pose proof (N.mod_lt (numerator x) (N.pos (denominator x)) ltac:(discriminate)) as L.
  set (q := (numerator x / N.pos (denominator x))%N) in *.
  set (r := (numerator x mod N.pos (denominator x))%N) in *.
  set (d := denominator x) in *.
  assert (Ez : Z.of_N (numerator x) = (Z.pos d * Z.of_N q + Z.of_N r)%Z).
  { rewrite E. rewrite N2Z.inj_add, N2Z.inj_mul. reflexivity. }
  rewrite Ez.
  destruct (N.ltb_spec (2 * r) (N.pos d)).
  - assert (2 * Z.of_N r < Z.pos d)%Z by lia. lia.
  - destruct (N.ltb_spec (N.pos d) (2 * r)).
    + rewrite N2Z.inj_add. simpl Z.of_N. lia.
    + assert (2 * Z.of_N r = Z.pos d)%Z by lia.
      destruct (N.even q); [ lia | rewrite N2Z.inj_add; simpl Z.of_N; lia ].
Qed.

(** * Properties of the cells, on any data *)

(** ** Opening *)

(** X1 (cell 2): once cell 1 has run, so that [xd] names the module, the
    cell displays on any data the outline of the collection that
    [open_mfdatatree] finds; [dc] then names a new object that stands for
    that collection, every object made before is kept, no other variable
    changes and no file is written.  When [open_mfdatatree] raises, the
    cell raises the same exception. *)
Theorem opening_binds_and_displays w s :
  var "xd" s = Ok (PyModule "xdas", s) ->
  match find_datatree w "data/gps_multicable/{node}/{cable}/[acquisition].hdf5"
                      "asn" with
  | Ok t =>
      exists l s',
        exec_2 w s = Ok (Some (shape_of t), s')
        /\ var "dc" s' = Ok (Ref l, s')
        /\ value_of (Ref l) s' = Ok (t, s')
        /\ (length (heap s) <= l)%nat
        /\ extends (heap s) (heap s')
        /\ vars s' = dict_set (vars s) "dc" (Ref l)
        /\ files s' = files s
  | Raise e => exec_2 w s = Raise e
  end.
Proof.
  intros Hxd. apply var_Ok in Hxd. destruct Hxd as [_ Hxd].
  pose proof (xdas_function_intro "xd" "open_mfdatatree" s Hxd) as Hf.
  pose proof (open_bind_display
                (find_datatree w "data/gps_multicable/{node}/{cable}/[acquisition].hdf5"
                               "asn") "dc" s) as H.
  destruct (find_datatree w _ _) as [t|e] eqn:E;
    [ | unfold exec_2, open_mfdatatree; run Hf; rewrite E; exact H ].
  destruct H as (l & s' & Hrun & Hb & V & F).
  exists l, s'.
  split; [ unfold exec_2, open_mfdatatree; run Hf; rewrite E; exact Hrun | ].
  split; [ apply var_intro; rewrite V; apply dict_get_set_eq | ].
  split; [ eapply built_value; exact Hb | ].
  destruct Hb as (X & L & _). repeat split; auto. lia.
Qed.

(** X1, witness: cell 2 of the session, after cell 1. *)
Lemma opening_witness :
  var "xd" (state_after 1 true) = Ok (PyModule "xdas", state_after 1 true)
  /\ exists l s',
      exec_2 (sample_data true) (state_after 1 true)
      = Ok (Some (shape_of gps_multicable), s')
      /\ var "dc" s' = Ok (Ref l, s')
      /\ value_of (Ref l) s' = Ok (gps_multicable, s')
      /\ (length (heap (state_after 1 true)) <= l)%nat
      /\ extends (heap (state_after 1 true)) (heap s')
      /\ vars s' = dict_set (vars (state_after 1 true)) "dc" (Ref l)
      /\ files s' = files (state_after 1 true).
Proof.
  assert (Hxd : var "xd" (state_after 1 true)
                = Ok (PyModule "xdas", state_after 1 true))
    by (vm_compute; reflexivity).
  split; [ exact Hxd | ].
  exact (opening_binds_and_displays (sample_data true) (state_after 1 true) Hxd).
Defined.

(** ** Setting new elements, and iterating *)

(** X3 (cell 4): on a collection of nodes that hold cables, a mapping of
    mappings, and whichever default [copy] has, the cell displays the
    collection [after_cell_4] makes of the one [dc] stands for: the cable [N]
    of the node [CCN] entered again under [S] with its first acquisition
    appended, and the node [CCN] as it was under [CAL].  [dc_set] stands
    for it afterwards, and [dc] for what it stood for.  Without the node
    [CCN] or its cable [N] the cell raises [KeyError]; when that cable is
    not a sequence it raises [AttributeError] for [append], before the
    argument of [append] is evaluated, and when it is an empty sequence,
    [IndexError]. *)
Theorem cell_4_builds_the_displayed_collection w s dc t :
  var "dc" s = Ok (dc, s) ->
  value_of dc s = Ok (t, s) ->
  tree_of_mappings t ->
  match after_cell_4 t with
  | Ok t4 =>
      exists r s',
        exec_4 w s = Ok (Some (shape_of t4), s')
        /\ var "dc_set" s' = Ok (r, s')
        /\ value_of r s' = Ok (t4, s')
        /\ var "dc" s' = Ok (dc, s')
        /\ value_of dc s' = Ok (t, s')
  | Raise e => exec_4 w s = Raise e
  end.
Proof.
  intros Hvar Hv Hshape. apply var_Ok in Hvar. destruct Hvar as [_ Hdc].
  pose proof (value_stands _ _ _ Hv) as (l & -> & _).
  pose proof (exec_4_runs w s l t Hdc Hv Hshape) as H.
  destruct (after_cell_4 t) as [t4|e]; [ | exact H ].
  destruct H as (l1 & s' & Hrun & V & F & X & Hv').
  exists (Ref l1), s'.
  split; [ exact Hrun | ].
  split; [ apply var_intro; rewrite V; apply dict_get_set_eq | ].
  split; [ exact Hv' | ].
  split; [ apply var_intro; rewrite V, dict_get_set_ne by discriminate; exact Hdc | ].
  eapply value_of_extends; eassumption.
Qed.

(** X3, witness: cell 4 of the session; what [after_cell_4] makes of the
    sample data is what the notebook recorded for the cell. *)
Lemma cell_4_witness :
  var "dc" (state_after 3 true) = Ok (Ref 8, state_after 3 true)
  /\ value_of (Ref 8) (state_after 3 true) = Ok (gps_multicable, state_after 3 true)
  /\ tree_of_mappings gps_multicable
  /\ exists t4, after_cell_4 gps_multicable = Ok t4
      /\ Some (Some (shape_of t4)) = option_map snd (nth_error recorded 3)
      /\ exists r s',
          exec_4 (sample_data true) (state_after 3 true)
          = Ok (Some (shape_of t4), s')
          /\ var "dc_set" s' = Ok (r, s')
          /\ value_of r s' = Ok (t4, s')
          /\ var "dc" s' = Ok (Ref 8, s')
          /\ value_of (Ref 8) s' = Ok (gps_multicable, s').
Proof.
  assert (Hm : tree_of_mappings gps_multicable) by (simpl; repeat constructor).
  split; [ vm_compute; reflexivity | ].
  split; [ vm_compute; reflexivity | ].
  split; [ exact Hm | ].
  eexists. split; [ vm_compute; reflexivity | ].
  split; [ vm_compute; reflexivity | ].
  refine (cell_4_builds_the_displayed_collection
            (sample_data true) (state_after 3 true) (Ref 8) gps_multicable _ _ Hm);
    vm_compute; reflexivity.
Defined.

(** X4 (cell 5): on a collection of nodes, cables and acquisitions the
    three nested loops raise nothing: every key a mapping yields indexes
    that mapping.  They leave the store and the files as they are, and
    every variable but the loop variables. *)
Theorem iteration_reads_only s dc t :
  var "dc" s = Ok (dc, s) ->
  value_of dc s = Ok (t, s) ->
  tree_of_nodes t ->
  exists s',
    exec_5 s = Ok (None, s')
    /\ heap s' = heap s /\ files s' = files s
    /\ (forall x, ~ In x loop_variables ->
                  dict_get (vars s') x = dict_get (vars s) x)
    /\ value_of dc s' = Ok (t, s').
Proof.
  intros Hv Ht Hn. apply var_Ok in Hv. destruct Hv as [_ Hv].
  pose proof (value_of_Ok _ _ _ _ Ht) as (_ & l & -> & _).
  destruct (exec_5_runs s l t Hv Ht Hn) as (s' & Hrun & Hh & Hf & Hvars).
  exists s'. repeat split; auto.
  apply (value_of_extends _ _ _ s' Ht). rewrite Hh. apply extends_refl.
Qed.

(** X4, witness: cell 5 of the session. *)
Lemma iteration_witness :
  var "dc" (state_after 4 true) = Ok (Ref 8, state_after 4 true)
  /\ value_of (Ref 8) (state_after 4 true) = Ok (gps_multicable, state_after 4 true)
  /\ tree_of_nodes gps_multicable
  /\ exists s',
      exec_5 (state_after 4 true) = Ok (None, s')
      /\ heap s' = heap (state_after 4 true)
      /\ files s' = files (state_after 4 true)
      /\ (forall x, ~ In x loop_variables ->
                    dict_get (vars s') x = dict_get (vars (state_after 4 true)) x)
      /\ value_of (Ref 8) s' = Ok (gps_multicable, s').
Proof.
  assert (Hn : tree_of_nodes gps_multicable) by (simpl; repeat constructor).
  split; [ vm_compute; reflexivity | ].
  split; [ vm_compute; reflexivity | ].
  split; [ exact Hn | ].
  refine (iteration_reads_only (state_after 4 true) (Ref 8) gps_multicable _ _ Hn);
    vm_compute; reflexivity.
Defined.

(** ** Label-based selection *)

(** X5 (cells 6 and 9 to 11): along an axis with increasing labels, a
    slice keeps exactly the samples of the window whose label lies between
    the two bounds, both bounds included. *)
Theorem slice_selects_the_labels_between c lo hi j :
  (0 < span c)%Z -> (0 < steps c)%Z ->
  in_window (slice c lo hi) j
  <-> in_window c j /\ labelled_between c lo hi j.
Proof.
  intros Hspan Hsteps. unfold slice, in_window, labelled_between.
  destruct (Z.ltb_spec 0 (span c)); [ | lia ].
  destruct (Z.ltb_spec 0 (steps c)); [ | lia ].
  cbn [andb offset size].
  pose proof (ceil_div_le ((lo - tie_first c) * steps c) (span c) j Hspan) as Hlo.
  pose proof (floor_div_ge ((hi - tie_first c) * steps c) (span c) j Hspan) as Hhi.
  set (first_in := (- (- ((lo - tie_first c) * steps c) / span c))%Z) in *.
  set (last_in := ((hi - tie_first c) * steps c / span c)%Z) in *.
  lia.
Qed.

(** X5, witness: the time axis of [CCN/N/0] and the bounds of cell 6; the
    sample 24625 carries the label 12:26:40 and is kept. *)
Lemma slice_witness :
  let c := time_axis "2023-11-03T12:20:06.000" "2023-11-03T12:30:05.984" 37500 in
  (0 < span c)%Z /\ (0 < steps c)%Z
  /\ (in_window (slice c 1699014400000 1699014470000) 24625
      <-> in_window c 24625
          /\ labelled_between c 1699014400000 1699014470000 24625).
Proof.
  intros c.
  assert (Hspan : (0 < span c)%Z) by (vm_compute; reflexivity).
  assert (Hsteps : (0 < steps c)%Z) by (vm_compute; reflexivity).
  split; [ exact Hspan | ]. split; [ exact Hsteps | ].
  exact (slice_selects_the_labels_between c 1699014400000 1699014470000 24625
           Hspan Hsteps).
Defined.

(** X6 (cells 6, 8, 9 and 11): where a selection leaves samples in every
    array, selecting and indexing commute: the element that keys reach in
    the selection and the selection of the element they reach in the
    collection are objects that stand for the same value.  So the array
    [SER/N/0] of the selection of cell 6 is the selection cell 9 takes from
    [da]. *)
Theorem selection_commutes_with_indexing obj lo hi a b keys s t u :
  parse_datetime lo = Some a ->
  parse_datetime hi = Some b ->
  value_of obj s = Ok (t, s) ->
  keeps_samples "time" a b t ->
  tree_subscripts t keys = Ok u ->
  exists r s1 v r' s2 v' u',
    sel obj "time" lo hi s = Ok (r, s1)
    /\ subscripts obj keys s = Ok (v, s)
    /\ sel v "time" lo hi s = Ok (r', s2)
    /\ subscripts r keys s1 = Ok (v', s1)
    /\ value_of r' s2 = Ok (u', s2)
    /\ value_of v' s1 = Ok (u', s1).
Proof.
  intros Ha Hb Ht Hk Hu.
  destruct (sel_tree_subscripts "time" a b keys t u Hk Hu)
    as (_ & t' & u' & Ht' & Hu' & Hsub).
  pose proof (sel_run obj lo hi s t Ht) as Hrun.
  unfold event in Hrun. rewrite Ha, Hb, Ht' in Hrun.
  destruct Hrun as (l & s1 & Hsel & Hbuilt & _).
  pose proof (built_value _ _ _ _ Hbuilt) as Hr.
  pose proof (subscripts_value keys _ _ _ Ht) as H1. rewrite Hu in H1.
  destruct H1 as (v & Hv & Hvu).
  pose proof (subscripts_value keys _ _ _ Hr) as H2. rewrite Hsub in H2.
  destruct H2 as (v' & Hv' & Hvu').
  pose proof (sel_run v lo hi s u Hvu) as Hrun1.
  unfold event in Hrun1. rewrite Ha, Hb, Hu' in Hrun1.
  destruct Hrun1 as (l1 & s2 & Hsel1 & Hbuilt1 & _).
  exists (Ref l), s1, v, (Ref l1), s2, v', u'.
  repeat split; auto. eapply built_value; exact Hbuilt1.
Qed.

(** X6, witness: the selection of cell 6 and the keys of cell 8. *)
Lemma selection_commutes_witness :
  parse_datetime "2023-11-03T12:26:40" = Some 1699014400000%Z
  /\ parse_datetime "2023-11-03T12:27:50" = Some 1699014470000%Z
  /\ value_of (Ref 8) (state_after 5 true) = Ok (gps_multicable, state_after 5 true)
  /\ keeps_samples "time" 1699014400000 1699014470000 gps_multicable
  /\ tree_subscripts gps_multicable [Str "SER"; Str "N"; Int 0] = Ok SER_N_0
  /\ exists r s1 v r' s2 v' u',
      sel (Ref 8) "time" "2023-11-03T12:26:40" "2023-11-03T12:27:50"
          (state_after 5 true) = Ok (r, s1)
      /\ subscripts (Ref 8) [Str "SER"; Str "N"; Int 0] (state_after 5 true)
         = Ok (v, state_after 5 true)
      /\ sel v "time" "2023-11-03T12:26:40" "2023-11-03T12:27:50"
             (state_after 5 true) = Ok (r', s2)
      /\ subscripts r [Str "SER"; Str "N"; Int 0] s1 = Ok (v', s1)
      /\ value_of r' s2 = Ok (u', s2)
      /\ value_of v' s1 = Ok (u', s1).
Proof.
  assert (Ha : parse_datetime "2023-11-03T12:26:40" = Some 1699014400000%Z)
    by (vm_compute; reflexivity).
  assert (Hb : parse_datetime "2023-11-03T12:27:50" = Some 1699014470000%Z)
    by (vm_compute; reflexivity).
  assert (Ht : value_of (Ref 8) (state_after 5 true)
               = Ok (gps_multicable, state_after 5 true))
    by (vm_compute; reflexivity).
  assert (Hu : tree_subscripts gps_multicable [Str "SER"; Str "N"; Int 0]
               = Ok SER_N_0) by reflexivity.
  split; [ exact Ha | ]. split; [ exact Hb | ]. split; [ exact Ht | ].
  split; [ exact event_1_keeps_samples | ]. split; [ exact Hu | ].
  exact (selection_commutes_with_indexing
           (Ref 8) _ _ _ _ [Str "SER"; Str "N"; Int 0] _ _ _
           Ha Hb Ht event_1_keeps_samples Hu).
Defined.

(** ** Saving, gathering events, opening again *)

(** X7 (cells 7 and 8): cell 7 writes the value of [dc] under
    [outputs/multicable.nc] and changes nothing else.  Cell 8 then binds
    [da] to the very object [dc["SER"]["N"][0]], not to a copy, and writes
    its value under [outputs/singlecable.nc], keeping the first file; it
    raises what the indexing raises. *)
Theorem saving_writes_the_values s dc t :
  var "dc" s = Ok (dc, s) ->
  value_of dc s = Ok (t, s) ->
  exists s7,
    exec_7 s = Ok (None, s7)
    /\ heap s7 = heap s /\ vars s7 = vars s
    /\ files s7 = dict_set (files s) "outputs/multicable.nc" t
    /\ match tree_subscripts t [Str "SER"; Str "N"; Int 0] with
       | Ok a =>
           exists s8 da,
             exec_8 s7 = Ok (None, s8)
             /\ heap s8 = heap s
             /\ vars s8 = dict_set (vars s) "da" da
             /\ files s8 = dict_set (files s7) "outputs/singlecable.nc" a
             /\ subscript "dc" [Str "SER"; Str "N"; Int 0] s8 = Ok (da, s8)
             /\ value_of da s8 = Ok (a, s8)
       | Raise e => exec_8 s7 = Raise e
       end.
Proof.
  intros Hv Ht. apply var_Ok in Hv. destruct Hv as [_ Hv].
  pose proof (value_of_Ok _ _ _ _ Ht) as (_ & l & -> & _).
  set (s7 := {| heap := heap s; vars := vars s;
                files := dict_set (files s) "outputs/multicable.nc" t |}).
  exists s7. split; [ exact (exec_7_runs s l t Hv Ht) | ].
  repeat (split; [ reflexivity | ]).
  assert (Ht7 : value_of (Ref l) s7 = Ok (t, s7))
    by (apply (value_of_extends _ _ _ s7 Ht), extends_refl).
  pose proof (exec_8_runs s7 l t Hv Ht7) as H8.
  destruct (tree_subscripts t [Str "SER"; Str "N"; Int 0]) as [a|e];
    [ | exact H8 ].
  destruct H8 as (q & s8 & Hrun & Hq & Hh & V & F & Hva).
  exists s8, (Ref q).
  split; [ exact Hrun | ]. split; [ exact Hh | ]. split; [ exact V | ].
  split; [ exact F | ]. split; [ | exact Hva ].
  apply subscript_intro with (v := Ref l).
  - rewrite V. simpl. rewrite dict_get_set_ne by discriminate. exact Hv.
  - apply (subscripts_extends _ _ s7); [ exact Hq | ].
    rewrite Hh. apply extends_refl.
Qed.

(** X7, witness: cells 7 and 8 of the session. *)
Lemma saving_witness :
  var "dc" (state_after 6 true) = Ok (Ref 8, state_after 6 true)
  /\ value_of (Ref 8) (state_after 6 true) = Ok (gps_multicable, state_after 6 true)
  /\ exists s7,
      exec_7 (state_after 6 true) = Ok (None, s7)
      /\ heap s7 = heap (state_after 6 true)
      /\ vars s7 = vars (state_after 6 true)
      /\ files s7 = dict_set (files (state_after 6 true))
                             "outputs/multicable.nc" gps_multicable
      /\ exists s8 da,
          exec_8 s7 = Ok (None, s8)
          /\ heap s8 = heap (state_after 6 true)
          /\ vars s8 = dict_set (vars (state_after 6 true)) "da" da
          /\ files s8 = dict_set (files s7) "outputs/singlecable.nc" SER_N_0
          /\ subscript "dc" [Str "SER"; Str "N"; Int 0] s8 = Ok (da, s8)
          /\ value_of da s8 = Ok (SER_N_0, s8).
Proof.
  split; [ vm_compute; reflexivity | ].
  split; [ vm_compute; reflexivity | ].
  refine (saving_writes_the_values (state_after 6 true) (Ref 8) gps_multicable
            _ _); vm_compute; reflexivity.
Defined.

(** X8 (cells 9 and 10): once cell 1 has run, and where the two windows
    of the cells leave samples in what [da] stands for, the two cells gather
    the same two selections of it, cell 9 in a list, displayed under the
    keys 0 and 1, and cell 10 in a dict, displayed under the keys written
    in the cell; both are titled [Event], the name given with its first
    letter in upper case, and each selection has the outline of [da] with
    a size along [time] that is not larger.  [da] and the variables are
    left as they are. *)
Theorem events_as_list_and_as_dict s da t :
  var "xd" s = Ok (PyModule "xdas", s) ->
  var "da" s = Ok (da, s) ->
  value_of da s = Ok (t, s) ->
  events_keep_samples t ->
  exists e0 e1 s9 s10,
    event_0 t = Ok e0 /\ event_1 t = Ok e1
    /\ shrinks "time" (shape_of t) (shape_of e0)
    /\ shrinks "time" (shape_of t) (shape_of e1)
    /\ exec_9 s
       = Ok (Some (Collection "Event" [("0", shape_of e0); ("1", shape_of e1)]),
             s9)
    /\ exec_10 s
       = Ok (Some (Collection "Event" [("id_000000", shape_of e0);
                                       ("id_000001", shape_of e1)]), s10)
    /\ extends (heap s) (heap s9) /\ extends (heap s) (heap s10)
    /\ vars s9 = vars s /\ vars s10 = vars s
    /\ files s9 = files s /\ files s10 = files s.
Proof.
  intros Hxd Hv Ht [W0 W1].
  apply var_Ok in Hxd. destruct Hxd as [_ Hxd].
  apply var_Ok in Hv. destruct Hv as [_ Hv].
  destruct (within_event _ _ _ W0) as [e0 E0].
  destruct (within_event _ _ _ W1) as [e1 E1].
  pose proof (within_shrinks _ _ _ _ W0 E0) as S0.
  pose proof (within_shrinks _ _ _ _ W1 E1) as S1.
  pose proof (events_list_run "da" da s t Hxd Hv Ht) as H9.
  pose proof (events_dict_run "da" da s t Hxd Hv Ht) as H10.
  unfold shown, two_events, and_then in H9, H10.
  fold event_0 in E0. fold event_1 in E1.
  rewrite E0, E1 in H9, H10.
  destruct H9 as (s9 & Hrun9 & X9 & V9 & F9).
  destruct H10 as (s10 & Hrun10 & X10 & V10 & F10).
  exists e0, e1, s9, s10.
  split; [ exact E0 | ]. split; [ exact E1 | ].
  split; [ exact S0 | ]. split; [ exact S1 | ].
  split; [ exact Hrun9 | ]. split; [ exact Hrun10 | ]. auto 8.
Qed.

(** X8, witness: cells 9 and 10 of the session, on [SER/N/0]. *)
Lemma events_witness :
  var "xd" (state_after 8 true) = Ok (PyModule "xdas", state_after 8 true)
  /\ var "da" (state_after 8 true) = Ok (Ref 3, state_after 8 true)
  /\ value_of (Ref 3) (state_after 8 true) = Ok (SER_N_0, state_after 8 true)
  /\ events_keep_samples SER_N_0
  /\ exists e0 e1 s9 s10,
      event_0 SER_N_0 = Ok e0 /\ event_1 SER_N_0 = Ok e1
      /\ shrinks "time" (shape_of SER_N_0) (shape_of e0)
      /\ shrinks "time" (shape_of SER_N_0) (shape_of e1)
      /\ exec_9 (state_after 8 true)
         = Ok (Some (Collection "Event" [("0", shape_of e0); ("1", shape_of e1)]),
               s9)
      /\ exec_10 (state_after 8 true)
         = Ok (Some (Collection "Event" [("id_000000", shape_of e0);
                                         ("id_000001", shape_of e1)]), s10)
      /\ extends (heap (state_after 8 true)) (heap s9)
      /\ extends (heap (state_after 8 true)) (heap s10)
      /\ vars s9 = vars (state_after 8 true)
      /\ vars s10 = vars (state_after 8 true)
      /\ files s9 = files (state_after 8 true)
      /\ files s10 = files (state_after 8 true).
Proof.
  destruct sample_events_keep_samples as [W0 W1].
  assert (Hk : events_keep_samples SER_N_0).
  { split.
    - exact (within_subscripts "2023-11-03T12:23:35" "2023-11-03T12:24:00"
               [Str "SER"; Str "N"; Int 0] gps_multicable SER_N_0 W0 eq_refl).
    - exact (within_subscripts "2023-11-03T12:26:40" "2023-11-03T12:27:50"
               [Str "SER"; Str "N"; Int 0] gps_multicable SER_N_0 W1 eq_refl). }
  split; [ vm_compute; reflexivity | ].
  split; [ vm_compute; reflexivity | ].
  split; [ vm_compute; reflexivity | ].
  split; [ exact Hk | ].
  refine (events_as_list_and_as_dict (state_after 8 true) (Ref 3) SER_N_0 _ _ _ Hk);
    vm_compute; reflexivity.
Defined.

(** X9 (cell 13 against cells 3, 4, 5 and 8): once cell 1 has run, cell 13
    gives the name [dc] to what [open_mfdataarray] returns.  When that is a
    sequence, as in the notebook, the cells that index [dc] by the name of a
    node no longer run: cells 3, 4 and 8 raise [TypeError], and so does
    cell 5 unless the sequence is empty. *)
Theorem rebinding_dc_breaks_earlier_cells w s n items :
  var "xd" s = Ok (PyModule "xdas", s) ->
  find_dataarray w "data/gps_multiacq/*.hdf5" "asn" = Ok (TSequence n items) ->
  exists s',
    exec_13 w s = Ok (Some (shape_of (TSequence n items)), s')
    /\ exec_3 s' = Raise TypeError
    /\ exec_4 w s' = Raise TypeError
    /\ exec_8 s' = Raise TypeError
    /\ (items <> [] -> exec_5 s' = Raise TypeError).
Proof.
  intros Hxd Hfind. apply var_Ok in Hxd. destruct Hxd as [_ Hxd].
  pose proof (xdas_function_intro "xd" "open_mfdataarray" s Hxd) as Hf.
  pose proof (open_bind_display
                (find_dataarray w "data/gps_multiacq/*.hdf5" "asn") "dc" s) as H.
  rewrite Hfind in H. destruct H as (l & s' & Hrun & Hb & V & F).
  assert (Hdc : dict_get (vars s') "dc" = Some (Ref l))
    by (rewrite V; apply dict_get_set_eq).
  pose proof (built_value _ _ _ _ Hb) as Hv.
  exists s'.
  split; [ unfold exec_13, open_mfdataarray; run Hf; rewrite Hfind; exact Hrun | ].
  split.
  { unfold exec_3. apply bind_fail. apply subscript_fails with (v := Ref l);
      [ exact Hdc | ].
    exact (subscripts_value [Str "CCN"; Str "N"; Int 0] _ _ _ Hv). }
  split.
  { unfold exec_4. run (var_intro _ _ _ Hdc).
    run (method_run _ "copy" _ _ Hv eq_refl).
    destruct (deep_copy_run w _ _ _ Hv) as (c & s1 & Hc & Hbc & V1 & F1).
    run Hc. run (assign_run "dc_set" (Ref c) s1).
    apply bind_fail. apply subscript_fails with (v := Ref l).
    - simpl. rewrite dict_get_set_ne by discriminate. rewrite V1. exact Hdc.
    - match goal with
      | |- subscripts _ _ ?s2 = _ =>
          assert (Hv2 : value_of (Ref l) s2 = Ok (TSequence n items, s2))
            by (apply (value_of_extends _ s'); [ exact Hv | apply Hbc ])
      end.
      exact (subscripts_value [Str "CCN"; Str "N"] _ _ _ Hv2). }
  split.
  { unfold exec_8. apply bind_fail. apply subscript_fails with (v := Ref l);
      [ exact Hdc | ].
    exact (subscripts_value [Str "SER"; Str "N"; Int 0] _ _ _ Hv). }
  intros Hne.
  pose proof (value_of_Ok _ _ _ _ Hv) as (_ & l0 & [= <-] & Hsnap).
  apply snapshot_sequence in Hsnap. destruct Hsnap as (cs & Hl & fuel & _ & Fcs).
  destruct cs as [|c cs].
  { inversion Fcs. subst. contradiction. }
  unfold exec_5. run (var_intro _ _ _ Hdc).
  run (iterate_sequence _ _ _ _ Hl).
  apply bind_fail. simpl map. simpl for_.
  run (assign_run "node" (Ref c) s').
  apply bind_fail.
  match goal with
  | |- bind _ _ ?s2 = _ =>
      assert (Hnode : dict_get (vars s2) "node" = Some (Ref c))
        by apply dict_get_set_eq;
      assert (Hdc2 : dict_get (vars s2) "dc" = Some (Ref l))
        by (simpl; rewrite dict_get_set_ne by discriminate; exact Hdc);
      assert (Hv2 : value_of (Ref l) s2 = Ok (TSequence n items, s2))
        by (apply (value_of_extends _ _ _ s2 Hv), extends_refl)
  end.
  run (var_intro _ _ _ Hnode).
  apply bind_fail. apply subscript_fails with (v := Ref l); [ exact Hdc2 | ].
  exact (subscripts_value [Ref c] _ _ _ Hv2).
Qed.

(** X9, witness: cell 13 of the session, on the sample data. *)
Lemma rebinding_dc_witness :
  var "xd" (state_after 11 true) = Ok (PyModule "xdas", state_after 11 true)
  /\ find_dataarray (sample_data true) "data/gps_multiacq/*.hdf5" "asn"
     = Ok gps_multiacq
  /\ exists s',
      exec_13 (sample_data true) (state_after 11 true)
      = Ok (Some (shape_of gps_multiacq), s')
      /\ exec_3 s' = Raise TypeError
      /\ exec_4 (sample_data true) s' = Raise TypeError
      /\ exec_8 s' = Raise TypeError
      /\ (match gps_multiacq with TSequence _ items => items | _ => [] end <> []
          -> exec_5 s' = Raise TypeError).
Proof.
  assert (Hxd : var "xd" (state_after 11 true)
                = Ok (PyModule "xdas", state_after 11 true))
    by (vm_compute; reflexivity).
  split; [ exact Hxd | ].
  split; [ reflexivity | ].
  exact (rebinding_dc_breaks_earlier_cells
           (sample_data true) (state_after 11 true) None _ Hxd eq_refl).
Defined.

(** ** The table of sampling intervals *)

(** X10 (cell 14): a row printed for values that are not negative reads
    back as the two values rounded to the nearest integer, the even one at
    a tie, and so within one half of each value; a field is two characters
    wide or as wide as its number, never cut.  The lines the notebook
    recorded are the header and the rows for 16 and 15, 10 and 15, 10 and
    4. *)
Theorem table_rows_read_back acq x y :
  negative x = false -> negative y = false ->
  printed_interval (row acq x y)
  = Some (Z.of_N (nearest x), Z.of_N (nearest y))
  /\ (2 * Z.abs (Z.of_N (numerator x) - Z.of_N (nearest x) * Z.pos (denominator x))
      <= Z.pos (denominator x))%Z
  /\ (2 * Z.abs (Z.of_N (numerator y) - Z.of_N (nearest y) * Z.pos (denominator y))
      <= Z.pos (denominator y))%Z
  /\ String.length (row acq x y)
     = String.length (show_nat acq) + 8
       + Nat.max 2 (String.length (show_N (nearest x)))
       + Nat.max 2 (String.length (show_N (nearest y)))
  /\ printed In_14
     = header ++ [row 0 (whole 16) (whole 15); row 1 (whole 10) (whole 15);
                  row 2 (whole 10) (whole 4)].
Proof.
  intros Hx Hy.
  split; [ | split; [ apply nearest_is_nearest | ] ].
  2: split; [ apply nearest_is_nearest | ].
  all: unfold row, rjust, fixed_0; rewrite Hx, Hy.
  all: change ("" ++ show_N (nearest x))%string with (show_N (nearest x)).
  all: change ("" ++ show_N (nearest y))%string with (show_N (nearest y)).
  - unfold printed_interval.
    match goal with
    | |- context [filter _ (split_on " " ?l)] =>
        change (filter _ (split_on " " l)) with (words l)
    end.
    rewrite words_row;
      auto using solid_show_N, solid_show_nat, show_nat_nonempty.
    change 2 with (String.length "ms") at 1.
    change 1 with (String.length "m") at 1.
    rewrite !drop_end_append. unfold parse_Z.
    rewrite !parse_N_show_N. reflexivity.
  - split; [ | reflexivity ].
    rewrite !length_append, !length_spaces. simpl String.length. lia.
Qed.

(** X10, witness: a value between two integers and one at a tie. *)
Lemma table_rows_witness :
  let dt := {| negative := false; numerator := 31; denominator := 2 |} in
  let dx := {| negative := false; numerator := 9; denominator := 2 |} in
  negative dt = false /\ negative dx = false
  /\ row 2 dt dx = "2  16ms   4m "
  /\ printed_interval (row 2 dt dx) = Some (16%Z, 4%Z).
Proof.
  intros dt dx.
  split; [ reflexivity | ]. split; [ reflexivity | ].
  split; [ vm_compute; reflexivity | ].
  exact (proj1 (table_rows_read_back 2 dt dx eq_refl eq_refl)).
Defined.

(** ** The whole notebook *)


